(** * Analemma Vision Engine: solar-position and sky-projection pipeline

    A shallow embedding of [analemma/calculator.py], [analemma/sky_mapper.py],
    [analemma/image_anchor.py] and [analemma/metadata_parser.py].

    Conventions of the embedding.
    - A Python/NumPy [float] is a value of [NP.float64]: an exact real number
      [Fin r] or one of the IEEE-754 specials [PInf], [NInf], [NaN].  Rounding
      is not modelled: arithmetic on finite values is arithmetic in [R], and
      the specials follow the IEEE rules NumPy applies (a division by zero
      yields an infinity or [NaN] and only warns; [NaN] propagates and
      compares false).  Signed zeros are not distinguished.
    - A Python [int] is a [Z]; a [str] is a [string].
    - A call that may raise returns a [result]; the exception keeps its Python
      class and message.
    - Instance attributes are record fields; a method that assigns to [self]
      returns the updated record. *)

From Stdlib Require Import Reals Lra Lia ZArith List String Bool Psatz.
From Stdlib Require DecimalString.
Import ListNotations.

Open Scope R_scope.

(** ** Python exceptions and fallible calls *)

Inductive exn : Type :=
| RuntimeError (msg : string)
| ValueError (msg : string)
| ZeroDivisionError (msg : string)
| OverflowError (msg : string)
| TypeError (msg : string).

Inductive result (A : Type) : Type :=
| Ok (a : A)
| Raise (e : exn).

Arguments Ok {A} a.
Arguments Raise {A} e.

Definition bind {A B : Type} (m : result A) (k : A -> result B) : result B :=
  match m with
  | Ok a => k a
  | Raise e => Raise e
  end.

Notation "x <- m ;; k" := (bind m (fun x => k))
  (at level 61, m at next level, right associativity).
Notation "' p <- m ;; k" := (bind m (fun x => match x with p => k end))
  (at level 61, p pattern, m at next level, right associativity).

(** ** NumPy double-precision scalars *)

Module NP.

Inductive float64 : Type :=
| Fin (r : R)
| PInf
| NInf
| NaN.

Definition inf (positive : bool) : float64 := if positive then PInf else NInf.

(** The infinity of sign [positive] scaled by the finite factor [r]
    (multiplication, or division by [r] with a positive zero). *)
Definition scale_inf (zero : float64) (positive : bool) (r : R) : float64 :=
  if Req_dec_T r 0 then zero
  else if Rlt_dec 0 r then inf positive else inf (negb positive).

Definition neg (x : float64) : float64 :=
  match x with
  | Fin r => Fin (- r)
  | PInf => NInf
  | NInf => PInf
  | NaN => NaN
  end.

Definition add (x y : float64) : float64 :=
  match x, y with
  | NaN, _ | _, NaN => NaN
  | Fin a, Fin b => Fin (a + b)
  | PInf, NInf | NInf, PInf => NaN
  | PInf, _ | _, PInf => PInf
  | NInf, _ | _, NInf => NInf
  end.

Definition sub (x y : float64) : float64 := add x (neg y).

Definition mul (x y : float64) : float64 :=
  match x, y with
  | NaN, _ | _, NaN => NaN
  | Fin a, Fin b => Fin (a * b)
  | PInf, Fin r | Fin r, PInf => scale_inf NaN true r
  | NInf, Fin r | Fin r, NInf => scale_inf NaN false r
  | PInf, PInf | NInf, NInf => PInf
  | PInf, NInf | NInf, PInf => NInf
  end.

(** True division of NumPy scalars: a zero divisor gives [NaN] for [0/0] and
    a signed infinity otherwise; nothing is raised. *)
Definition div (x y : float64) : float64 :=
  match x, y with
  | NaN, _ | _, NaN => NaN
  | Fin a, Fin b =>
      if Req_dec_T b 0 then scale_inf NaN true a else Fin (a / b)
  | Fin _, (PInf | NInf) => Fin 0
  | PInf, Fin r => scale_inf PInf true r
  | NInf, Fin r => scale_inf NInf false r
  | (PInf | NInf), (PInf | NInf) => NaN
  end.

Definition abs (x : float64) : float64 :=
  match x with
  | Fin r => Fin (Rabs r)
  | PInf | NInf => PInf
  | NaN => NaN
  end.

(** [x > y]; any comparison with [NaN] is false. *)
Definition gtb (x y : float64) : bool :=
  match x, y with
  | NaN, _ | _, NaN => false
  | Fin a, Fin b => if Rgt_dec a b then true else false
  | PInf, (Fin _ | NInf) => true
  | Fin _, NInf => true
  | _, _ => false
  end.

(** [x < y]. *)
Definition ltb (x y : float64) : bool := gtb y x.

Definition sin (x : float64) : float64 :=
  match x with
  | Fin r => Fin (Rtrigo_def.sin r)
  | _ => NaN
  end.

Definition cos (x : float64) : float64 :=
  match x with
  | Fin r => Fin (Rtrigo_def.cos r)
  | _ => NaN
  end.

(** The tangent is the quotient of sine by cosine; at a pole of the exact
    tangent the quotient is the division by zero above. *)
Definition tan (x : float64) : float64 := div (sin x) (cos x).

(** [np.arcsin] and [np.arccos] are defined on [[-1, 1]] and return [NaN]
    elsewhere. *)
Definition arcsin (x : float64) : float64 :=
  match x with
  | Fin r => if Rle_dec (-1) r then if Rle_dec r 1 then Fin (asin r) else NaN
             else NaN
  | _ => NaN
  end.


(** Two-argument arctangent on finite reals, with values in [(-PI, PI]]. *)
Definition atan2 (y x : R) : R :=
  if Rlt_dec 0 x then atan (y / x)
  else if Rlt_dec x 0 then
    if Rle_dec 0 y then atan (y / x) + PI else atan (y / x) - PI
  else if Rlt_dec 0 y then PI / 2
  else if Rlt_dec y 0 then - (PI / 2)
  else 0.

(** [np.arctan2 y x] with the C99 values at the infinities. *)
Definition arctan2 (y x : float64) : float64 :=
  match y, x with
  | NaN, _ | _, NaN => NaN
  | Fin a, Fin b => Fin (atan2 a b)
  | Fin a, PInf => Fin 0
  | Fin a, NInf => if Rle_dec 0 a then Fin PI else Fin (- PI)
  | PInf, Fin _ => Fin (PI / 2)
  | NInf, Fin _ => Fin (- (PI / 2))
  | PInf, PInf => Fin (PI / 4)
  | NInf, PInf => Fin (- (PI / 4))
  | PInf, NInf => Fin (3 * PI / 4)
  | NInf, NInf => Fin (- (3 * PI / 4))
  end.

Definition arctan (x : float64) : float64 :=
  match x with
  | Fin r => Fin (atan r)
  | PInf => Fin (PI / 2)
  | NInf => Fin (- (PI / 2))
  | NaN => NaN
  end.

(** [np.radians] and [np.degrees]: scaling by [PI/180] and [180/PI]. *)
Definition radians (x : float64) : float64 := mul x (Fin (PI / 180)).
Definition degrees (x : float64) : float64 := mul x (Fin (180 / PI)).

(** Python's [x % m] for a finite non-zero literal [m]: the remainder has the
    sign of [m]; the remainder of an infinity or of [NaN] is [NaN]. *)
Definition mod_ (x : float64) (m : R) : float64 :=
  match x with
  | Fin r => Fin (r - m * IZR (Zfloor (r / m)))
  | _ => NaN
  end.

(** Python's [x // m] for a finite non-zero literal [m]. *)
Definition floordiv (x : float64) (m : R) : float64 :=
  match x with
  | Fin r => Fin (IZR (Zfloor (r / m)))
  | _ => NaN
  end.

(** An [int] operand converted to a float. *)
Definition of_int (z : Z) : float64 := Fin (IZR z).

(** [int(x)]: truncation toward zero; [NaN] and the infinities raise. *)
Definition to_int (x : float64) : result Z :=
  match x with
  | Fin r => Ok (if Rle_dec 0 r then Zfloor r else (- Zfloor (- r))%Z)
  | NaN => Raise (ValueError "cannot convert float NaN to integer")
  | PInf | NInf => Raise (OverflowError "cannot convert float infinity to integer")
  end.

(** Python's [round(x)] on a float: nearest integer, ties to even. *)
Definition round (x : float64) : result Z :=
  match x with
  | Fin r =>
      let f := Zfloor r in
      let d := r - IZR f in
      Ok (if Rlt_dec d (1 / 2) then f
          else if Rlt_dec (1 / 2) d then (f + 1)%Z
          else if Z.even f then f else (f + 1)%Z)
  | NaN => Raise (ValueError "cannot convert float NaN to integer")
  | PInf | NInf => Raise (OverflowError "cannot convert float infinity to integer")
  end.

(** True division of built-in floats: a zero divisor raises. *)
Definition py_truediv (x y : float64) : result float64 :=
  match y with
  | Fin r =>
      if Req_dec_T r 0 then Raise (ZeroDivisionError "float division by zero")
      else Ok (div x y)
  | _ => Ok (div x y)
  end.

Definition is_finite (x : float64) : Prop :=
  match x with
  | Fin _ => True
  | _ => False
  end.

End NP.

Declare Scope np_scope.
Delimit Scope np_scope with np.
Bind Scope np_scope with NP.float64.
Infix "+" := NP.add : np_scope.
Infix "-" := NP.sub : np_scope.
Infix "*" := NP.mul : np_scope.
Infix "/" := NP.div : np_scope.
Notation "- x" := (NP.neg x) : np_scope.
Notation "# r" := (NP.Fin r) (at level 5, r at level 1, format "# r") : np_scope.

Open Scope string_scope.

(** ** [datetime.datetime] *)

Record datetime : Type := mk_datetime {
  dt_year : Z;
  dt_month : Z;
  dt_day : Z;
  dt_hour : Z;
  dt_minute : Z
}.

Definition is_leap (y : Z) : bool :=
  ((y mod 4 =? 0) && (negb (y mod 100 =? 0) || (y mod 400 =? 0)))%Z.

Definition days_before_month (y m : Z) : Z :=
  (nth (Z.to_nat (m - 1)) [0; 31; 59; 90; 120; 151; 181; 212; 243; 273; 304; 334] 0
   + if (2 <? m) && is_leap y then 1 else 0)%Z.

(** [dt.timetuple().tm_yday]: the day of the year, 1 for 1 January. *)
Definition tm_yday (dt : datetime) : Z :=
  (days_before_month (dt_year dt) (dt_month dt) + dt_day dt)%Z.

Definition days_in_month (y m : Z) : Z :=
  (nth (Z.to_nat (m - 1)) [31; 28; 31; 30; 31; 30; 31; 31; 30; 31; 30; 31] 0
   + if (m =? 2) && is_leap y then 1 else 0)%Z.

(** [str(n)] for an [int]. *)
Definition str_of_int (n : Z) : string :=
  DecimalString.NilZero.string_of_int (Z.to_int n).

(** The constructor [datetime(year, month, day, hour, minute)]: the date
    fields are checked first, then the time fields. *)
Definition datetime_new (year month day hour minute : Z) : result datetime :=
  if negb ((1 <=? year) && (year <=? 9999))%Z then
    Raise (ValueError ("year " ++ str_of_int year ++ " is out of range"))
  else if negb ((1 <=? month) && (month <=? 12))%Z then
    Raise (ValueError "month must be in 1..12")
  else if negb ((1 <=? day) && (day <=? days_in_month year month))%Z then
    Raise (ValueError "day is out of range for month")
  else if negb ((0 <=? hour) && (hour <=? 23))%Z then
    Raise (ValueError "hour must be in 0..23")
  else if negb ((0 <=? minute) && (minute <=? 59))%Z then
    Raise (ValueError "minute must be in 0..59")
  else Ok (mk_datetime year month day hour minute).

(** The following day, at the same time; the calendar ends with year 9999. *)
Definition next_day (dt : datetime) : result datetime :=
  if (dt_day dt <? days_in_month (dt_year dt) (dt_month dt))%Z then
    Ok (mk_datetime (dt_year dt) (dt_month dt) (dt_day dt + 1)
          (dt_hour dt) (dt_minute dt))
  else if (dt_month dt <? 12)%Z then
    Ok (mk_datetime (dt_year dt) (dt_month dt + 1) 1 (dt_hour dt) (dt_minute dt))
  else if (dt_year dt <? 9999)%Z then
    Ok (mk_datetime (dt_year dt + 1) 1 1 (dt_hour dt) (dt_minute dt))
  else Raise (OverflowError "date value out of range").

(** [dt + timedelta(days=n)] for [n >= 0], as [n] steps to the following
    day. *)
Fixpoint add_days (dt : datetime) (n : nat) : result datetime :=
  match n with
  | O => Ok dt
  | S n' => d <- add_days dt n' ;; next_day d
  end.

(** A loop that appends one result per item and stops at the first
    exception. *)
Fixpoint for_each {A B : Type} (f : A -> result B) (l : list A)
  : result (list B) :=
  match l with
  | [] => Ok []
  | a :: l' => b <- f a ;; bs <- for_each f l' ;; Ok (b :: bs)
  end.

(** The built-ins [min] and [max] on a list of floats: the first item is
    kept until a strictly smaller (larger) one is met; an empty list
    raises. *)
Definition py_min (l : list NP.float64) : result NP.float64 :=
  match l with
  | [] => Raise (ValueError "min() arg is an empty sequence")
  | x :: xs => Ok (fold_left (fun m y => if NP.ltb y m then y else m) xs x)
  end.

Definition py_max (l : list NP.float64) : result NP.float64 :=
  match l with
  | [] => Raise (ValueError "max() arg is an empty sequence")
  | x :: xs => Ok (fold_left (fun m y => if NP.gtb y m then y else m) xs x)
  end.

(** ** The external ephemeris provider ([astropy])

    What [get_sun(Time(dt))] exposes to the calculator: right ascension in
    hours and declination in degrees. *)

Record sun_coord : Type := mk_sun {
  ra_hour : NP.float64;
  dec_degree : NP.float64
}.

(** ** Layer 1: [AnalemmaCalculator] *)

Module AnalemmaCalculator.

Import NP.
Local Open Scope np_scope.

Record t : Type := mk {
  mode : string;
  year : Z
}.

Definition set_mode (self : t) (m : string) : t :=
  {| mode := m; year := year self |}.

(** The dictionary returned by [calculate]. *)
Record calc_result : Type := mk_calc {
  declination : float64;
  eot : float64;
  day_of_year : Z;
  date : datetime
}.

Record differences : Type := mk_diff {
  declination_diff : float64;
  eot_diff : float64
}.

(** The dictionary returned by [compare_modes]. *)
Record comparison : Type := mk_comparison {
  approximate : calc_result;
  high_precision : calc_result;
  diff : differences
}.

Definition OBLIQUITY : float64 := #23.45.
Definition DAYS_PER_YEAR : float64 := #365.25.
Definition VERNAL_EQUINOX_OFFSET : Z := 81.

Definition calculate_declination_approximate (day_of_year : Z) : float64 :=
  let phase_shifted_day := (284 + day_of_year)%Z in
  let angle_rad := radians (#360 / #365 * of_int phase_shifted_day) in
  let declination := OBLIQUITY * sin angle_rad in
  declination.

Definition calculate_equation_of_time_approximate (day_of_year : Z) : float64 :=
  let B := #2 * #PI * of_int (day_of_year - 81) / #365 in
  let obliquity_component := #9.87 * sin (#2 * B) in
  let eccentricity_component := #7.53 * cos B - #1.5 * sin B in
  let eot := obliquity_component - eccentricity_component in
  eot.

Definition get_max_declination : float64 * float64 := (OBLIQUITY, - OBLIQUITY).

Section Environment.

(** Whether the guarded [import astropy] at module load succeeded. *)
Variable ASTROPY_AVAILABLE : bool.

(** [datetime.now().year]. *)
Variable current_year : Z.

(** The provider call [get_sun(Time(dt))]; it may raise. *)
Variable get_sun : datetime -> result sun_coord.

(** [year or datetime.now().year]: [None] and [0] are falsy. *)
Definition __init__ (mode : string) (year : option Z) : result t :=
  let self :=
    {| mode := mode;
       year := match year with
               | Some y => if (y =? 0)%Z then current_year else y
               | None => current_year
               end |} in
  if (mode =? "high-precision") && negb ASTROPY_AVAILABLE then
    Raise (RuntimeError
      "High-precision mode requires astropy. Install with: pip install astropy")
  else Ok self.

Definition calculate_high_precision (dt : datetime)
  : result (float64 * float64) :=
  if negb ASTROPY_AVAILABLE then
    Raise (RuntimeError "High-precision mode requires astropy")
  else
    sun <- get_sun dt ;;
    let declination := dec_degree sun in
    let ra_hours := ra_hour sun in
    let mean_solar_hours := of_int ((tm_yday dt - 1) * 24) / #365.25 in
    let eot_hours := mod_ (ra_hours - mean_solar_hours) 24 in
    let eot_hours := if gtb eot_hours #12 then eot_hours - #24 else eot_hours in
    let eot_minutes := eot_hours * #4 in
    let day_of_year := tm_yday dt in
    let eot_minutes := calculate_equation_of_time_approximate day_of_year in
    Ok (declination, eot_minutes).

Definition calculate (self : t) (date : datetime) : result calc_result :=
  let day_of_year := tm_yday date in
  '(declination, eot) <-
    (if mode self =? "approximate" then
       Ok (calculate_declination_approximate day_of_year,
           calculate_equation_of_time_approximate day_of_year)
     else if mode self =? "high-precision" then
       calculate_high_precision date
     else Raise (ValueError ("Unknown mode: " ++ mode self))) ;;
  Ok {| declination := declination; eot := eot;
        day_of_year := day_of_year; date := date |}.

(** [compare_modes] assigns to [self.mode]; the calculator it leaves behind
    is returned with the outcome, also when a call inside it raises. *)
Definition compare_modes (self : t) (date : datetime)
  : result comparison * t :=
  if negb ASTROPY_AVAILABLE then
    (Raise (RuntimeError "Comparison requires astropy to be installed"), self)
  else
    let original_mode := mode self in
    let self := set_mode self "approximate" in
    match calculate self date with
    | Raise e => (Raise e, self)
    | Ok approx_result =>
        let self := set_mode self "high-precision" in
        match calculate self date with
        | Raise e => (Raise e, self)
        | Ok precise_result =>
            let self := set_mode self original_mode in
            let diff :=
              {| declination_diff :=
                   abs (declination precise_result - declination approx_result);
                 eot_diff := abs (eot precise_result - eot approx_result) |} in
            (Ok {| approximate := approx_result;
                   high_precision := precise_result;
                   diff := diff |}, self)
        end
    end.

Definition calculate_year (self : t) (hour minute days : Z)
  : result (list calc_result) :=
  start_date <- datetime_new (year self) 1 1 hour minute ;;
  for_each (fun day : nat =>
              current_date <- add_days start_date day ;;
              calculate self current_date)
           (seq 0 (Z.to_nat days)).

End Environment.

End AnalemmaCalculator.

(** ** Layer 2: [SkyMapper] *)

Module SkyMapper.

Import NP.
Local Open Scope np_scope.

Record t : Type := mk {
  latitude : float64;
  longitude : float64;
  timezone_offset : float64;
  latitude_rad : float64
}.

(** The dictionary returned by [map_single_point]: the calculator's entries
    and the three horizon entries added by [update]. *)
Record sky_result : Type := mk_sky {
  calc : AnalemmaCalculator.calc_result;
  altitude : float64;
  azimuth : float64;
  hour_angle : float64
}.

Definition __init__ (latitude longitude : float64)
    (timezone_offset : option float64) : result t :=
  tz <- match timezone_offset with
        | None => z <- round (longitude / #15) ;; Ok (of_int z)
        | Some tz => Ok tz
        end ;;
  Ok {| latitude := latitude;
        longitude := longitude;
        timezone_offset := tz;
        latitude_rad := radians latitude |}.

Definition equation_of_time_to_hour_angle (self : t) (eot_minutes : float64)
    (hour minute : Z) (longitude : option float64) : float64 :=
  let longitude := match longitude with
                   | None => SkyMapper.longitude self
                   | Some l => l
                   end in
  let time_from_noon := of_int (hour - 12) + of_int minute / #60 in
  let hour_angle_from_time := time_from_noon * #15 in
  let eot_degrees := eot_minutes / #4 in
  let timezone_meridian := timezone_offset self * #15 in
  let longitude_correction := longitude - timezone_meridian in
  let hour_angle := hour_angle_from_time + eot_degrees + longitude_correction in
  hour_angle.

Definition calculate_altitude (self : t) (declination hour_angle : float64)
  : float64 :=
  let dec_rad := radians declination in
  let ha_rad := radians hour_angle in
  let sin_altitude :=
    sin (latitude_rad self) * sin dec_rad
    + cos (latitude_rad self) * cos dec_rad * cos ha_rad in
  let altitude := degrees (arcsin sin_altitude) in
  altitude.

Definition calculate_azimuth (self : t)
    (declination hour_angle altitude : float64) : float64 :=
  let dec_rad := radians declination in
  let ha_rad := radians hour_angle in
  let alt_rad := radians altitude in
  let sin_azimuth := cos dec_rad * sin ha_rad / cos alt_rad in
  let cos_azimuth :=
    (cos dec_rad * cos ha_rad * sin (latitude_rad self)
     - sin dec_rad * cos (latitude_rad self)) / cos alt_rad in
  let azimuth := degrees (arctan2 sin_azimuth cos_azimuth) in
  let azimuth := mod_ (azimuth + #180) 360 in
  azimuth.


Definition map_single_point (self : t)
    (calc_result : AnalemmaCalculator.calc_result) : sky_result :=
  let declination := AnalemmaCalculator.declination calc_result in
  let eot := AnalemmaCalculator.eot calc_result in
  let date := AnalemmaCalculator.date calc_result in
  let hour_angle :=
    equation_of_time_to_hour_angle self eot (dt_hour date) (dt_minute date)
      None in
  let altitude := calculate_altitude self declination hour_angle in
  let azimuth := calculate_azimuth self declination hour_angle altitude in
  {| calc := calc_result;
     altitude := altitude;
     azimuth := azimuth;
     hour_angle := hour_angle |}.

Definition map_to_horizon (self : t)
    (calc_results : list AnalemmaCalculator.calc_result) : list sky_result :=
  map (map_single_point self) calc_results.

Definition get_solar_noon_time (self : t) (eot_minutes : float64)
  : result (Z * Z) :=
  let timezone_meridian := timezone_offset self * #15 in
  let longitude_correction_deg := longitude self - timezone_meridian in
  let longitude_correction_min := longitude_correction_deg * #4 in
  let total_correction_min := eot_minutes + longitude_correction_min in
  let noon_minutes := of_int (12 * 60) + total_correction_min in
  h <- to_int (floordiv noon_minutes 60) ;;
  let hour := (h mod 24)%Z in
  minute <- to_int (mod_ noon_minutes 60) ;;
  Ok (hour, minute).


End SkyMapper.

(** ** Images as NumPy arrays

    [np.array(self.image)] is a grid of rows of pixels: integers for a
    grayscale image (shape [(H, W)]), lists of channel values for a colour
    image (shape [(H, W, C)]). *)

Inductive pil_image : Type :=
| Gray (rows : list (list Z))
| Color (rows : list (list (list Z))).

Definition grid_width {A : Type} (rows : list (list A)) : Z :=
  match rows with
  | [] => 0
  | r :: _ => Z.of_nat (List.length r)
  end.

(** [image.size], as [(width, height)]. *)
Definition image_size (img : pil_image) : Z * Z :=
  match img with
  | Gray rows => (grid_width rows, Z.of_nat (List.length rows))
  | Color rows => (grid_width rows, Z.of_nat (List.length rows))
  end.

Definition list_max (x : Z) (xs : list Z) : Z := fold_left Z.max xs x.

(** [np.max(img_array, axis=2)]. *)
Definition channel_max (px : list Z) : Z := list_max (hd 0%Z px) (tl px).

Fixpoint enumerate_from {A : Type} (i : Z) (l : list A) : list (Z * A) :=
  match l with
  | [] => []
  | a :: l' => (i, a) :: enumerate_from (i + 1) l'
  end.

(** The entries of a grid with their indices [(y, x)], in row-major order. *)
Definition indexed {A : Type} (rows : list (list A)) : list (Z * Z * A) :=
  flat_map (fun '(y, row) => map (fun '(x, a) => (y, x, a)) (enumerate_from 0 row))
           (enumerate_from 0 rows).

(** Index of the first maximal element ([argmax]); [best] is the running
    maximum, found at [besti]. *)
Fixpoint argmax_from {I : Type} (besti : I) (best : Z) (l : list (I * Z)) : I :=
  match l with
  | [] => besti
  | (i, v) :: l' =>
      if (best <? v)%Z then argmax_from i v l' else argmax_from besti best l'
  end.

Definition sumZ (l : list Z) : Z := fold_right Z.add 0%Z l.

(** The pixels selected for a centroid: coordinates and brightness. *)
Definition weighted := list (Z * Z * Z).

Definition weight_sum (ps : weighted) : Z := sumZ (map (fun '(_, _, w) => w) ps).
Definition moment_x (ps : weighted) : Z := sumZ (map (fun '(_, x, w) => w * x)%Z ps).
Definition moment_y (ps : weighted) : Z := sumZ (map (fun '(y, _, w) => w * y)%Z ps).

(** [scipy.ndimage.center_of_mass]: moments over the normaliser, as NumPy
    scalars; returns [(row, column)]. *)
Definition center_of_mass (ps : weighted) : NP.float64 * NP.float64 :=
  let normalizer := NP.of_int (weight_sum ps) in
  (NP.div (NP.of_int (moment_y ps)) normalizer,
   NP.div (NP.of_int (moment_x ps)) normalizer).

(** [np.average(coords, weights=weights)]: a zero sum of weights raises. *)
Definition average (moment : Z) (ps : weighted) : result NP.float64 :=
  if (weight_sum ps =? 0)%Z then
    Raise (ZeroDivisionError "Weights sum to zero, can't be normalized")
  else Ok (NP.div (NP.of_int moment) (NP.of_int (weight_sum ps))).

(** [gray.max()]; NumPy refuses an empty array. *)
Definition array_max (gray : list (list Z)) : result Z :=
  match List.concat gray with
  | [] => Raise (ValueError
      "zero-size array to reduction operation maximum which has no identity")
  | v :: vs => Ok (list_max v vs)
  end.

(** [gray >= max_val * 0.999] for one pixel.  Pixel values are integers and
    [0.999] is [999/1000], so the comparison is decided in [Z]. *)
Definition is_bright (max_val g : Z) : bool := (999 * max_val <=? 1000 * g)%Z.

(** The pixels of [gray] whose entry in the same-shaped grid [tags] is kept. *)
Definition select {A : Type} (keep : A -> bool) (tags : list (list A))
    (gray : list (list Z)) : weighted :=
  map fst (filter (fun '(_, (_, _, a)) => keep a)
                  (combine (indexed gray) (indexed tags))).

(** [np.unravel_index(gray.argmax(), gray.shape)], as [(row, column)]. *)
Definition brightest_pixel (gray : list (list Z)) : Z * Z :=
  match indexed gray with
  | [] => (0, 0)%Z
  | (y, x, g) :: ps => argmax_from (y, x) g (map (fun '(y, x, g) => ((y, x), g)) ps)
  end.

(** ** Image anchoring: [ImageAnchorer] *)

Module ImageAnchorer.

Import NP.
Local Open Scope np_scope.

(** A float argument is a built-in [float] or a NumPy scalar; the two differ
    when they divide by zero. *)
Inductive scalar : Type :=
| PyFloat (x : float64)
| NpFloat (x : float64).

(** [n / d] for an [int] [n]. *)
Definition int_truediv (n : Z) (d : scalar) : result float64 :=
  match d with
  | PyFloat x => py_truediv (of_int n) x
  | NpFloat x => Ok (of_int n / x)
  end.

Record t : Type := mk {
  image : pil_image;
  image_width : Z;
  image_height : Z;
  anchor_datetime : datetime;
  latitude : float64;
  longitude : float64;
  sun_pixel : Z * Z;
  calculator : AnalemmaCalculator.t;
  sky_mapper : SkyMapper.t;
  anchor_data : SkyMapper.sky_result;
  pixels_per_degree_az : option float64;
  pixels_per_degree_alt : option float64
}.

Definition set_pixels_per_degree_az (self : t) (v : float64) : t :=
  {| image := image self; image_width := image_width self;
     image_height := image_height self;
     anchor_datetime := anchor_datetime self; latitude := latitude self;
     longitude := longitude self; sun_pixel := sun_pixel self;
     calculator := calculator self; sky_mapper := sky_mapper self;
     anchor_data := anchor_data self;
     pixels_per_degree_az := Some v;
     pixels_per_degree_alt := pixels_per_degree_alt self |}.

Definition set_pixels_per_degree_alt (self : t) (v : float64) : t :=
  {| image := image self; image_width := image_width self;
     image_height := image_height self;
     anchor_datetime := anchor_datetime self; latitude := latitude self;
     longitude := longitude self; sun_pixel := sun_pixel self;
     calculator := calculator self; sky_mapper := sky_mapper self;
     anchor_data := anchor_data self;
     pixels_per_degree_az := pixels_per_degree_az self;
     pixels_per_degree_alt := Some v |}.

Definition must_calibrate : string :=
  "Must calibrate before converting coordinates. Call calibrate_from_field_of_view() or calibrate_from_focal_length()".

Section Environment.

(** Whether [from scipy import ndimage] succeeds. *)
Variable has_scipy : bool.

(** [scipy.ndimage.label]: the labelled array (0 is background) and the
    number of connected components. *)
Variable ndimage_label : list (list bool) -> list (list nat) * nat.

Variable ASTROPY_AVAILABLE : bool.
Variable current_year : Z.
Variable get_sun : datetime -> result sun_coord.

Definition _detect_sun_position (img : pil_image) : result (Z * Z) :=
  let gray := match img with
              | Color rows => map (map channel_max) rows
              | Gray rows => rows
              end in
  max_val <- array_max gray ;;
  let bright_mask := map (map (is_bright max_val)) gray in
  if has_scipy then
    let '(labeled, num_features) := ndimage_label bright_mask in
    if (0 <? num_features)%nat then
      let sizes :=
        map (fun i => (i, Z.of_nat (List.length
               (select (Nat.eqb i) labeled (map (map Z.b2z) bright_mask)))))
            (seq 1 num_features) in
      let largest_blob := match sizes with
                          | [] => 1%nat
                          | (i, v) :: rest => argmax_from i v rest
                          end in
      let '(sun_y, sun_x) :=
        center_of_mass (select (Nat.eqb largest_blob) labeled gray) in
      sun_x <- to_int sun_x ;;
      sun_y <- to_int sun_y ;;
      Ok (sun_x, sun_y)
    else
      let '(sun_y, sun_x) := brightest_pixel gray in
      Ok (sun_x, sun_y)
  else
    let coords := select (fun b : bool => b) bright_mask gray in
    if (10 <? Z.of_nat (List.length coords))%Z then
      ax <- average (moment_x coords) coords ;;
      sun_x <- to_int ax ;;
      ay <- average (moment_y coords) coords ;;
      sun_y <- to_int ay ;;
      Ok (sun_x, sun_y)
    else
      let '(sun_y, sun_x) := brightest_pixel gray in
      Ok (sun_x, sun_y).

Definition _calculate_anchor_position (calculator : AnalemmaCalculator.t)
    (sky_mapper : SkyMapper.t) (anchor_datetime : datetime)
  : result SkyMapper.sky_result :=
  calc_result <- AnalemmaCalculator.calculate ASTROPY_AVAILABLE get_sun
                   calculator anchor_datetime ;;
  let sky_result := SkyMapper.map_single_point sky_mapper calc_result in
  Ok sky_result.

(** The constructor, from the image already opened and oriented. *)
Definition __init__ (image : pil_image) (anchor_datetime : datetime)
    (latitude longitude : float64) (sun_pixel : option (Z * Z))
    (auto_detect_sun : bool) : result t :=
  let '(image_width, image_height) := image_size image in
  sun_pixel <-
    match sun_pixel with
    | None =>
        if auto_detect_sun then _detect_sun_position image
        else Ok ((image_width / 2)%Z, (image_height / 2)%Z)
    | Some p => Ok p
    end ;;
  calculator <- AnalemmaCalculator.__init__ ASTROPY_AVAILABLE current_year
                  "approximate" (Some (dt_year anchor_datetime)) ;;
  sky_mapper <- SkyMapper.__init__ latitude longitude None ;;
  anchor_data <- _calculate_anchor_position calculator sky_mapper
                   anchor_datetime ;;
  Ok {| image := image; image_width := image_width;
        image_height := image_height; anchor_datetime := anchor_datetime;
        latitude := latitude; longitude := longitude; sun_pixel := sun_pixel;
        calculator := calculator; sky_mapper := sky_mapper;
        anchor_data := anchor_data;
        pixels_per_degree_az := None; pixels_per_degree_alt := None |}.

End Environment.

(** The two assignments happen in order: when the second division raises,
    the first scale stays set. *)
Definition calibrate_from_field_of_view (self : t)
    (horizontal_fov vertical_fov : scalar) : result unit * t :=
  match int_truediv (image_width self) horizontal_fov with
  | Raise e => (Raise e, self)
  | Ok az =>
      let self := set_pixels_per_degree_az self az in
      match int_truediv (image_height self) vertical_fov with
      | Raise e => (Raise e, self)
      | Ok alt => (Ok tt, set_pixels_per_degree_alt self alt)
      end
  end.

(** [focal_length_mm] and the sensor sizes are built-in floats; the fields of
    view computed from them are NumPy scalars. *)
Definition calibrate_from_focal_length (self : t)
    (focal_length_mm sensor_width_mm sensor_height_mm : float64)
  : result unit * t :=
  match py_truediv sensor_width_mm (#2 * focal_length_mm) with
  | Raise e => (Raise e, self)
  | Ok qw =>
      let h_fov := #2 * degrees (arctan qw) in
      match py_truediv sensor_height_mm (#2 * focal_length_mm) with
      | Raise e => (Raise e, self)
      | Ok qh =>
          let v_fov := #2 * degrees (arctan qh) in
          calibrate_from_field_of_view self (NpFloat h_fov) (NpFloat v_fov)
      end
  end.

Definition sky_to_pixel (self : t) (altitude azimuth : float64)
  : result (Z * Z) :=
  match pixels_per_degree_az self with
  | None => Raise (ValueError must_calibrate)
  | Some pixels_per_degree_az =>
      let anchor_alt := SkyMapper.altitude (anchor_data self) in
      let anchor_az := SkyMapper.azimuth (anchor_data self) in
      let delta_az := azimuth - anchor_az in
      let delta_alt := altitude - anchor_alt in
      let delta_x := delta_az * pixels_per_degree_az in
      match pixels_per_degree_alt self with
      | None => Raise (TypeError
          "unsupported operand type(s) for *: 'float' and 'NoneType'")
      | Some pixels_per_degree_alt =>
          let delta_y := - delta_alt * pixels_per_degree_alt in
          x <- to_int (of_int (fst (sun_pixel self)) + delta_x) ;;
          y <- to_int (of_int (snd (sun_pixel self)) + delta_y) ;;
          Ok (x, y)
      end
  end.

(** An entry of the list [generate_analemma_points] returns: the horizon
    entries with the two pixel entries added. *)
Record visible_point : Type := mk_point {
  sky : SkyMapper.sky_result;
  pixel_x : Z;
  pixel_y : Z
}.

(** The loop of [generate_analemma_points] over the mapped year. *)
Fixpoint visible_points (self : t) (sky_data : list SkyMapper.sky_result)
  : result (list visible_point) :=
  match sky_data with
  | [] => Ok []
  | point :: rest =>
      if ltb (SkyMapper.altitude point) #0 then visible_points self rest
      else
        '(x, y) <- sky_to_pixel self (SkyMapper.altitude point)
                     (SkyMapper.azimuth point) ;;
        points <- visible_points self rest ;;
        Ok ({| sky := point; pixel_x := x; pixel_y := y |} :: points)
  end.

(** The dictionary returned by [get_statistics]. *)
Record statistics : Type := mk_statistics {
  altitude_range : float64 * float64;
  azimuth_range : float64 * float64;
  altitude_span : float64;
  azimuth_span : float64;
  anchor_altitude : float64;
  anchor_azimuth : float64;
  anchor_date : datetime;
  location : float64 * float64
}.

Section Year.

Variable ASTROPY_AVAILABLE : bool.
Variable get_sun : datetime -> result sun_coord.

Definition generate_analemma_points (self : t) (days : Z)
  : result (list visible_point) :=
  year_data <- AnalemmaCalculator.calculate_year ASTROPY_AVAILABLE get_sun
                 (calculator self) (dt_hour (anchor_datetime self))
                 (dt_minute (anchor_datetime self)) days ;;
  let sky_data := SkyMapper.map_to_horizon (sky_mapper self) year_data in
  visible_points self sky_data.

Definition get_statistics (self : t) : result statistics :=
  analemma_points <- generate_analemma_points self 365 ;;
  let altitudes := map (fun p => SkyMapper.altitude (sky p)) analemma_points in
  let azimuths := map (fun p => SkyMapper.azimuth (sky p)) analemma_points in
  min_alt <- py_min altitudes ;;
  max_alt <- py_max altitudes ;;
  min_az <- py_min azimuths ;;
  max_az <- py_max azimuths ;;
  Ok {| altitude_range := (min_alt, max_alt);
        azimuth_range := (min_az, max_az);
        altitude_span := max_alt - min_alt;
        azimuth_span := max_az - min_az;
        anchor_altitude := SkyMapper.altitude (anchor_data self);
        anchor_azimuth := SkyMapper.azimuth (anchor_data self);
        anchor_date := anchor_datetime self;
        location := (latitude self, longitude self) |}.

End Year.

End ImageAnchorer.

(** ** Metadata files: [parse_metadata]

    The file is given by its lines, as iterating over the open file yields
    them (each with its line break).  Text is ASCII: [str.strip],
    [str.lower] and [str.isspace] are modelled on ASCII characters.
    [float()] and [datetime.strptime] are the parsers of the Python
    library, taken as they come. *)

Module MetadataParser.

(** What the dictionary holds: a [float], a [datetime] or a [str]. *)
Inductive value : Type :=
| VFloat (x : NP.float64)
| VDatetime (d : datetime)
| VStr (s : string).

(** A [dict] with [str] keys, in insertion order. *)
Definition dict : Type := list (string * value).

(** [d[k] = v]: an existing key keeps its place and takes the new value, a
    new key goes last. *)
Fixpoint dict_set (d : dict) (k : string) (v : value) : dict :=
  match d with
  | [] => [(k, v)]
  | (k', v') :: d' =>
      if (k' =? k)%string then (k', v) :: d'
      else (k', v') :: dict_set d' k v
  end.

(** [str.isspace] on an ASCII character: tab to carriage return, the four
    separators and the space. *)
Definition is_space (c : Ascii.ascii) : bool :=
  let n := Ascii.nat_of_ascii c in
  ((9 <=? n) && (n <=? 13) || (28 <=? n) && (n <=? 32))%nat.

Fixpoint lstrip (s : string) : string :=
  match s with
  | EmptyString => EmptyString
  | String c s' => if is_space c then lstrip s' else s
  end.

Fixpoint rstrip (s : string) : string :=
  match s with
  | EmptyString => EmptyString
  | String c s' =>
      match rstrip s' with
      | EmptyString => if is_space c then EmptyString else String c EmptyString
      | r => String c r
      end
  end.

(** [s.strip()]. *)
Definition strip (s : string) : string := rstrip (lstrip s).

(** [s.startswith(p)]. *)
Definition startswith (p s : string) : bool := String.prefix p s.

(** [needle in s]. *)
Fixpoint contains (needle s : string) : bool :=
  String.prefix needle s
  || match s with
     | EmptyString => false
     | String _ s' => contains needle s'
     end.

(** The character ['=']. *)
Definition equals_sign : Ascii.ascii := Ascii.ascii_of_nat 61.

(** [s.split('=', 1)] when ['=' in s]: the text before the first ['='] and
    the text after it; [None] when [s] has no ['=']. *)
Fixpoint split_once (s : string) : option (string * string) :=
  match s with
  | EmptyString => None
  | String c s' =>
      if Ascii.eqb c equals_sign then Some (EmptyString, s')
      else match split_once s' with
           | Some (key, value) => Some (String c key, value)
           | None => None
           end
  end.

Definition lower_char (c : Ascii.ascii) : Ascii.ascii :=
  let n := Ascii.nat_of_ascii c in
  if ((65 <=? n) && (n <=? 90))%nat then Ascii.ascii_of_nat (n + 32) else c.

(** [s.lower()]. *)
Fixpoint lower (s : string) : string :=
  match s with
  | EmptyString => EmptyString
  | String c s' => String (lower_char c) (lower s')
  end.

Definition float_keys : list string :=
  ["latitude"; "longitude"; "altitude_m";
   "focal_length_mm"; "sensor_width_mm"; "sensor_height_mm"]%string.

(** The test that ends the parsed part of the file. *)
Definition is_separator (line : string) : bool :=
  contains "--- REFERENCE DATA" line || contains "--- ADDITIONAL METADATA" line.

Section Environment.

(** [float(value)]. *)
Variable py_float : string -> result NP.float64.

(** [datetime.strptime(value, format)]. *)
Variable strptime : string -> string -> result datetime.

(** The loop over the lines of the file, on the dictionary built so far. *)
Fixpoint parse_lines (lines : list string) (metadata : dict) : result dict :=
  match lines with
  | [] => Ok metadata
  | line :: rest =>
      let line := strip line in
      if is_separator line then Ok metadata
      else if (line =? "")%string || startswith "#" line then
        parse_lines rest metadata
      else
        match split_once line with
        | Some (key, value) =>
            let key := lower (strip key) in
            let value := strip value in
            if existsb (String.eqb key) float_keys then
              x <- py_float value ;;
              parse_lines rest (dict_set metadata key (VFloat x))
            else if (key =? "datetime")%string then
              d <- strptime value "%Y-%m-%d %H:%M:%S" ;;
              parse_lines rest (dict_set metadata key (VDatetime d))
            else parse_lines rest (dict_set metadata key (VStr value))
        | None => parse_lines rest metadata
        end
  end.

Definition parse_metadata (lines : list string) : result dict :=
  let metadata := [] in
  parse_lines lines metadata.

End Environment.

End MetadataParser.

(** ** Closed forms and sample scenes

    The values the formulas take on finite inputs, written in [R], and the
    concrete observers and photographs the statements below are checked on. *)

Module Closed.

Import NP.

(** [sin(a) = sin(phi) sin(delta) + cos(phi) cos(delta) cos(H)]. *)
Definition sin_alt (phi delta H : R) : R :=
  Rtrigo_def.sin phi * Rtrigo_def.sin delta
  + Rtrigo_def.cos phi * Rtrigo_def.cos delta * Rtrigo_def.cos H.

(** The two numerators of the azimuth formula. *)
Definition az_num_sin (delta H : R) : R :=
  Rtrigo_def.cos delta * Rtrigo_def.sin H.
Definition az_num_cos (phi delta H : R) : R :=
  Rtrigo_def.cos delta * Rtrigo_def.cos H * Rtrigo_def.sin phi
  - Rtrigo_def.sin delta * Rtrigo_def.cos phi.

(** The declination on finite values. *)
Definition declination_value (day_of_year : Z) : R :=
  23.45 * Rtrigo_def.sin (360 / 365 * IZR (284 + day_of_year) * (PI / 180)).

(** The equation of time on finite values. *)
Definition eot_value (day_of_year : Z) : R :=
  let B := 2 * PI * IZR (day_of_year - 81) / 365 in
  9.87 * Rtrigo_def.sin (2 * B)
  + - (7.53 * Rtrigo_def.cos B + - (1.5 * Rtrigo_def.sin B)).

(** The time zone the mapper derives from a finite longitude. *)
Definition zone_of (lon : R) : Z :=
  let f := Zfloor (lon / 15) in
  let d := lon / 15 - IZR f in
  if Rlt_dec d (1 / 2) then f
  else if Rlt_dec (1 / 2) d then (f + 1)%Z
  else if Z.even f then f else (f + 1)%Z.

(** The mapper [SkyMapper(latitude, longitude)] for finite coordinates. *)
Definition mapper_at (lat lon : R) : SkyMapper.t :=
  SkyMapper.mk (Fin lat) (Fin lon) (of_int (zone_of lon)) (radians (Fin lat)).

(** The hour angle of the anchor. *)
Definition hour_angle_value (lon : R) (dt : datetime) : R :=
  (IZR (dt_hour dt - 12) + IZR (dt_minute dt) / 60) * 15
  + eot_value (tm_yday dt) / 4
  + (lon + - (IZR (zone_of lon) * 15)).

(** What [calculate] returns in approximate mode. *)
Definition approximate_result (dt : datetime) : AnalemmaCalculator.calc_result :=
  AnalemmaCalculator.mk_calc
    (Fin (declination_value (tm_yday dt))) (Fin (eot_value (tm_yday dt)))
    (tm_yday dt) dt.

(** The anchorer the constructor returns once the sun pixel is known. *)
Definition anchorer_at (current_year : Z) (img : pil_image) (dt : datetime)
    (lat lon : R) (pixel : Z * Z) : ImageAnchorer.t :=
  ImageAnchorer.mk img (fst (image_size img)) (snd (image_size img)) dt
    (Fin lat) (Fin lon) pixel
    (AnalemmaCalculator.mk "approximate"
       (if (dt_year dt =? 0)%Z then current_year else dt_year dt))
    (mapper_at lat lon)
    (SkyMapper.map_single_point (mapper_at lat lon) (approximate_result dt))
    None None.

(** An observer on the equator, on the Greenwich meridian. *)
Definition equator : SkyMapper.t :=
  SkyMapper.mk (Fin 0) (Fin 0) (Fin 0) (radians (Fin 0)).


(** A small photograph with one bright pixel, at column 1 of row 0. *)
Definition sample_image : pil_image := Gray [[10; 200; 10]; [10; 10; 10]]%Z.

(** Noon on the equinox day, 22 March 2026, the 81st day of the year. *)
Definition equinox_noon : datetime := mk_datetime 2026 3 22 12 0.

(** The photograph as taken at the north pole at that time, the sun given
    at pixel [(1, 0)]. *)
Definition polar_anchorer : ImageAnchorer.t :=
  anchorer_at 2026 sample_image equinox_noon 90 0 (1, 0)%Z.

(** The same photograph taken on the equator at longitude 1.8825 E, where
    that noon is the true solar noon: the sun is at the zenith. *)
Definition zenith_anchorer : ImageAnchorer.t :=
  anchorer_at 2026 sample_image equinox_noon 0 1.8825 (1, 0)%Z.

(** The brightness channel the detector works on. *)
Definition gray_of (img : pil_image) : list (list Z) :=
  match img with
  | Color rows => map (map channel_max) rows
  | Gray rows => rows
  end.

(** What the detector needs from a labelling with [n] components: each
    component is a non-empty set of thresholded pixels. *)
Definition components_ok (max_val : Z) (gray : list (list Z))
    (labeled : list (list nat)) (n : nat) : Prop :=
  forall i, (1 <= i <= n)%nat ->
    select (Nat.eqb i) labeled gray <> []
    /\ forall y x w, In (y, x, w) (select (Nat.eqb i) labeled gray) ->
                     is_bright max_val w = true.

(** A uniformly lit photograph. *)
Definition uniform_image : pil_image := Gray (repeat (repeat 5%Z 4) 4).

(** An all-black photograph. *)
Definition black_image : pil_image := Gray (repeat (repeat 0%Z 4) 4).

(** A labelling that reports one component covering the whole mask, as
    SciPy does on a mask that is true everywhere. *)
Definition label_whole_mask (mask : list (list bool)) : list (list nat) * nat :=
  (map (map (fun b : bool => if b then 1%nat else 0%nat)) mask, 1%nat).

(** A metadata file: a comment, two entries, a blank line, an entry with an
    upper-case key, the separator and a line of reference data. *)
Definition sample_metadata : list string :=
  let line := fun text : string =>
    (text ++ String (Ascii.ascii_of_nat 10) EmptyString)%string in
  [ line "# Observation";
    line "latitude = 22.3";
    line "location_name=Hong Kong ";
    line "";
    line "  LONGITUDE=114.2";
    line "# --- REFERENCE DATA (NOT PARSED) ---";
    line "latitude = 99" ]%string.

(** What one line of a metadata file does to the loop of [parse_metadata]:
    end it, leave the dictionary alone, assign one key, or raise. *)
Inductive line_effect : Type :=
| Stop
| Skip
| Assign (key : string) (v : MetadataParser.value)
| Fail (e : exn).

Definition effect_of (py_float : string -> result float64)
    (strptime : string -> string -> result datetime) (raw : string)
  : line_effect :=
  let line := MetadataParser.strip raw in
  if MetadataParser.is_separator line then Stop
  else if ((line =? "") || MetadataParser.startswith "#" line)%string then Skip
  else
    match MetadataParser.split_once line with
    | Some (key, value) =>
        let key := MetadataParser.lower (MetadataParser.strip key) in
        let value := MetadataParser.strip value in
        if existsb (String.eqb key) MetadataParser.float_keys then
          match py_float value with
          | Ok x => Assign key (MetadataParser.VFloat x)
          | Raise e => Fail e
          end
        else if (key =? "datetime")%string then
          match strptime value "%Y-%m-%d %H:%M:%S"%string with
          | Ok d => Assign key (MetadataParser.VDatetime d)
          | Raise e => Fail e
          end
        else Assign key (MetadataParser.VStr value)
    | None => Skip
    end.

(** [float()] and [strptime] on the texts of that file. *)
Definition sample_float (text : string) : result float64 :=
  if (text =? "22.3")%string then Ok (Fin 22.3)
  else if (text =? "114.2")%string then Ok (Fin 114.2)
  else Raise (ValueError "could not convert string to float").

Definition sample_strptime (text format : string) : result datetime :=
  Raise (ValueError "time data does not match format").

(** What a well-formed entry of the parsed dictionary looks like: a
    lower-case key, and a value of the type its key calls for. *)
Definition well_typed (entry : string * MetadataParser.value) : Prop :=
  let (k, v) := entry in
  MetadataParser.lower k = k
  /\ match v with
     | MetadataParser.VFloat _ => In k MetadataParser.float_keys
     | MetadataParser.VDatetime _ => k = "datetime"%string
     | MetadataParser.VStr _ =>
         ~ In k MetadataParser.float_keys /\ k <> "datetime"%string
     end.

(** A date of the calendar. *)
Definition valid_date (dt : datetime) : Prop :=
  (1 <= dt_month dt <= 12
   /\ 1 <= dt_day dt <= days_in_month (dt_year dt) (dt_month dt))%Z.

(** The number of days of a year. *)
Definition year_days (y : Z) : Z := if is_leap y then 366%Z else 365%Z.

(** The date [n] days after [start], where the calendar reaches it. *)
Definition date_after (start : datetime) (n : nat) : datetime :=
  match add_days start n with
  | Ok d => d
  | Raise _ => start
  end.

End Closed.

Import Closed.

(** Settles the comparisons of real constants met while evaluating the
    model on concrete numbers. *)
Ltac decide_reals :=
  repeat match goal with
  | |- context [Req_dec_T ?a ?b] => destruct (Req_dec_T a b); try lra
  | |- context [Rlt_dec ?a ?b] => destruct (Rlt_dec a b); try lra
  | |- context [Rle_dec ?a ?b] => destruct (Rle_dec a b); try lra
  | |- context [Rgt_dec ?a ?b] => destruct (Rgt_dec a b); try lra
  end.

(** Evaluates the integer sums of a concrete selection. *)
Ltac eval_sums :=
  repeat match goal with
  | |- context [weight_sum ?ps] =>
      let v := eval vm_compute in (weight_sum ps) in
      change (weight_sum ps) with v
  | |- context [moment_x ?ps] =>
      let v := eval vm_compute in (moment_x ps) in
      change (moment_x ps) with v
  | |- context [moment_y ?ps] =>
      let v := eval vm_compute in (moment_y ps) in
      change (moment_y ps) with v
  end.

(** Evaluates the calendar tables and the comparisons of integer
    constants. *)
Ltac eval_calendar :=
  repeat match goal with
  | |- context [nth ?n ?l ?d] =>
      let v := eval vm_compute in (nth n l d) in
      progress change (nth n l d) with v
  | H : context [nth ?n ?l ?d] |- _ =>
      let v := eval vm_compute in (nth n l d) in
      progress change (nth n l d) with v in H
  | |- context [Z.eqb ?a ?b] =>
      let v := eval vm_compute in (Z.eqb a b) in
      match v with
      | true => change (Z.eqb a b) with true
      | false => change (Z.eqb a b) with false
      end
  | H : context [Z.eqb ?a ?b] |- _ =>
      let v := eval vm_compute in (Z.eqb a b) in
      match v with
      | true => change (Z.eqb a b) with true in H
      | false => change (Z.eqb a b) with false in H
      end
  | |- context [Z.ltb ?a ?b] =>
      let v := eval vm_compute in (Z.ltb a b) in
      match v with
      | true => change (Z.ltb a b) with true
      | false => change (Z.ltb a b) with false
      end
  | H : context [Z.ltb ?a ?b] |- _ =>
      let v := eval vm_compute in (Z.ltb a b) in
      match v with
      | true => change (Z.ltb a b) with true in H
      | false => change (Z.ltb a b) with false in H
      end
  end;
  cbn [andb orb negb] in *.

(** * Properties *)

(** ** Arithmetic of finite NumPy scalars *)

Module NPFacts.

Import NP.

Lemma div_fin (a b : R) : b <> 0 -> div (Fin a) (Fin b) = Fin (a / b).
Proof.
  intros Hb. unfold div. destruct (Req_dec_T b 0) as [E | _]; [contradiction | reflexivity].
Qed.

Lemma div_zero_zero : div (Fin 0) (Fin 0) = NaN.
Proof.
  unfold div, scale_inf.
  destruct (Req_dec_T 0 0) as [_ | N]; [reflexivity | now contradiction N].
Qed.

Lemma radians_fin (x : R) : radians (Fin x) = Fin (x * (PI / 180)).
Proof. reflexivity. Qed.

Lemma degrees_fin (x : R) : degrees (Fin x) = Fin (x * (180 / PI)).
Proof. reflexivity. Qed.

Lemma radians_degrees (x : R) : x * (180 / PI) * (PI / 180) = x.
Proof. pose proof PI_RGT_0. field. lra. Qed.

Lemma arcsin_fin (s : R) : -1 <= s <= 1 -> arcsin (Fin s) = Fin (asin s).
Proof.
  intros [Hl Hu]. unfold arcsin.
  destruct (Rle_dec (-1) s); [| contradiction].
  destruct (Rle_dec s 1); [reflexivity | contradiction].
Qed.


(** The remainder by a positive modulus lies in [[0, m)]. *)
Lemma mod_range (r m : R) :
  0 < m -> 0 <= r - m * IZR (Zfloor (r / m)) < m.
Proof.
  intros Hm. pose proof (Zfloor_bound (r / m)) as [Hlo Hhi].
  assert (Hr : r = m * (r / m)) by (field; lra).
  split.
  - apply Rmult_le_compat_l with (r := m) in Hlo; lra.
  - apply Rmult_lt_compat_l with (r := m) in Hhi; lra.
Qed.

Lemma atan2_range (y x : R) : - PI < atan2 y x <= PI.
Proof.
  pose proof PI_RGT_0 as HPI. unfold atan2.
  destruct (Rlt_dec 0 x) as [Hx | Hx].
  - pose proof (atan_bound (y / x)). lra.
  - destruct (Rlt_dec x 0) as [Hx' | Hx'].
    + assert (Hinv : / x < 0) by (apply Rinv_lt_0_compat; exact Hx').
      destruct (Rle_dec 0 y) as [Hy | Hy].
      * assert (y / x <= 0) by (unfold Rdiv; nra).
        assert (atan (y / x) <= 0).
        { rewrite <- atan_0. destruct H as [H | H].
          - left. apply atan_increasing. exact H.
          - rewrite H. right. reflexivity. }
        pose proof (atan_bound (y / x)). lra.
      * assert (0 < y / x) by (unfold Rdiv; nra).
        assert (0 < atan (y / x)).
        { rewrite <- atan_0. apply atan_increasing. exact H. }
        pose proof (atan_bound (y / x)). lra.
    + destruct (Rlt_dec 0 y); [lra |].
      destruct (Rlt_dec y 0); lra.
Qed.

Lemma to_int_of_int (z : Z) : to_int (of_int z) = Ok z.
Proof.
  unfold to_int, of_int. f_equal.
  destruct (Rle_dec 0 (IZR z)) as [H | H].
  - apply Zfloor_eq. lra.
  - rewrite <- opp_IZR. rewrite (Zfloor_eq (- z)%Z) by lra. lia.
Qed.

End NPFacts.

(** ** The calculator *)

Section CalculatorProperties.

Import NP AnalemmaCalculator.

(** The declination formula on finite values:
    [23.45 * sin(radians(360/365 * (284 + N)))]. *)
Lemma declination_closed_form (day_of_year : Z) :
  calculate_declination_approximate day_of_year =
  Fin (23.45 * Rtrigo_def.sin (360 / 365 * IZR (284 + day_of_year) * (PI / 180))).
Proof.
  unfold calculate_declination_approximate, OBLIQUITY, of_int.
  rewrite NPFacts.div_fin by lra. reflexivity.
Qed.

(** The angle of the formula, [81 + k] days into the year, is a full turn
    plus the angle of [k] days. *)
Lemma declination_angle (k : Z) :
  360 / 365 * IZR (284 + (81 + k)) * (PI / 180) =
  360 / 365 * IZR k * (PI / 180) + 2 * PI.
Proof.
  replace (284 + (81 + k))%Z with (365 + k)%Z by lia.
  rewrite plus_IZR. field.
Qed.

Lemma declination_sin_shift (j : Z) :
  Rtrigo_def.sin (360 / 365 * IZR (284 + (81 + j)) * (PI / 180)) =
  Rtrigo_def.sin (360 / 365 * IZR j * (PI / 180)).
Proof.
  rewrite declination_angle. rewrite sin_plus, sin_2PI, cos_2PI. ring.
Qed.


Variable current_year : Z.

(** C4. Without the ephemeris provider, constructing the calculator in
    high-precision mode raises at construction (the code's configuration
    error is a [RuntimeError]); constructing it in approximate mode succeeds
    and yields a calculator in that mode. *)
Theorem high_precision_needs_provider_at_construction (year : option Z) :
  __init__ false current_year "high-precision" year =
    Raise (RuntimeError
      "High-precision mode requires astropy. Install with: pip install astropy")
  /\ exists self,
       __init__ false current_year "approximate" year = Ok self
       /\ mode self = "approximate".
Proof.
  split.
  - reflexivity.
  - eexists. split; reflexivity.
Qed.

(** With the provider present both constructions succeed, so the refusal
    above is caused by the missing provider alone. *)
Lemma construction_with_provider (m : string) (year : option Z) :
  exists self, __init__ true current_year m year = Ok self /\ mode self = m.
Proof.
  unfold __init__. rewrite andb_false_r. eexists. split; reflexivity.
Qed.

(** A calculator that was constructed in high-precision mode has its
    provider: the refusal cannot be deferred to a later call. *)
Lemma constructed_high_precision_has_provider
    (available : bool) (year : option Z) (self : t) :
  __init__ available current_year "high-precision" year = Ok self ->
  available = true.
Proof.
  unfold __init__. destruct available; [reflexivity | discriminate].
Qed.

Variable get_sun : datetime -> result sun_coord.

(** C5. Whenever the provider answers, the high-precision calculation
    returns the provider's declination together with the approximate
    equation of time of the day of the year; [calculate] therefore reports
    the same equation of time in both modes. *)
Theorem high_precision_eot_is_approximate
    (dt : datetime) (sun : sun_coord) (approx precise : t) :
  get_sun dt = Ok sun ->
  mode approx = "approximate" ->
  mode precise = "high-precision" ->
  calculate_high_precision true get_sun dt =
    Ok (dec_degree sun, calculate_equation_of_time_approximate (tm_yday dt))
  /\ exists ra rp,
       calculate true get_sun approx dt = Ok ra
       /\ calculate true get_sun precise dt = Ok rp
       /\ eot ra = calculate_equation_of_time_approximate (tm_yday dt)
       /\ eot rp = eot ra.
Proof.
  intros Hsun Ha Hp.
  assert (Hhp : calculate_high_precision true get_sun dt =
    Ok (dec_degree sun, calculate_equation_of_time_approximate (tm_yday dt))).
  { unfold calculate_high_precision. cbn [negb]. rewrite Hsun. reflexivity. }
  split; [exact Hhp |].
  unfold calculate. rewrite Ha, Hp. cbn [String.eqb Ascii.eqb Bool.eqb].
  rewrite Hhp. cbn [bind].
  do 2 eexists. repeat split.
Qed.

(** Without the provider the high-precision calculation raises instead. *)
Lemma high_precision_without_provider (dt : datetime) :
  calculate_high_precision false get_sun dt =
    Raise (RuntimeError "High-precision mode requires astropy").
Proof. reflexivity. Qed.

Lemma set_mode_restore (self : t) (m1 m2 : string) :
  set_mode (set_mode (set_mode self m1) m2) (mode self) = self.
Proof. destruct self. reflexivity. Qed.

(** C10. When [compare_modes] returns normally, the calculator it leaves
    behind is the calculator it was given: the mode reads as before the
    call (and so does the year). *)
Theorem compare_modes_preserves_mode
    (available : bool) (self self' : t) (date : datetime) (r : comparison) :
  compare_modes available get_sun self date = (Ok r, self') ->
  mode self' = mode self /\ self' = self.
Proof.
  unfold compare_modes. intros H.
  destruct (negb available); [discriminate |].
  destruct (calculate available get_sun (set_mode self "approximate") date);
    [| discriminate].
  destruct (calculate available get_sun
              (set_mode (set_mode self "approximate") "high-precision") date);
    [| discriminate].
  injection H as _ H. rewrite set_mode_restore in H. subst self'.
  split; reflexivity.
Qed.

(** X6. The restoring assignment is skipped when the high-precision leg
    raises: the mode is then left at ["high-precision"]. *)
Lemma compare_modes_raise_leaves_mode
    (self : t) (date : datetime) (e : exn) :
  get_sun date = Raise e ->
  compare_modes true get_sun self date =
    (Raise e, set_mode (set_mode self "approximate") "high-precision").
Proof.
  intros Hsun. unfold compare_modes, calculate, calculate_high_precision.
  cbn. rewrite Hsun. reflexivity.
Qed.

End CalculatorProperties.

Lemma high_precision_eot_is_approximate_witness :
  let get_sun := fun _ : datetime => Ok (mk_sun (NP.Fin 6) (NP.Fin 23)) in
  let dt := mk_datetime 2026 6 21 12 0 in
  AnalemmaCalculator.calculate_high_precision true get_sun dt =
    Ok (NP.Fin 23,
        AnalemmaCalculator.calculate_equation_of_time_approximate 172)
  /\ exists ra rp,
       AnalemmaCalculator.calculate true get_sun
         (AnalemmaCalculator.mk "approximate" 2026) dt = Ok ra
       /\ AnalemmaCalculator.calculate true get_sun
            (AnalemmaCalculator.mk "high-precision" 2026) dt = Ok rp
       /\ AnalemmaCalculator.eot ra =
            AnalemmaCalculator.calculate_equation_of_time_approximate 172
       /\ AnalemmaCalculator.eot rp = AnalemmaCalculator.eot ra.
Proof.
  intros get_sun dt.
  apply (high_precision_eot_is_approximate get_sun dt
           (mk_sun (NP.Fin 6) (NP.Fin 23))); reflexivity.
Defined.

Lemma compare_modes_preserves_mode_witness :
  let get_sun := fun _ : datetime => Ok (mk_sun (NP.Fin 6) (NP.Fin 23)) in
  let dt := mk_datetime 2026 6 21 12 0 in
  let self := AnalemmaCalculator.mk "approximate" 2026 in
  exists r self',
    AnalemmaCalculator.compare_modes true get_sun self dt = (Ok r, self')
    /\ AnalemmaCalculator.mode self' = "approximate" /\ self' = self.
Proof.
  intros get_sun dt self. do 2 eexists.
  split; [reflexivity |].
  eapply (compare_modes_preserves_mode get_sun true self _ dt).
  reflexivity.
Defined.

(** ** The sky projector *)

(** *** Spherical trigonometry behind the altitude and azimuth formulas *)

Section SphericalTriangle.

Variables phi delta H : R.

Let s : R := sin_alt phi delta H.
Let n1 : R := az_num_sin delta H.
Let n2 : R := az_num_cos phi delta H.

(** Lagrange's identity for the two unit vectors of the triangle: the square
    of the sine of the altitude and the squares of the two numerators add up
    to one. *)
Lemma altitude_azimuth_squares : s * s + n1 * n1 + n2 * n2 = 1.
Proof.
  unfold s, n1, n2, sin_alt, az_num_sin, az_num_cos.
  transitivity
    (((sin phi)² + (cos phi)²)
     * ((sin delta)² + (cos delta)² * ((sin H)² + (cos H)²))
     + (cos delta)² * (sin H)² * (1 - ((sin phi)² + (cos phi)²))).
  - unfold Rsqr. ring.
  - rewrite (sin2_cos2 phi), (sin2_cos2 H), Rmult_1_r, (sin2_cos2 delta).
    ring.
Qed.

Lemma sin_alt_bound : -1 <= sin_alt phi delta H <= 1.
Proof.
  pose proof altitude_azimuth_squares as Hsq. fold s.
  pose proof (Rle_0_sqr n1). pose proof (Rle_0_sqr n2).
  unfold Rsqr in *. split; nra.
Qed.

(** At the zenith or nadir both numerators vanish. *)
Lemma numerators_vanish :
  sin_alt phi delta H * sin_alt phi delta H = 1 ->
  az_num_sin delta H = 0 /\ az_num_cos phi delta H = 0.
Proof.
  fold s n1 n2. intros Hs. pose proof altitude_azimuth_squares as Hsq.
  pose proof (Rle_0_sqr n1). pose proof (Rle_0_sqr n2).
  unfold Rsqr in *. split; nra.
Qed.

(** The cosine of the computed altitude vanishes exactly when the sine is
    [1] or [-1]. *)
Lemma cos_asin_zero :
  cos (asin (sin_alt phi delta H)) = 0
  <-> sin_alt phi delta H * sin_alt phi delta H = 1.
Proof.
  pose proof sin_alt_bound as Hb.
  rewrite cos_asin by exact Hb. fold s in Hb |- *.
  split.
  - intros Hz. apply sqrt_eq_0 in Hz; unfold Rsqr in *; nra.
  - intros Hs. replace (1 - s²) with 0 by (unfold Rsqr; lra).
    apply sqrt_0.
Qed.

End SphericalTriangle.

Section SkyMapperProperties.

Import NP SkyMapper.


Variable self : t.
Variable phi : R.
Hypothesis Hphi : latitude_rad self = Fin phi.

Variables dec ha : R.

Let delta : R := dec * (PI / 180).
Let H : R := ha * (PI / 180).

Lemma altitude_closed_form :
  calculate_altitude self (Fin dec) (Fin ha) =
  Fin (asin (sin_alt phi delta H) * (180 / PI)).
Proof.
  unfold calculate_altitude. rewrite Hphi.
  cbn [radians mul sin cos add].
  fold delta H. fold (sin_alt phi delta H).
  rewrite NPFacts.arcsin_fin by apply sin_alt_bound.
  reflexivity.
Qed.

Lemma cos_computed_altitude :
  cos (radians (calculate_altitude self (Fin dec) (Fin ha))) =
  Fin (Rtrigo_def.cos (asin (sin_alt phi delta H))).
Proof.
  rewrite altitude_closed_form. cbn [radians mul cos].
  rewrite NPFacts.radians_degrees. reflexivity.
Qed.

Lemma altitude_range :
  -90 <= asin (sin_alt phi delta H) * (180 / PI) <= 90.
Proof.
  pose proof PI_RGT_0 as HPI.
  pose proof (asin_bound (sin_alt phi delta H)) as [Hlo Hhi].
  assert (Hk : 0 < 180 / PI) by (apply Rdiv_lt_0_compat; lra).
  assert (E : PI / 2 * (180 / PI) = 90) by (field; lra).
  split.
  - apply Rmult_le_compat_r with (r := 180 / PI) in Hlo; lra.
  - apply Rmult_le_compat_r with (r := 180 / PI) in Hhi; lra.
Qed.

(** Away from the singularity the azimuth is a finite remainder modulo 360. *)
Lemma azimuth_regular (alt : R) :
  Rtrigo_def.cos (alt * (PI / 180)) <> 0 ->
  exists az, calculate_azimuth self (Fin dec) (Fin ha) (Fin alt) = Fin az
             /\ 0 <= az < 360.
Proof.
  intros Hc. unfold calculate_azimuth. rewrite Hphi.
  cbn [radians mul sin cos sub add neg].
  rewrite !NPFacts.div_fin by exact Hc.
  cbn [arctan2 degrees mul add mod_].
  eexists. split; [reflexivity |].
  apply NPFacts.mod_range. lra.
Qed.

(** At the singularity both quotients are [0/0]: with no guard in the way
    the [NaN] reaches the result. *)
Lemma azimuth_singular (alt : R) :
  Rtrigo_def.cos (alt * (PI / 180)) = 0 ->
  az_num_sin delta H = 0 -> az_num_cos phi delta H = 0 ->
  calculate_azimuth self (Fin dec) (Fin ha) (Fin alt) = NaN.
Proof.
  intros Hc Hs Hn. unfold calculate_azimuth. rewrite Hphi.
  cbn [radians mul sin cos sub add neg].
  fold delta H. rewrite Hc.
  replace (Rtrigo_def.cos delta * Rtrigo_def.sin H) with 0
    by (symmetry; exact Hs).
  rewrite NPFacts.div_zero_zero. reflexivity.
Qed.

Lemma azimuth_at_zenith :
  cos (radians (calculate_altitude self (Fin dec) (Fin ha))) = Fin 0 ->
  calculate_azimuth self (Fin dec) (Fin ha)
    (calculate_altitude self (Fin dec) (Fin ha)) = NaN.
Proof.
  rewrite cos_computed_altitude. intros Hz. injection Hz as Hz.
  rewrite altitude_closed_form.
  pose proof (proj1 (cos_asin_zero phi delta H) Hz) as Hs.
  destruct (numerators_vanish phi delta H Hs) as [Hn1 Hn2].
  apply azimuth_singular; try assumption.
  rewrite NPFacts.radians_degrees. exact Hz.
Qed.

Lemma projection_ranges :
  cos (radians (calculate_altitude self (Fin dec) (Fin ha))) <> Fin 0 ->
  exists alt az,
    calculate_altitude self (Fin dec) (Fin ha) = Fin alt
    /\ calculate_azimuth self (Fin dec) (Fin ha)
         (calculate_altitude self (Fin dec) (Fin ha)) = Fin az
    /\ -90 <= alt <= 90
    /\ 0 <= az < 360.
Proof.
  rewrite cos_computed_altitude. intros Hnz.
  rewrite altitude_closed_form.
  destruct (azimuth_regular (asin (sin_alt phi delta H) * (180 / PI)))
    as (az & Haz & Hrange).
  { rewrite NPFacts.radians_degrees. intros E. apply Hnz. now rewrite E. }
  exists (asin (sin_alt phi delta H) * (180 / PI)), az.
  pose proof altitude_range as Halt.
  repeat split; solve [assumption | apply Halt | apply Hrange].
Qed.

End SkyMapperProperties.

Section SkyMapperClaims.

Import NP SkyMapper.

Variables (lat lon : R) (tz : option float64) (self : t).
Hypothesis Hinit : __init__ (Fin lat) (Fin lon) tz = Ok self.




(** [map_single_point] stores exactly these two values. *)
Lemma map_single_point_entries (c : AnalemmaCalculator.calc_result) :
  let p := map_single_point self c in
  altitude p =
    calculate_altitude self (AnalemmaCalculator.declination c) (hour_angle p)
  /\ azimuth p =
       calculate_azimuth self (AnalemmaCalculator.declination c)
         (hour_angle p) (altitude p).
Proof. split; reflexivity. Qed.

Variable dec : R.

Let phi : R := lat * (PI / 180).
Let delta : R := dec * (PI / 180).



End SkyMapperClaims.

(** *** Concrete observers *)

Section ConcreteObservers.

Import NP SkyMapper.

(** The cosine of the computed altitude vanishes exactly when the sine of
    the altitude is [1] or [-1]. *)
Lemma cos_altitude_zero_iff (self : t) (phi dec ha : R) :
  latitude_rad self = Fin phi ->
  cos (radians (calculate_altitude self (Fin dec) (Fin ha))) = Fin 0
  <-> sin_alt phi (dec * (PI / 180)) (ha * (PI / 180))
      * sin_alt phi (dec * (PI / 180)) (ha * (PI / 180)) = 1.
Proof.
  intros Hphi. rewrite (cos_computed_altitude self phi Hphi).
  rewrite <- cos_asin_zero. split.
  - intros E. now injection E.
  - intros E. now rewrite E.
Qed.

Lemma quarter_turn : 90 * (PI / 180) = PI / 2.
Proof. field. Qed.






End ConcreteObservers.





(** ** The image anchorer *)

Section AnchorerProperties.

Import NP ImageAnchorer.

(** Before calibration the conversion raises whatever is asked, and reads
    no scale. *)
Lemma sky_to_pixel_uncalibrated (self : t) (altitude azimuth : float64) :
  pixels_per_degree_az self = None ->
  sky_to_pixel self altitude azimuth = Raise (ValueError must_calibrate).
Proof. unfold sky_to_pixel. intros ->. reflexivity. Qed.

(** The constructor leaves both scales unset. *)
Lemma init_uncalibrated
    (has_scipy : bool) (ndimage_label : list (list bool) -> list (list nat) * nat)
    (available : bool) (current_year : Z) (get_sun : datetime -> result sun_coord)
    (img : pil_image) (dt : datetime) (lat lon : float64)
    (pixel : option (Z * Z)) (auto : bool) (self : t) :
  __init__ has_scipy ndimage_label available current_year get_sun
    img dt lat lon pixel auto = Ok self ->
  pixels_per_degree_az self = None /\ pixels_per_degree_alt self = None.
Proof.
  unfold __init__. destruct (image_size img) as [w h].
  intros Hinit.
  repeat match type of Hinit with
  | bind ?m _ = _ => destruct m; cbn [bind] in Hinit; [| discriminate]
  end.
  injection Hinit as <-. split; reflexivity.
Qed.

(** The conversion on finite values. *)
Lemma sky_to_pixel_finite (self : t) (alt az alt0 az0 paz palt : R) :
  SkyMapper.altitude (anchor_data self) = Fin alt0 ->
  SkyMapper.azimuth (anchor_data self) = Fin az0 ->
  pixels_per_degree_az self = Some (Fin paz) ->
  pixels_per_degree_alt self = Some (Fin palt) ->
  sky_to_pixel self (Fin alt) (Fin az) =
    (x <- to_int (Fin (IZR (fst (sun_pixel self)) + (az + - az0) * paz)) ;;
     y <- to_int (Fin (IZR (snd (sun_pixel self)) + - (alt + - alt0) * palt)) ;;
     Ok (x, y)).
Proof.
  unfold sky_to_pixel. intros -> -> -> ->. reflexivity.
Qed.

(** A calibration from fields of view given as built-in floats either
    raises on a zero, or sets two finite scales and nothing else. *)
Lemma fov_calibration_finite (self self' : t) (h v : R) :
  calibrate_from_field_of_view self (PyFloat (Fin h)) (PyFloat (Fin v))
    = (Ok tt, self') ->
  h <> 0 /\ v <> 0
  /\ pixels_per_degree_az self' = Some (Fin (IZR (image_width self) / h))
  /\ pixels_per_degree_alt self' = Some (Fin (IZR (image_height self) / v))
  /\ anchor_data self' = anchor_data self
  /\ sun_pixel self' = sun_pixel self.
Proof.
  unfold calibrate_from_field_of_view, int_truediv, py_truediv, of_int.
  destruct (Req_dec_T h 0) as [Eh | Nh]; [discriminate |].
  cbn [set_pixels_per_degree_az image_height].
  destruct (Req_dec_T v 0) as [Ev | Nv]; [discriminate |].
  rewrite !NPFacts.div_fin by assumption.
  intros E. injection E as <-. repeat split; assumption.
Qed.

Lemma fov_calibration_succeeds (self : t) (h v : R) :
  h <> 0 -> v <> 0 ->
  exists self',
    calibrate_from_field_of_view self (PyFloat (Fin h)) (PyFloat (Fin v))
      = (Ok tt, self').
Proof.
  intros Nh Nv.
  unfold calibrate_from_field_of_view, int_truediv, py_truediv, of_int.
  destruct (Req_dec_T h 0) as [Eh | _]; [contradiction |].
  cbn [set_pixels_per_degree_az image_height].
  destruct (Req_dec_T v 0) as [Ev | _]; [contradiction |].
  eexists. reflexivity.
Qed.

(** C3, as the code has it. For every anchorer with a finite anchor
    position and every finite altitude/azimuth pair: while no scale is set
    the conversion raises the must-calibrate [ValueError] (the code's
    configuration error) and uses no scale; once a calibration from non-zero
    fields of view has run, the same request returns a pixel. *)
Theorem sky_to_pixel_needs_calibration
    (self : t) (alt az alt0 az0 h v : R) :
  pixels_per_degree_az self = None ->
  SkyMapper.altitude (anchor_data self) = Fin alt0 ->
  SkyMapper.azimuth (anchor_data self) = Fin az0 ->
  h <> 0 -> v <> 0 ->
  sky_to_pixel self (Fin alt) (Fin az) = Raise (ValueError must_calibrate)
  /\ exists self' p,
       calibrate_from_field_of_view self (PyFloat (Fin h)) (PyFloat (Fin v))
         = (Ok tt, self')
       /\ sky_to_pixel self' (Fin alt) (Fin az) = Ok p.
Proof.
  intros Hnone Halt Haz Nh Nv. split.
  - apply sky_to_pixel_uncalibrated. exact Hnone.
  - destruct (fov_calibration_succeeds self h v Nh Nv) as [self' Hcal].
    destruct (fov_calibration_finite _ _ _ _ Hcal)
      as (_ & _ & Hpaz & Hpalt & Hanchor & _).
    exists self'. eexists. split; [exact Hcal |].
    rewrite (sky_to_pixel_finite self' alt az alt0 az0
               (IZR (image_width self) / h) (IZR (image_height self) / v));
      try assumption; try (rewrite Hanchor; assumption).
    reflexivity.
Qed.

(** C8, as the code has it. For every anchorer whose calibration left
    finite scales, converting the anchor's own (finite) horizon position
    returns the anchor's sun pixel exactly. *)
Theorem anchor_round_trip (self : t) (alt0 az0 paz palt : R) :
  SkyMapper.altitude (anchor_data self) = Fin alt0 ->
  SkyMapper.azimuth (anchor_data self) = Fin az0 ->
  pixels_per_degree_az self = Some (Fin paz) ->
  pixels_per_degree_alt self = Some (Fin palt) ->
  sky_to_pixel self (Fin alt0) (Fin az0) = Ok (sun_pixel self).
Proof.
  intros Halt Haz Hpaz Hpalt.
  rewrite (sky_to_pixel_finite self alt0 az0 alt0 az0 paz palt) by assumption.
  replace (IZR (fst (sun_pixel self)) + (az0 + - az0) * paz)
    with (IZR (fst (sun_pixel self))) by ring.
  replace (IZR (snd (sun_pixel self)) + - (alt0 + - alt0) * palt)
    with (IZR (snd (sun_pixel self))) by ring.
  fold (of_int (fst (sun_pixel self))) (of_int (snd (sun_pixel self))).
  rewrite !NPFacts.to_int_of_int. cbn [bind].
  destruct (sun_pixel self). reflexivity.
Qed.

End AnchorerProperties.

(** *** Anchorers as the constructor builds them *)

Section ConstructedAnchorers.

Import NP.

Lemma mapper_init (lat lon : R) :
  SkyMapper.__init__ (Fin lat) (Fin lon) None = Ok (mapper_at lat lon).
Proof.
  unfold SkyMapper.__init__. rewrite NPFacts.div_fin by lra. reflexivity.
Qed.

Lemma eot_closed_form (day_of_year : Z) :
  AnalemmaCalculator.calculate_equation_of_time_approximate day_of_year =
  Fin (eot_value day_of_year).
Proof.
  unfold AnalemmaCalculator.calculate_equation_of_time_approximate, of_int.
  cbn [mul]. rewrite NPFacts.div_fin by lra. reflexivity.
Qed.

Lemma calculate_approximate (available : bool)
    (get_sun : datetime -> result sun_coord) (year : Z) (dt : datetime) :
  AnalemmaCalculator.calculate available get_sun
    (AnalemmaCalculator.mk "approximate" year) dt = Ok (approximate_result dt).
Proof.
  unfold AnalemmaCalculator.calculate.
  cbn [AnalemmaCalculator.mode String.eqb Ascii.eqb Bool.eqb].
  rewrite declination_closed_form, eot_closed_form. reflexivity.
Qed.

Lemma hour_angle_closed_form (lat lon : R) (dt : datetime) :
  SkyMapper.equation_of_time_to_hour_angle (mapper_at lat lon)
    (Fin (eot_value (tm_yday dt))) (dt_hour dt) (dt_minute dt) None =
  Fin (hour_angle_value lon dt).
Proof.
  unfold SkyMapper.equation_of_time_to_hour_angle, of_int.
  cbn [SkyMapper.longitude SkyMapper.timezone_offset mapper_at].
  rewrite !NPFacts.div_fin by lra. reflexivity.
Qed.

(** The anchor position is the projection of the approximate solar
    coordinates of the anchor date. *)
Lemma anchor_position (lat lon : R) (dt : datetime) :
  let p := SkyMapper.map_single_point (mapper_at lat lon) (approximate_result dt) in
  let dec := Fin (declination_value (tm_yday dt)) in
  let ha := Fin (hour_angle_value lon dt) in
  SkyMapper.altitude p = SkyMapper.calculate_altitude (mapper_at lat lon) dec ha
  /\ SkyMapper.azimuth p =
       SkyMapper.calculate_azimuth (mapper_at lat lon) dec ha
         (SkyMapper.calculate_altitude (mapper_at lat lon) dec ha).
Proof.
  unfold SkyMapper.map_single_point.
  cbn [approximate_result AnalemmaCalculator.declination AnalemmaCalculator.eot
       AnalemmaCalculator.date SkyMapper.altitude SkyMapper.azimuth].
  rewrite hour_angle_closed_form. split; reflexivity.
Qed.

Variable has_scipy : bool.
Variable ndimage_label : list (list bool) -> list (list nat) * nat.
Variable available : bool.
Variable current_year : Z.
Variable get_sun : datetime -> result sun_coord.

Lemma anchorer_init (img : pil_image) (dt : datetime) (lat lon : R)
    (pixel : option (Z * Z)) (auto : bool) :
  ImageAnchorer.__init__ has_scipy ndimage_label available current_year
    get_sun img dt (Fin lat) (Fin lon) pixel auto =
  (p <- match pixel with
        | None =>
            if auto then
              ImageAnchorer._detect_sun_position has_scipy ndimage_label img
            else Ok ((fst (image_size img) / 2)%Z, (snd (image_size img) / 2)%Z)
        | Some p => Ok p
        end ;;
   Ok (anchorer_at current_year img dt lat lon p)).
Proof.
  unfold ImageAnchorer.__init__, anchorer_at.
  destruct (image_size img) as [w h]. cbn [fst snd].
  destruct (match pixel with
            | Some p => Ok p
            | None =>
                if auto then
                  ImageAnchorer._detect_sun_position has_scipy ndimage_label img
                else Ok ((w / 2)%Z, (h / 2)%Z)
            end) as [p | e]; cbn [bind]; [| reflexivity].
  unfold AnalemmaCalculator.__init__.
  cbn [String.eqb Ascii.eqb Bool.eqb andb bind].
  rewrite mapper_init. cbn [bind].
  unfold ImageAnchorer._calculate_anchor_position.
  rewrite calculate_approximate. reflexivity.
Qed.

End ConstructedAnchorers.

Section PolarAnchor.

Import NP.

Lemma declination_value_equinox : declination_value 81 = 0.
Proof.
  unfold declination_value.
  replace 81%Z with (81 + 0)%Z by lia.
  rewrite declination_sin_shift.
  replace (360 / 365 * 0 * (PI / 180)) with 0 by ring.
  rewrite sin_0. ring.
Qed.

(** Off the zenith and nadir the anchor position is finite and in range. *)
Lemma anchor_finite_off_zenith (lat lon : R) (dt : datetime) :
  let p := SkyMapper.map_single_point (mapper_at lat lon) (approximate_result dt) in
  cos (radians (SkyMapper.altitude p)) <> Fin 0 ->
  exists alt0 az0,
    SkyMapper.altitude p = Fin alt0 /\ SkyMapper.azimuth p = Fin az0
    /\ -90 <= alt0 <= 90 /\ 0 <= az0 < 360.
Proof.
  intros p. destruct (anchor_position lat lon dt) as [Ha Hz].
  fold p in Ha, Hz. rewrite Hz, Ha. intros Hc.
  apply projection_ranges with (phi := lat * (PI / 180)); [reflexivity |].
  exact Hc.
Qed.

(** At the north pole on the equinox day the sun is on the horizon, whatever
    the hour: the anchor position is finite. *)
Lemma polar_equinox_anchor (lon : R) (dt : datetime) :
  tm_yday dt = 81%Z ->
  let p := SkyMapper.map_single_point (mapper_at 90 lon) (approximate_result dt) in
  exists alt0 az0,
    SkyMapper.altitude p = Fin alt0 /\ SkyMapper.azimuth p = Fin az0.
Proof.
  intros Hday p.
  destruct (anchor_finite_off_zenith 90 lon dt) as (alt0 & az0 & Ha & Hz & _).
  - destruct (anchor_position 90 lon dt) as [Ha _]. rewrite Ha. intros E.
    apply (cos_altitude_zero_iff _ (90 * (PI / 180))) in E; [| reflexivity].
    rewrite Hday, declination_value_equinox in E. unfold sin_alt in E.
    rewrite quarter_turn, Rmult_0_l, sin_0, cos_PI2, sin_PI2 in E. lra.
  - exists alt0, az0. split; assumption.
Qed.

(** A focal-length calibration with a zero sensor size computes zero fields
    of view as NumPy scalars; dividing the image size by them raises nothing
    and leaves infinite scales. *)
Lemma zero_sensor_calibration (self : ImageAnchorer.t) (f : R) :
  f <> 0 ->
  (0 < ImageAnchorer.image_width self)%Z ->
  (0 < ImageAnchorer.image_height self)%Z ->
  ImageAnchorer.calibrate_from_focal_length self (Fin f) (Fin 0) (Fin 0) =
    (Ok tt,
     ImageAnchorer.set_pixels_per_degree_alt
       (ImageAnchorer.set_pixels_per_degree_az self PInf) PInf).
Proof.
  intros Hf Hw Hh. apply IZR_lt in Hw, Hh.
  unfold ImageAnchorer.calibrate_from_focal_length, py_truediv.
  cbn [mul]. destruct (Req_dec_T (2 * f) 0) as [E | _]; [lra |].
  rewrite NPFacts.div_fin by lra.
  cbn [arctan degrees mul].
  replace (2 * (atan (0 / (2 * f)) * (180 / PI))) with 0.
  2:{ replace (0 / (2 * f)) with 0 by (field; lra). rewrite atan_0. ring. }
  unfold ImageAnchorer.calibrate_from_field_of_view, ImageAnchorer.int_truediv.
  cbn [ImageAnchorer.set_pixels_per_degree_az ImageAnchorer.image_height].
  unfold of_int, div, scale_inf. decide_reals. reflexivity.
Qed.

End PolarAnchor.

(** *** A photograph taken at the north pole on the equinox *)

Lemma polar_anchorer_init :
  ImageAnchorer.__init__ false (fun _ => ([], 0%nat)) false 2026
    (fun _ => Raise (RuntimeError "unavailable"))
    sample_image equinox_noon (NP.Fin 90) (NP.Fin 0) (Some (1, 0)%Z) true
  = Ok polar_anchorer.
Proof. rewrite anchorer_init. reflexivity. Qed.

Lemma polar_anchorer_anchor :
  exists alt0 az0,
    SkyMapper.altitude (ImageAnchorer.anchor_data polar_anchorer) = NP.Fin alt0
    /\ SkyMapper.azimuth (ImageAnchorer.anchor_data polar_anchorer) = NP.Fin az0.
Proof. apply (polar_equinox_anchor 0 equinox_noon). reflexivity. Qed.

Lemma polar_anchorer_zero_sensor :
  ImageAnchorer.calibrate_from_focal_length polar_anchorer
    (NP.Fin 50) (NP.Fin 0) (NP.Fin 0) =
  (Ok tt,
   ImageAnchorer.set_pixels_per_degree_alt
     (ImageAnchorer.set_pixels_per_degree_az polar_anchorer NP.PInf) NP.PInf).
Proof. apply zero_sensor_calibration; [lra | reflexivity | reflexivity]. Qed.

Section ZenithAnchor.

Import NP.

Lemma eot_value_equinox : eot_value 81 = -7.53.
Proof.
  unfold eot_value. change (81 - 81)%Z with 0%Z.
  replace (2 * PI * 0 / 365) with 0 by (field; lra).
  rewrite Rmult_0_r, sin_0, cos_0. lra.
Qed.

Lemma zone_of_solar_noon : zone_of 1.8825 = 0%Z.
Proof.
  unfold zone_of.
  assert (Hfloor : Zfloor (1.8825 / 15) = 0%Z) by (apply Zfloor_eq; lra).
  rewrite Hfloor. destruct (Rlt_dec (1.8825 / 15 - 0) (1 / 2)); [reflexivity | lra].
Qed.

Lemma hour_angle_solar_noon : hour_angle_value 1.8825 equinox_noon = 0.
Proof.
  unfold hour_angle_value.
  change (tm_yday equinox_noon) with 81%Z.
  rewrite eot_value_equinox, zone_of_solar_noon.
  change (dt_hour equinox_noon - 12)%Z with 0%Z.
  change (dt_minute equinox_noon) with 0%Z. lra.
Qed.

(** The anchor of that photograph has no defined azimuth. *)
Lemma zenith_anchorer_anchor :
  SkyMapper.azimuth (ImageAnchorer.anchor_data zenith_anchorer) = NaN.
Proof.
  unfold zenith_anchorer, anchorer_at. cbn [ImageAnchorer.anchor_data].
  destruct (anchor_position 0 1.8825 equinox_noon) as [_ Hz]. rewrite Hz.
  change (tm_yday equinox_noon) with 81%Z.
  rewrite declination_value_equinox, hour_angle_solar_noon.
  apply azimuth_at_zenith with (phi := 0 * (PI / 180)); [reflexivity |].
  apply (cos_altitude_zero_iff _ (0 * (PI / 180))); [reflexivity |].
  unfold sin_alt. rewrite Rmult_0_l, sin_0, cos_0. ring.
Qed.

End ZenithAnchor.

Lemma zenith_anchorer_init :
  ImageAnchorer.__init__ false (fun _ => ([], 0%nat)) false 2026
    (fun _ => Raise (RuntimeError "unavailable"))
    sample_image equinox_noon (NP.Fin 0) (NP.Fin 1.8825) (Some (1, 0)%Z) true
  = Ok zenith_anchorer.
Proof. rewrite anchorer_init. reflexivity. Qed.

(** C3, as the claim states it, fails after a calibration from a focal
    length with a zero sensor size: the calibration returns normally, the
    scales it sets are infinite, and the request raises from [int()]. *)
Lemma calibrated_request_raises :
  exists self',
    ImageAnchorer.calibrate_from_focal_length polar_anchorer
      (NP.Fin 50) (NP.Fin 0) (NP.Fin 0) = (Ok tt, self')
    /\ exists e, ImageAnchorer.sky_to_pixel self' (NP.Fin 10) (NP.Fin 20)
                 = Raise e.
Proof.
  eexists. split; [exact polar_anchorer_zero_sensor |].
  destruct polar_anchorer_anchor as (alt0 & az0 & Ha & Hz).
  unfold ImageAnchorer.sky_to_pixel.
  cbn [ImageAnchorer.pixels_per_degree_az ImageAnchorer.pixels_per_degree_alt
       ImageAnchorer.set_pixels_per_degree_az
       ImageAnchorer.set_pixels_per_degree_alt
       ImageAnchorer.anchor_data ImageAnchorer.sun_pixel].
  fold polar_anchorer. rewrite Ha, Hz.
  cbn [NP.sub NP.neg NP.add NP.mul]. unfold NP.scale_inf.
  destruct (Req_dec_T (20 + - az0) 0);
    [| destruct (Rlt_dec 0 (20 + - az0))]; eexists; reflexivity.
Qed.

(** The undefined azimuth of a zenith anchor has the same effect: however
    the anchorer is calibrated, every offset from the anchor is [NaN] and
    the request raises. *)
Lemma zenith_anchor_request_raises :
  exists self',
    ImageAnchorer.calibrate_from_field_of_view zenith_anchorer
      (ImageAnchorer.PyFloat (NP.Fin 60)) (ImageAnchorer.PyFloat (NP.Fin 40))
      = (Ok tt, self')
    /\ ImageAnchorer.sky_to_pixel self' (NP.Fin 10) (NP.Fin 20)
       = Raise (ValueError "cannot convert float NaN to integer").
Proof.
  destruct (fov_calibration_succeeds zenith_anchorer 60 40) as [self' Hcal];
    [lra | lra |].
  destruct (fov_calibration_finite _ _ _ _ Hcal)
    as (_ & _ & Hpaz & Hpalt & Hanchor & _).
  exists self'. split; [exact Hcal |].
  unfold ImageAnchorer.sky_to_pixel.
  rewrite Hpaz, Hpalt, Hanchor, zenith_anchorer_anchor. reflexivity.
Qed.

Lemma sky_to_pixel_needs_calibration_witness :
  ImageAnchorer.sky_to_pixel polar_anchorer (NP.Fin 10) (NP.Fin 20)
    = Raise (ValueError ImageAnchorer.must_calibrate)
  /\ exists self' p,
       ImageAnchorer.calibrate_from_field_of_view polar_anchorer
         (ImageAnchorer.PyFloat (NP.Fin 60)) (ImageAnchorer.PyFloat (NP.Fin 40))
         = (Ok tt, self')
       /\ ImageAnchorer.sky_to_pixel self' (NP.Fin 10) (NP.Fin 20) = Ok p.
Proof.
  destruct polar_anchorer_anchor as (alt0 & az0 & Ha & Hz).
  apply (sky_to_pixel_needs_calibration polar_anchorer 10 20 alt0 az0 60 40);
    [reflexivity | exact Ha | exact Hz | lra | lra].
Defined.

(** C8, as the claim states it, fails on the same anchorer: the offsets of
    the anchor's own position are zero, but zero times the infinite scale is
    [NaN] and [int()] raises. *)
Lemma anchor_round_trip_raises :
  exists self',
    ImageAnchorer.calibrate_from_focal_length polar_anchorer
      (NP.Fin 50) (NP.Fin 0) (NP.Fin 0) = (Ok tt, self')
    /\ ImageAnchorer.pixels_per_degree_az self' = Some NP.PInf
    /\ ImageAnchorer.pixels_per_degree_alt self' = Some NP.PInf
    /\ (let anchor := ImageAnchorer.anchor_data self' in
        NP.sub (SkyMapper.azimuth anchor) (SkyMapper.azimuth anchor) = NP.Fin 0
        /\ NP.sub (SkyMapper.altitude anchor) (SkyMapper.altitude anchor)
           = NP.Fin 0
        /\ ImageAnchorer.sky_to_pixel self'
             (SkyMapper.altitude anchor) (SkyMapper.azimuth anchor)
           = Raise (ValueError "cannot convert float NaN to integer")).
Proof.
  eexists. split; [exact polar_anchorer_zero_sensor |].
  split; [reflexivity |]. split; [reflexivity |].
  destruct polar_anchorer_anchor as (alt0 & az0 & Ha & Hz).
  unfold ImageAnchorer.sky_to_pixel.
  cbn [ImageAnchorer.pixels_per_degree_az ImageAnchorer.pixels_per_degree_alt
       ImageAnchorer.set_pixels_per_degree_az
       ImageAnchorer.set_pixels_per_degree_alt
       ImageAnchorer.anchor_data ImageAnchorer.sun_pixel].
  fold polar_anchorer. rewrite Ha, Hz.
  cbn [NP.sub NP.neg NP.add NP.mul]. unfold NP.scale_inf.
  repeat split.
  - f_equal. ring.
  - f_equal. ring.
  - destruct (Req_dec_T (az0 + - az0) 0) as [_ | N]; [reflexivity | lra].
Qed.

Lemma anchor_round_trip_witness :
  exists self',
    ImageAnchorer.calibrate_from_field_of_view polar_anchorer
      (ImageAnchorer.PyFloat (NP.Fin 60)) (ImageAnchorer.PyFloat (NP.Fin 40))
      = (Ok tt, self')
    /\ ImageAnchorer.sky_to_pixel self'
         (SkyMapper.altitude (ImageAnchorer.anchor_data self'))
         (SkyMapper.azimuth (ImageAnchorer.anchor_data self'))
       = Ok (1, 0)%Z.
Proof.
  destruct polar_anchorer_anchor as (alt0 & az0 & Ha & Hz).
  destruct (fov_calibration_succeeds polar_anchorer 60 40) as [self' Hcal];
    [lra | lra |].
  destruct (fov_calibration_finite _ _ _ _ Hcal)
    as (_ & _ & Hpaz & Hpalt & Hanchor & Hpixel).
  exists self'. split; [exact Hcal |].
  rewrite Hanchor, Ha, Hz.
  rewrite (anchor_round_trip self' alt0 az0 _ _
             (eq_trans (f_equal SkyMapper.altitude Hanchor) Ha)
             (eq_trans (f_equal SkyMapper.azimuth Hanchor) Hz) Hpaz Hpalt).
  rewrite Hpixel. reflexivity.
Defined.

(** ** Sun detection *)

Section DetectionProperties.

Lemma sumZ_zero (l : list Z) : (forall z, In z l -> z = 0%Z) -> sumZ l = 0%Z.
Proof.
  induction l as [| z l IH]; intros Hall; [reflexivity |].
  cbn [sumZ fold_right]. fold (sumZ l).
  rewrite (Hall z) by (left; reflexivity).
  rewrite IH; [reflexivity |]. intros z' Hin. apply Hall. right. exact Hin.
Qed.

(** Pixels of zero brightness have a zero normaliser and zero moments. *)
Lemma dark_pixels_sums (ps : weighted) :
  (forall y x w, In (y, x, w) ps -> w = 0%Z) ->
  weight_sum ps = 0%Z /\ moment_x ps = 0%Z /\ moment_y ps = 0%Z.
Proof.
  intros Hdark. unfold weight_sum, moment_x, moment_y.
  repeat split; apply sumZ_zero; intros z Hin;
    apply in_map_iff in Hin as ([[y x] w] & <- & Hin);
    rewrite (Hdark y x w Hin); lia.
Qed.

(** A selection only contains pixels of the image. *)
Lemma select_incl {A : Type} (keep : A -> bool) (tags : list (list A))
    (gray : list (list Z)) (p : Z * Z * Z) :
  In p (select keep tags gray) -> In p (indexed gray).
Proof.
  unfold select. intros Hin.
  apply in_map_iff in Hin as ([q t] & <- & Hin).
  apply filter_In in Hin as [Hin _].
  apply in_combine_l in Hin. exact Hin.
Qed.

End DetectionProperties.

Lemma black_image_dark (y x w : Z) :
  In (y, x, w) (indexed (repeat (repeat 0%Z 4) 4)) -> w = 0%Z.
Proof.
  cbn. intros Hin.
  repeat (destruct Hin as [Hin | Hin]; [now inversion Hin |]).
  contradiction.
Qed.

Lemma black_selection_sums {A : Type} (keep : A -> bool) (tags : list (list A)) :
  let ps := select keep tags (repeat (repeat 0%Z 4) 4) in
  weight_sum ps = 0%Z /\ moment_x ps = 0%Z /\ moment_y ps = 0%Z.
Proof.
  intros ps. apply dark_pixels_sums. intros y x w Hin.
  apply select_incl in Hin. exact (black_image_dark y x w Hin).
Qed.

(** C9 fails on the code. On an all-black image every pixel passes the
    threshold [0 * 0.999] and every weight is zero.  With SciPy, whatever
    components the labelling finds (at least one), the centre of mass of the
    largest is [0/0 = NaN] and [int()] raises [ValueError]; without SciPy the
    sixteen thresholded pixels exceed the minimum count and [np.average]
    raises [ZeroDivisionError].  No tier falls back to the brightest pixel. *)
Theorem black_image_detection_raises
    (ndimage_label : list (list bool) -> list (list nat) * nat) :
  (0 < snd (ndimage_label (repeat (repeat true 4) 4)))%nat ->
  ImageAnchorer._detect_sun_position true ndimage_label black_image
    = Raise (ValueError "cannot convert float NaN to integer")
  /\ ImageAnchorer._detect_sun_position false ndimage_label black_image
     = Raise (ZeroDivisionError "Weights sum to zero, can't be normalized").
Proof.
  intros Hfeatures. unfold ImageAnchorer._detect_sun_position, black_image.
  change (array_max (repeat (repeat 0%Z 4) 4)) with (@Ok Z 0%Z).
  cbn [bind].
  change (map (map (is_bright 0)) (repeat (repeat 0%Z 4) 4))
    with (repeat (repeat true 4) 4).
  split.
  - destruct (ndimage_label (repeat (repeat true 4) 4)) as [labeled n].
    cbn [snd] in Hfeatures.
    apply Nat.ltb_lt in Hfeatures. rewrite Hfeatures.
    unfold center_of_mass.
    match goal with
    | |- context [select ?keep labeled _] =>
        destruct (black_selection_sums keep labeled) as (-> & -> & ->)
    end.
    unfold NP.of_int. rewrite NPFacts.div_zero_zero. reflexivity.
  - reflexivity.
Qed.

Lemma black_image_detection_raises_witness :
  ImageAnchorer._detect_sun_position true label_whole_mask black_image
    = Raise (ValueError "cannot convert float NaN to integer")
  /\ ImageAnchorer._detect_sun_position false label_whole_mask black_image
     = Raise (ZeroDivisionError "Weights sum to zero, can't be normalized").
Proof.
  apply (black_image_detection_raises label_whole_mask). cbn. lia.
Defined.

(** *** Detection on images that are not black *)

Section DetectionInBounds.

Lemma enumerate_from_In {A : Type} (l : list A) (k i : Z) (a : A) :
  In (i, a) (enumerate_from k l) ->
  (k <= i < k + Z.of_nat (List.length l))%Z /\ In a l.
Proof.
  revert k. induction l as [| b l IH]; intros k Hin; [contradiction |].
  cbn [enumerate_from List.length] in *. destruct Hin as [E | Hin].
  - injection E as <- <-. split; [lia | left; reflexivity].
  - apply IH in Hin as [Hr Ha]. split; [lia | right; exact Ha].
Qed.

(** Every indexed entry sits inside the grid. *)
Lemma indexed_In {A : Type} (rows : list (list A)) (y x : Z) (a : A) :
  In (y, x, a) (indexed rows) ->
  exists row, In row rows /\ In a row
    /\ (0 <= y < Z.of_nat (List.length rows))%Z
    /\ (0 <= x < Z.of_nat (List.length row))%Z.
Proof.
  unfold indexed. intros Hin.
  apply in_flat_map in Hin as ([y' row] & Hrow & Hin).
  apply in_map_iff in Hin as ([x' a'] & E & Hin).
  injection E as <- <- <-.
  apply enumerate_from_In in Hrow as [Hy Hrow].
  apply enumerate_from_In in Hin as [Hx Ha].
  exists row. repeat split; try assumption; lia.
Qed.

Lemma enumerate_from_map {A B : Type} (f : A -> B) (l : list A) (k : Z) :
  enumerate_from k (map f l) =
  map (fun '(i, a) => (i, f a)) (enumerate_from k l).
Proof.
  revert k. induction l as [| a l IH]; intros k; [reflexivity |].
  cbn [map enumerate_from]. rewrite IH. reflexivity.
Qed.

(** Indexing commutes with a pixel-wise map. *)
Lemma indexed_map {A B : Type} (f : A -> B) (rows : list (list A)) :
  indexed (map (map f) rows) =
  map (fun '(y, x, a) => (y, x, f a)) (indexed rows).
Proof.
  unfold indexed. generalize 0%Z at 2 4.
  induction rows as [| row rows IH]; intros k; [reflexivity |].
  cbn [map enumerate_from flat_map]. rewrite map_app, IH. f_equal.
  rewrite enumerate_from_map, !map_map. apply map_ext.
  intros [x a]. reflexivity.
Qed.

Lemma combine_map_r {A B : Type} (h : A -> B) (l : list A) :
  combine l (map h l) = map (fun a => (a, h a)) l.
Proof.
  induction l as [| a l IH]; [reflexivity |].
  cbn [map combine]. rewrite IH. reflexivity.
Qed.

(** The pixels selected through a mask computed from the image itself are
    the pixels that satisfy the mask's test. *)
Lemma select_mask (f : Z -> bool) (gray : list (list Z)) (p : Z * Z * Z) :
  In p (select (fun b : bool => b) (map (map f) gray) gray) <->
  In p (indexed gray) /\ f (snd p) = true.
Proof.
  unfold select. rewrite indexed_map, combine_map_r.
  rewrite in_map_iff. destruct p as [[y x] g]. cbn [snd]. split.
  - intros ([q t] & E & Hin). cbn [fst] in E. subst q.
    apply filter_In in Hin as [Hin Hkeep].
    apply in_map_iff in Hin as ([[y' x'] g'] & E & Hin).
    injection E as E1 E2 E3 E4. subst y' x' g' t.
    split; [exact Hin | exact Hkeep].
  - intros [Hin Hf].
    exists ((y, x, g), (y, x, f g)). split; [reflexivity |].
    apply filter_In. split; [| exact Hf].
    apply in_map_iff. exists (y, x, g). split; [reflexivity | exact Hin].
Qed.

Lemma list_max_spec (xs : list Z) (x : Z) :
  (forall g, In g (x :: xs) -> (g <= list_max x xs)%Z)
  /\ In (list_max x xs) (x :: xs).
Proof.
  unfold list_max. revert x. induction xs as [| a xs IH]; intros x.
  - cbn. split; [intros g [<- | []]; lia | left; reflexivity].
  - cbn [fold_left]. destruct (IH (Z.max x a)) as [Hle Hin]. split.
    + intros g [<- | [<- | Hg]].
      * specialize (Hle (Z.max x a) (or_introl eq_refl)). lia.
      * specialize (Hle (Z.max x a) (or_introl eq_refl)). lia.
      * apply Hle. right. exact Hg.
    + destruct Hin as [E | Hin].
      * rewrite <- E. destruct (Z.max_spec x a) as [[_ ->] | [_ ->]].
        -- right. left. reflexivity.
        -- left. reflexivity.
      * right. right. exact Hin.
Qed.

(** [gray.max()] of a non-empty array is an entry of the array that
    dominates the others. *)
Lemma array_max_spec (gray : list (list Z)) :
  List.concat gray <> [] ->
  exists m, array_max gray = Ok m
            /\ In m (List.concat gray)
            /\ forall g, In g (List.concat gray) -> (g <= m)%Z.
Proof.
  unfold array_max. destruct (List.concat gray) as [| v vs]; [congruence |].
  intros _. destruct (list_max_spec vs v) as [Hle Hin].
  exists (list_max v vs). repeat split; assumption.
Qed.

Lemma argmax_from_In {I : Type} (l : list (I * Z)) (i : I) (v : Z) :
  argmax_from i v l = i \/ In (argmax_from i v l) (map fst l).
Proof.
  revert i v. induction l as [| [j w] l IH]; intros i v; [left; reflexivity |].
  cbn [argmax_from map fst]. destruct (v <? w)%Z.
  - destruct (IH j w) as [-> | Hin]; right; [left; reflexivity | right; exact Hin].
  - destruct (IH i v) as [-> | Hin]; [left; reflexivity | right; right; exact Hin].
Qed.

(** The weighted sums of a non-empty set of pixels of positive brightness
    inside a [W] by [H] grid. *)
Lemma centroid_bounds (ps : weighted) (W H : Z) :
  ps <> [] ->
  (forall y x w, In (y, x, w) ps ->
     (0 < w /\ 0 <= x < W /\ 0 <= y < H)%Z) ->
  (0 < weight_sum ps
   /\ 0 <= moment_x ps <= (W - 1) * weight_sum ps
   /\ 0 <= moment_y ps <= (H - 1) * weight_sum ps)%Z.
Proof.
  unfold weight_sum, moment_x, moment_y.
  induction ps as [| [[y x] w] ps IH]; intros Hne Hall; [congruence |].
  cbn [map sumZ fold_right].
  destruct (Hall y x w (or_introl eq_refl)) as (Hw & Hx & Hy).
  destruct ps as [| q ps].
  - cbn. nia.
  - destruct IH as (Hs & Hmx & Hmy).
    + discriminate.
    + intros y' x' w' Hin. apply Hall. right. exact Hin.
    + unfold sumZ in *. nia.
Qed.

(** The integer part of a centroid coordinate stays inside the grid. *)
Lemma to_int_ratio (m s B : Z) :
  (0 < s)%Z -> (0 <= m <= (B - 1) * s)%Z ->
  exists z, NP.to_int (NP.div (NP.of_int m) (NP.of_int s)) = Ok z
            /\ (0 <= z < B)%Z.
Proof.
  intros Hs [Hlo Hhi]. unfold NP.of_int.
  apply IZR_lt in Hs. apply IZR_le in Hlo, Hhi.
  rewrite mult_IZR, minus_IZR in Hhi.
  rewrite NPFacts.div_fin by lra.
  assert (Hq : 0 <= IZR m / IZR s <= IZR B - 1).
  { split.
    - apply Rmult_le_pos; [lra |]. left. apply Rinv_0_lt_compat. lra.
    - apply Rmult_le_reg_r with (r := IZR s); [lra |].
      unfold Rdiv. rewrite Rmult_assoc, Rinv_l by lra. lra. }
  unfold NP.to_int.
  destruct (Rle_dec 0 (IZR m / IZR s)) as [_ | N]; [| lra].
  eexists. split; [reflexivity |].
  pose proof (Zfloor_bound (IZR m / IZR s)) as [Hfl _].
  split.
  - apply Zfloor_lub. lra.
  - apply lt_IZR. lra.
Qed.

End DetectionInBounds.

Section DetectionSucceeds.

Variable has_scipy : bool.
Variable ndimage_label : list (list bool) -> list (list nat) * nat.

Lemma detect_gray_of (img : pil_image) :
  ImageAnchorer._detect_sun_position has_scipy ndimage_label img =
  ImageAnchorer._detect_sun_position has_scipy ndimage_label
    (Gray (gray_of img)).
Proof. destruct img; reflexivity. Qed.

Variable gray : list (list Z).
Variable W : Z.

Hypothesis rectangular :
  forall row, In row gray -> Z.of_nat (List.length row) = W.
Hypothesis not_black : exists g, In g (List.concat gray) /\ (0 < g)%Z.

Let H : Z := Z.of_nat (List.length gray).

Lemma pixel_in_grid (y x g : Z) :
  In (y, x, g) (indexed gray) -> (0 <= x < W /\ 0 <= y < H)%Z.
Proof.
  intros Hin. apply indexed_In in Hin as (row & Hrow & _ & Hy & Hx).
  rewrite (rectangular row Hrow) in Hx. split; assumption.
Qed.

Lemma grid_not_empty : (0 < W /\ 0 < H)%Z.
Proof.
  destruct not_black as (g & Hin & _).
  apply in_concat in Hin as (row & Hrow & Hg).
  rewrite <- (rectangular row Hrow). unfold H.
  destruct row; [contradiction |]. destruct gray; [contradiction |].
  cbn [List.length]. lia.
Qed.

(** The last tier: the brightest pixel is a pixel of the grid. *)
Lemma brightest_pixel_in_grid :
  (0 <= snd (brightest_pixel gray) < W
   /\ 0 <= fst (brightest_pixel gray) < H)%Z.
Proof.
  unfold brightest_pixel.
  destruct (indexed gray) as [| [[y x] g] ps] eqn:E.
  - cbn [fst snd]. pose proof grid_not_empty. lia.
  - assert (Hall : forall y' x' g', In (y', x', g') ((y, x, g) :: ps) ->
                   (0 <= x' < W /\ 0 <= y' < H)%Z).
    { intros y' x' g' Hin. rewrite <- E in Hin.
      exact (pixel_in_grid _ _ _ Hin). }
    destruct (argmax_from_In (map (fun '(y, x, g) => (y, x, g)) ps) (y, x) g)
      as [-> | Hin].
    + cbn [fst snd]. apply (Hall y x g). left. reflexivity.
    + rewrite map_map in Hin.
      apply in_map_iff in Hin as ([[y' x'] g'] & Hp & Hin).
      cbn [fst] in Hp. rewrite <- Hp. cbn [fst snd].
      apply (Hall y' x' g'). right. exact Hin.
Qed.

Variable max_val : Z.
Hypothesis Hmax : array_max gray = Ok max_val.

Lemma max_val_positive : (0 < max_val)%Z.
Proof.
  destruct not_black as (g & Hin & Hpos).
  destruct (array_max_spec gray) as (m & Hm & _ & Hle).
  { intros E. rewrite E in Hin. contradiction. }
  rewrite Hmax in Hm. injection Hm as <-.
  specialize (Hle g Hin). lia.
Qed.

(** A thresholded pixel of the grid has positive brightness. *)
Lemma bright_pixel (y x w : Z) :
  In (y, x, w) (indexed gray) -> is_bright max_val w = true ->
  (0 < w /\ 0 <= x < W /\ 0 <= y < H)%Z.
Proof.
  intros Hin Hb. pose proof max_val_positive.
  unfold is_bright in Hb. apply Z.leb_le in Hb.
  split; [lia | exact (pixel_in_grid _ _ _ Hin)].
Qed.

(** A centroid of thresholded pixels, truncated, is a pixel of the grid. *)
Lemma centroid_in_grid (ps : weighted) :
  ps <> [] ->
  (forall y x w, In (y, x, w) ps ->
     In (y, x, w) (indexed gray) /\ is_bright max_val w = true) ->
  (weight_sum ps <> 0)%Z
  /\ (exists sx, NP.to_int (NP.div (NP.of_int (moment_x ps))
                                    (NP.of_int (weight_sum ps))) = Ok sx
                 /\ (0 <= sx < W)%Z)
  /\ (exists sy, NP.to_int (NP.div (NP.of_int (moment_y ps))
                                    (NP.of_int (weight_sum ps))) = Ok sy
                 /\ (0 <= sy < H)%Z).
Proof.
  intros Hne Hall.
  destruct (centroid_bounds ps W H Hne) as (Hs & Hmx & Hmy).
  { intros y x w Hin. destruct (Hall y x w Hin) as [Hg Hb].
    exact (bright_pixel y x w Hg Hb). }
  split; [lia |].
  split; apply to_int_ratio; assumption.
Qed.

End DetectionSucceeds.

(** X25. On every rectangular image with a pixel of positive brightness,
    detection returns a pixel inside the image, with or without SciPy; with
    SciPy this needs the labelling to report non-empty components made of
    thresholded pixels.  Detection can only raise when no pixel is brighter
    than zero. *)
Lemma detection_in_bounds
    (has_scipy : bool)
    (ndimage_label : list (list bool) -> list (list nat) * nat)
    (img : pil_image) (W : Z) :
  let gray := gray_of img in
  (forall row, In row gray -> Z.of_nat (List.length row) = W) ->
  (exists g, In g (List.concat gray) /\ (0 < g)%Z) ->
  (has_scipy = true -> forall max_val, array_max gray = Ok max_val ->
     components_ok max_val gray
       (fst (ndimage_label (map (map (is_bright max_val)) gray)))
       (snd (ndimage_label (map (map (is_bright max_val)) gray)))) ->
  exists x y,
    ImageAnchorer._detect_sun_position has_scipy ndimage_label img = Ok (x, y)
    /\ (0 <= x < W)%Z /\ (0 <= y < Z.of_nat (List.length gray))%Z.
Proof.
  intros gray Hrect Hnot_black Hlabel.
  rewrite detect_gray_of. fold gray.
  destruct (array_max_spec gray) as (m & Hmax & _ & _).
  { destruct Hnot_black as (g & Hin & _). intros E. rewrite E in Hin.
    contradiction. }
  pose proof (brightest_pixel_in_grid gray W Hrect Hnot_black) as Hbrightest.
  pose proof (centroid_in_grid gray W Hrect Hnot_black m Hmax) as Hcentroid.
  unfold ImageAnchorer._detect_sun_position. rewrite Hmax. cbn [bind].
  destruct has_scipy.
  - specialize (Hlabel eq_refl m Hmax).
    destruct (ndimage_label (map (map (is_bright m)) gray)) as [labeled n].
    cbn [fst snd] in Hlabel.
    destruct (0 <? n)%nat eqn:Hn.
    + apply Nat.ltb_lt in Hn.
      match goal with
      | |- context [center_of_mass (select (Nat.eqb ?b) labeled gray)] =>
          set (largest_blob := b)
      end.
      assert (Hblob : (1 <= largest_blob <= n)%nat).
      { subst largest_blob. destruct n as [| n']; [lia |].
        cbn [seq map].
        match goal with
        | |- context [argmax_from 1%nat ?v ?rest] =>
            destruct (argmax_from_In rest 1%nat v) as [-> | Hin]; [lia |]
        end.
        apply in_map_iff in Hin as ([i v] & Hi & Hin). cbn [fst] in Hi.
        apply in_map_iff in Hin as (j & Hj & Hin). injection Hj as Hj _.
        apply in_seq in Hin. lia. }
      destruct (Hlabel largest_blob Hblob) as [Hne Hbright].
      destruct (Hcentroid (select (Nat.eqb largest_blob) labeled gray) Hne)
        as (_ & (sx & Hsx & Hx) & (sy & Hsy & Hy)).
      { intros y x w Hin. split; [| exact (Hbright y x w Hin)].
        exact (select_incl _ _ _ _ Hin). }
      unfold center_of_mass. rewrite Hsx. cbn [bind]. rewrite Hsy. cbn [bind].
      exists sx, sy. repeat split; assumption || apply Hx || apply Hy.
    + destruct (brightest_pixel gray) as [sy sx]. cbn [fst snd] in Hbrightest.
      exists sx, sy. repeat split; apply Hbrightest.
  - set (coords := select (fun b : bool => b) (map (map (is_bright m)) gray) gray).
    destruct (10 <? Z.of_nat (List.length coords))%Z eqn:Hcount.
    + apply Z.ltb_lt in Hcount.
      destruct (Hcentroid coords)
        as (Hsum & (sx & Hsx & Hx) & (sy & Hsy & Hy)).
      { intros E. rewrite E in Hcount. cbn in Hcount. lia. }
      { intros y x w Hin. apply select_mask in Hin. exact Hin. }
      unfold average. apply Z.eqb_neq in Hsum. rewrite Hsum. cbn [bind].
      rewrite Hsx. cbn [bind]. rewrite Hsy. cbn [bind].
      exists sx, sy. repeat split; assumption || apply Hx || apply Hy.
    + destruct (brightest_pixel gray) as [sy sx]. cbn [fst snd] in Hbrightest.
      exists sx, sy. repeat split; apply Hbrightest.
Qed.

(** *** The three tiers at work *)

(** On non-negative moments the truncated centroid coordinate is the
    integer quotient. *)
Lemma to_int_quotient (m s : Z) :
  (0 <= m)%Z -> (0 < s)%Z ->
  NP.to_int (NP.div (NP.of_int m) (NP.of_int s)) = Ok (m / s)%Z.
Proof.
  intros Hm Hs. unfold NP.of_int.
  pose proof (Z.div_mod m s ltac:(lia)) as Hdiv.
  pose proof (Z.mod_pos_bound m s Hs) as [Hr0 Hr1].
  assert (Hq0 : (0 <= m / s)%Z) by (apply Z.div_pos; lia).
  apply IZR_lt in Hs, Hr1. apply IZR_le in Hm, Hr0, Hq0.
  apply (f_equal IZR) in Hdiv. rewrite plus_IZR, mult_IZR in Hdiv.
  rewrite NPFacts.div_fin by lra.
  assert (Hq : IZR (m / s) <= IZR m / IZR s < IZR (m / s) + 1).
  { split.
    - apply Rmult_le_reg_r with (r := IZR s); [lra |].
      unfold Rdiv. rewrite Rmult_assoc, Rinv_l by lra. nra.
    - apply Rmult_lt_reg_r with (r := IZR s); [lra |].
      unfold Rdiv. rewrite Rmult_assoc, Rinv_l by lra. nra. }
  unfold NP.to_int.
  destruct (Rle_dec 0 (IZR m / IZR s)) as [_ | N]; [| lra].
  f_equal. apply Zfloor_eq. exact Hq.
Qed.

(** First tier: with SciPy, the centroid of the largest blob. *)
Example detect_blob_centroid :
  ImageAnchorer._detect_sun_position true label_whole_mask sample_image
  = Ok (1, 0)%Z.
Proof.
  unfold ImageAnchorer._detect_sun_position, sample_image.
  change (array_max [[10; 200; 10]; [10; 10; 10]]%Z) with (@Ok Z 200%Z).
  cbn [bind label_whole_mask Nat.ltb Nat.leb seq map].
  cbn [argmax_from]. unfold center_of_mass. eval_sums.
  rewrite !to_int_quotient by lia. reflexivity.
Qed.

(** Second tier: without SciPy and with more than ten thresholded pixels,
    their weighted centroid. *)
Example detect_weighted_centroid :
  ImageAnchorer._detect_sun_position false label_whole_mask uniform_image
  = Ok (1, 1)%Z.
Proof.
  unfold ImageAnchorer._detect_sun_position, uniform_image.
  change (array_max (repeat (repeat 5%Z 4) 4)) with (@Ok Z 5%Z).
  cbn [bind].
  match goal with
  | |- context [(10 <? ?n)%Z] => change (10 <? n)%Z with true
  end.
  unfold average. eval_sums. cbn [Z.eqb bind].
  rewrite !to_int_quotient by lia. reflexivity.
Qed.

(** Third tier: without SciPy and with few thresholded pixels, the brightest
    pixel. *)
Example detect_brightest_pixel :
  ImageAnchorer._detect_sun_position false label_whole_mask sample_image
  = Ok (1, 0)%Z.
Proof. reflexivity. Qed.

(** * Further properties of the code *)

(** ** The approximate model over the year *)

Section ApproximateModel.

Import NP AnalemmaCalculator.

(** X1. The approximate declination of any day is a finite number between
    the two values [get_max_declination] reports, [-23.45] and [23.45]. *)
Theorem declination_within_obliquity (day_of_year : Z) :
  exists d lo hi,
    calculate_declination_approximate day_of_year = Fin d
    /\ get_max_declination = (Fin hi, Fin lo)
    /\ lo = -23.45 /\ hi = 23.45
    /\ lo <= d <= hi.
Proof.
  rewrite declination_closed_form.
  do 3 eexists.
  split; [reflexivity |]. split.
  - unfold get_max_declination, OBLIQUITY. cbn [neg]. reflexivity.
  - split; [lra |]. split; [reflexivity |].
    pose proof (SIN_bound (360 / 365 * IZR (284 + day_of_year) * (PI / 180))).
    lra.
Qed.

(** The eccentricity term [7.53 cos B - 1.5 sin B] stays within [7.68]. *)
Lemma eccentricity_bound (c s : R) :
  s * s + c * c = 1 -> -7.68 <= 7.53 * c - 1.5 * s <= 7.68.
Proof.
  intros Hcs.
  assert (Hsq : (7.53 * c - 1.5 * s) * (7.53 * c - 1.5 * s) <= 58.9509).
  { pose proof (Rle_0_sqr (7.53 * s + 1.5 * c)) as Hp. unfold Rsqr in Hp. nra. }
  split; nra.
Qed.

Lemma eot_value_bound (day_of_year : Z) :
  -17.55 <= eot_value day_of_year <= 17.55.
Proof.
  unfold eot_value.
  set (B := 2 * PI * IZR (day_of_year - 81) / 365).
  pose proof (SIN_bound (2 * B)) as Hs2.
  pose proof (eccentricity_bound (Rtrigo_def.cos B) (Rtrigo_def.sin B)) as He.
  pose proof (sin2_cos2 B) as Hcs. unfold Rsqr in Hcs.
  specialize (He Hcs). lra.
Qed.

(** X2. The approximate equation of time of any day is a finite number of
    minutes within [17.55] of zero, hence within the twenty minutes the
    tests allow. *)
Theorem equation_of_time_bounded (day_of_year : Z) :
  exists e,
    calculate_equation_of_time_approximate day_of_year = Fin e
    /\ -17.55 <= e <= 17.55.
Proof.
  rewrite eot_closed_form. eexists. split; [reflexivity |].
  apply eot_value_bound.
Qed.


End ApproximateModel.

(** ** Dates of a year *)

Section Calendar.

(** Within a year, the following day is the next day of the year. *)
Lemma next_day_in_year (d : datetime) :
  valid_date d -> (tm_yday d < year_days (dt_year d))%Z ->
  exists d',
    next_day d = Ok d'
    /\ valid_date d'
    /\ dt_year d' = dt_year d
    /\ tm_yday d' = (tm_yday d + 1)%Z
    /\ dt_hour d' = dt_hour d /\ dt_minute d' = dt_minute d.
Proof.
  destruct d as [y m dd h mi].
  unfold valid_date, year_days, tm_yday, next_day, days_before_month,
    days_in_month.
  cbn [dt_year dt_month dt_day dt_hour dt_minute].
  intros [Hm Hd] Hlast.
  assert (Hcases : (m = 1 \/ m = 2 \/ m = 3 \/ m = 4 \/ m = 5 \/ m = 6 \/ m = 7
                    \/ m = 8 \/ m = 9 \/ m = 10 \/ m = 11 \/ m = 12)%Z) by lia.
  repeat (destruct Hcases as [-> | Hcases]); try subst m;
    destruct (is_leap y) eqn:Hleap; eval_calendar;
    repeat match goal with
    | |- context [(?a <? ?b)%Z] => destruct (Z.ltb_spec a b)
    end;
    try lia;
    eexists; (split; [reflexivity |]);
    cbn [dt_year dt_month dt_day dt_hour dt_minute]; rewrite ?Hleap;
    eval_calendar; repeat split; lia.
Qed.

(** Counting days from 1 January stays in the year for 365 days. *)
Lemma add_days_from_new_year (y h mi : Z) (n : nat) :
  (n < 365)%nat ->
  exists d,
    add_days (mk_datetime y 1 1 h mi) n = Ok d
    /\ valid_date d
    /\ dt_year d = y
    /\ tm_yday d = (Z.of_nat n + 1)%Z
    /\ dt_hour d = h /\ dt_minute d = mi.
Proof.
  induction n as [| n IH]; intros Hn.
  - exists (mk_datetime y 1 1 h mi). cbn [add_days].
    split; [reflexivity |]. split.
    + unfold valid_date, days_in_month. cbn. lia.
    + repeat split.
  - destruct IH as (d & Hadd & Hvalid & Hy & Hday & Hh & Hmi); [lia |].
    destruct (next_day_in_year d Hvalid) as (d' & Hnext & Hv' & Hy' & Hd' & Hh' & Hmi').
    { rewrite Hday. unfold year_days. destruct (is_leap (dt_year d)); lia. }
    exists d'. cbn [add_days]. rewrite Hadd. cbn [bind].
    split; [exact Hnext |]. split; [exact Hv' |].
    repeat split; try congruence. lia.
Qed.

Lemma for_each_ok {A B : Type} (f : A -> result B) (g : A -> B) (l : list A) :
  (forall a, In a l -> f a = Ok (g a)) -> for_each f l = Ok (map g l).
Proof.
  induction l as [| a l IH]; intros Hall; [reflexivity |].
  cbn [for_each map]. rewrite (Hall a (or_introl eq_refl)). cbn [bind].
  rewrite IH; [reflexivity |]. intros b Hb. apply Hall. right. exact Hb.
Qed.

End Calendar.

(** ** The calculator over modes and years *)

Section CalculatorBehaviour.

Import NP AnalemmaCalculator.

Variable available : bool.
Variable current_year : Z.
Variable get_sun : datetime -> result sun_coord.

(** X4. The mode is not validated at construction: a mode that is neither
    ["approximate"] nor ["high-precision"] gives a calculator, and every
    [calculate] on it raises [ValueError("Unknown mode: ...")]. *)
Theorem unknown_mode_rejected_at_calculate (m : string) (year : option Z) :
  m <> "approximate" -> m <> "high-precision" ->
  exists self,
    __init__ available current_year m year = Ok self
    /\ mode self = m
    /\ forall dt,
         calculate available get_sun self dt
         = Raise (ValueError ("Unknown mode: " ++ m)).
Proof.
  intros Ha Hp. apply String.eqb_neq in Ha, Hp.
  unfold __init__. rewrite Hp. cbn [andb].
  eexists. split; [reflexivity |]. split; [reflexivity |].
  intros dt. unfold calculate. cbn [mode]. rewrite Ha, Hp. reflexivity.
Qed.

(** X5. Whenever [compare_modes] returns, the two results carry the same
    equation of time and the reported [eot_diff] is exactly zero: the
    comparison can only ever show a difference in declination. *)
Theorem compare_modes_eot_diff_zero
    (self self' : t) (date : datetime) (r : comparison) :
  compare_modes available get_sun self date = (Ok r, self') ->
  eot (high_precision r) = eot (approximate r)
  /\ eot_diff (diff r) = Fin 0.
Proof.
  unfold compare_modes. intros Hcmp.
  destruct (negb available) eqn:Hav; [discriminate |].
  unfold calculate in Hcmp.
  cbn [mode set_mode String.eqb Ascii.eqb Bool.eqb bind] in Hcmp.
  unfold calculate_high_precision in Hcmp. rewrite Hav in Hcmp.
  destruct (get_sun date) as [sun | e]; cbn [bind] in Hcmp; [| discriminate].
  injection Hcmp as <- _.
  cbn [high_precision approximate diff eot eot_diff].
  split; [reflexivity |].
  rewrite eot_closed_form. cbn [sub neg add abs]. f_equal.
  replace (eot_value (tm_yday date) + - eot_value (tm_yday date)) with 0 by ring.
  apply Rabs_R0.
Qed.

(** In approximate mode [calculate] returns the closed forms, whatever the
    year of the calculator. *)
Lemma calculate_in_approximate_mode (self : t) (dt : datetime) :
  mode self = "approximate" ->
  calculate available get_sun self dt = Ok (approximate_result dt).
Proof.
  destruct self as [m y]. cbn [mode]. intros ->.
  apply calculate_approximate.
Qed.

(** X7. In approximate mode, for a year of the calendar and a valid time of
    day, [calculate_year] returns one entry per requested day, up to 365
    (none for [days <= 0]); entry [i] is dated in the calculator's year at
    the requested time, is day [i + 1] of the year, and holds the
    approximate declination and equation of time of that day. *)
Theorem calculate_year_entries (self : t) (hour minute days : Z) :
  mode self = "approximate" ->
  (1 <= year self <= 9999)%Z ->
  (0 <= hour <= 23)%Z -> (0 <= minute <= 59)%Z ->
  (days <= 365)%Z ->
  exists results,
    calculate_year available get_sun self hour minute days = Ok results
    /\ List.length results = Z.to_nat days
    /\ forall i r, nth_error results i = Some r ->
         day_of_year r = (Z.of_nat i + 1)%Z
         /\ dt_year (date r) = year self
         /\ dt_hour (date r) = hour /\ dt_minute (date r) = minute
         /\ declination r =
              calculate_declination_approximate (Z.of_nat i + 1)
         /\ eot r =
              calculate_equation_of_time_approximate (Z.of_nat i + 1).
Proof.
  intros Hmode Hyear Hhour Hminute Hdays.
  set (start := mk_datetime (year self) 1 1 hour minute).
  assert (Hstart : datetime_new (year self) 1 1 hour minute = Ok start).
  { unfold datetime_new, days_in_month.
    replace ((1 <=? year self) && (year self <=? 9999))%Z with true
      by (symmetry; apply andb_true_iff; split; apply Z.leb_le; lia).
    replace ((0 <=? hour) && (hour <=? 23))%Z with true
      by (symmetry; apply andb_true_iff; split; apply Z.leb_le; lia).
    replace ((0 <=? minute) && (minute <=? 59))%Z with true
      by (symmetry; apply andb_true_iff; split; apply Z.leb_le; lia).
    reflexivity. }
  set (entry := fun day : nat => approximate_result (date_after start day)).
  exists (map entry (seq 0 (Z.to_nat days))).
  split; [| split].
  - unfold calculate_year. rewrite Hstart. cbn [bind].
    apply for_each_ok. intros day Hin. apply in_seq in Hin.
    destruct (add_days_from_new_year (year self) hour minute day)
      as (d & Hadd & _); [lia |].
    fold start in Hadd. unfold entry, date_after. rewrite Hadd. cbn [bind].
    apply calculate_in_approximate_mode. exact Hmode.
  - rewrite length_map, length_seq. reflexivity.
  - intros i r Hnth.
    rewrite nth_error_map in Hnth.
    destruct (nth_error (seq 0 (Z.to_nat days)) i) as [day |] eqn:Hseq;
      cbn [option_map] in Hnth; [| discriminate].
    injection Hnth as <-.
    assert (Hi : (i < Z.to_nat days)%nat).
    { pose proof (proj1 (nth_error_Some (seq 0 (Z.to_nat days)) i)) as Hlen.
      rewrite length_seq in Hlen. apply Hlen. rewrite Hseq. discriminate. }
    rewrite nth_error_seq in Hseq.
    destruct (Nat.ltb_spec i (Z.to_nat days)); [| lia].
    injection Hseq as <-. cbn [Nat.add].
    destruct (add_days_from_new_year (year self) hour minute i)
      as (d & Hadd & _ & Hy & Hday & Hh & Hmi); [lia |].
    fold start in Hadd. unfold entry, date_after. rewrite Hadd.
    unfold approximate_result.
    cbn [day_of_year date declination eot]. rewrite Hday.
    rewrite declination_closed_form, eot_closed_form.
    repeat split; assumption.
Qed.


End CalculatorBehaviour.

Lemma unknown_mode_rejected_at_calculate_witness :
  exists self,
    AnalemmaCalculator.__init__ false 2026 "precise" None = Ok self
    /\ AnalemmaCalculator.mode self = "precise"
    /\ forall dt,
         AnalemmaCalculator.calculate false
           (fun _ => Raise (RuntimeError "unavailable")) self dt
         = Raise (ValueError "Unknown mode: precise").
Proof.
  apply (unknown_mode_rejected_at_calculate false 2026
           (fun _ => Raise (RuntimeError "unavailable")) "precise" None);
    discriminate.
Defined.

Lemma compare_modes_eot_diff_zero_witness :
  let get_sun := fun _ : datetime => Ok (mk_sun (NP.Fin 6) (NP.Fin 23)) in
  let dt := mk_datetime 2026 6 21 12 0 in
  let self := AnalemmaCalculator.mk "high-precision" 2026 in
  exists r self',
    AnalemmaCalculator.compare_modes true get_sun self dt = (Ok r, self')
    /\ AnalemmaCalculator.eot (AnalemmaCalculator.high_precision r)
       = AnalemmaCalculator.eot (AnalemmaCalculator.approximate r)
    /\ AnalemmaCalculator.eot_diff (AnalemmaCalculator.diff r) = NP.Fin 0.
Proof.
  intros get_sun dt self. do 2 eexists.
  split; [reflexivity |].
  eapply (compare_modes_eot_diff_zero true get_sun self _ dt).
  reflexivity.
Defined.

Lemma compare_modes_raise_leaves_mode_witness :
  let get_sun := fun _ : datetime => Raise (RuntimeError "ephemeris timeout") in
  let dt := mk_datetime 2026 6 21 12 0 in
  let self := AnalemmaCalculator.mk "approximate" 2026 in
  AnalemmaCalculator.compare_modes true get_sun self dt
  = (Raise (RuntimeError "ephemeris timeout"),
     AnalemmaCalculator.mk "high-precision" 2026).
Proof.
  intros get_sun dt self.
  apply (compare_modes_raise_leaves_mode get_sun self dt). reflexivity.
Defined.

Lemma calculate_year_entries_witness :
  let self := AnalemmaCalculator.mk "approximate" 2026 in
  exists results,
    AnalemmaCalculator.calculate_year false
      (fun _ => Raise (RuntimeError "unavailable")) self 12 0 365 = Ok results
    /\ List.length results = 365%nat
    /\ forall i r, nth_error results i = Some r ->
         AnalemmaCalculator.day_of_year r = (Z.of_nat i + 1)%Z
         /\ dt_year (AnalemmaCalculator.date r) = 2026%Z
         /\ dt_hour (AnalemmaCalculator.date r) = 12%Z
         /\ dt_minute (AnalemmaCalculator.date r) = 0%Z
         /\ AnalemmaCalculator.declination r =
              AnalemmaCalculator.calculate_declination_approximate
                (Z.of_nat i + 1)
         /\ AnalemmaCalculator.eot r =
              AnalemmaCalculator.calculate_equation_of_time_approximate
                (Z.of_nat i + 1).
Proof.
  intros self.
  apply (calculate_year_entries false
           (fun _ => Raise (RuntimeError "unavailable")) self 12 0 365);
    cbn; solve [reflexivity | lia].
Defined.


(** ** The observer's time zone and the hour angle *)

Section TimeZone.

Import NP SkyMapper.

(** Rounding the longitude over 15 leaves at most half a zone. *)
Lemma zone_of_near (lon : R) :
  - (1 / 2) <= lon / 15 - IZR (zone_of lon) <= 1 / 2.
Proof.
  unfold zone_of. pose proof (Zfloor_bound (lon / 15)) as [Hlo Hhi].
  destruct (Rlt_dec (lon / 15 - IZR (Zfloor (lon / 15))) (1 / 2)) as [Hd | Hd].
  - lra.
  - destruct (Rlt_dec (1 / 2) (lon / 15 - IZR (Zfloor (lon / 15)))) as [Hu | Hu].
    + rewrite plus_IZR. lra.
    + destruct (Z.even (Zfloor (lon / 15))); [lra |].
      rewrite plus_IZR. lra.
Qed.

(** X9. When no time zone is given, the constructor picks the whole number
    of hours nearest to [longitude / 15]: the observer is then never more
    than 7.5 degrees away from the zone's meridian. *)
Theorem default_timezone_within_half_zone (lat lon : R) :
  exists self z,
    __init__ (Fin lat) (Fin lon) None = Ok self
    /\ timezone_offset self = of_int z
    /\ -7.5 <= lon - 15 * IZR z <= 7.5.
Proof.
  exists (mapper_at lat lon), (zone_of lon).
  split; [apply mapper_init |]. split; [reflexivity |].
  pose proof (zone_of_near lon). lra.
Qed.

Variable available : bool.
Variable get_sun : datetime -> result sun_coord.

(** X10. For an observer constructed without a time zone and a calculator
    in approximate mode, the hour angle of the sun at 12:00 clock time is
    finite and within 11.8875 degrees of the meridian, on every date:
    7.5 degrees of longitude and 17.55 minutes of equation of time. *)
Theorem noon_hour_angle_bounded
    (lat lon : R) (self : t) (calculator : AnalemmaCalculator.t)
    (dt : datetime) (c : AnalemmaCalculator.calc_result) :
  __init__ (Fin lat) (Fin lon) None = Ok self ->
  AnalemmaCalculator.mode calculator = "approximate" ->
  AnalemmaCalculator.calculate available get_sun calculator dt = Ok c ->
  dt_hour dt = 12%Z -> dt_minute dt = 0%Z ->
  exists h,
    hour_angle (map_single_point self c) = Fin h
    /\ -11.8875 <= h <= 11.8875.
Proof.
  intros Hinit Hmode Hcalc Hhour Hminute.
  rewrite mapper_init in Hinit. injection Hinit as <-.
  rewrite (calculate_in_approximate_mode available get_sun calculator dt Hmode)
    in Hcalc.
  injection Hcalc as <-.
  unfold map_single_point.
  cbn [hour_angle approximate_result AnalemmaCalculator.eot
       AnalemmaCalculator.date].
  rewrite hour_angle_closed_form.
  eexists. split; [reflexivity |].
  unfold hour_angle_value. rewrite Hhour, Hminute.
  change (12 - 12)%Z with 0%Z.
  pose proof (eot_value_bound (tm_yday dt)).
  pose proof (zone_of_near lon). lra.
Qed.

End TimeZone.

Lemma noon_hour_angle_bounded_witness :
  let dt := mk_datetime 2026 6 21 12 0 in
  exists h,
    SkyMapper.hour_angle
      (SkyMapper.map_single_point (mapper_at 40.1 (-88.2))
         (approximate_result dt)) = NP.Fin h
    /\ -11.8875 <= h <= 11.8875.
Proof.
  intros dt.
  apply (noon_hour_angle_bounded false
           (fun _ => Raise (RuntimeError "unavailable"))
           40.1 (-88.2) (mapper_at 40.1 (-88.2))
           (AnalemmaCalculator.mk "approximate" 2026) dt
           (approximate_result dt)).
  - apply mapper_init.
  - reflexivity.
  - apply calculate_approximate.
  - reflexivity.
  - reflexivity.
Defined.

(** ** Transit, sunrise and sunset *)

Section Transit.

Import NP SkyMapper.




Variables (lat lon : R) (tz : option float64) (self : t).
Hypothesis Hinit : __init__ (Fin lat) (Fin lon) tz = Ok self.

Variable dec : R.
Hypothesis Hlat : -90 <= lat <= 90.
Hypothesis Hdec : -90 <= dec <= 90.

Let phi : R := lat * (PI / 180).
Let delta : R := dec * (PI / 180).





End Transit.


Section Horizon.

Import NP SkyMapper.

Variables (lat lon : R) (tz : option float64) (self : t).
Hypothesis Hinit : __init__ (Fin lat) (Fin lon) tz = Ok self.

Variable dec : R.

Let phi : R := lat * (PI / 180).
Let delta : R := dec * (PI / 180).
Let c : R := - Rtrigo1.tan phi * Rtrigo1.tan delta.

Hypothesis Hphi : Rtrigo_def.cos phi <> 0.
Hypothesis Hdelta : Rtrigo_def.cos delta <> 0.
Hypothesis Hc : Rabs c <= 1.




End Horizon.


Section SolarNoon.

Import NP SkyMapper.

(** The floor of a real number shifted by an integer. *)
Lemma Zfloor_shift (x : R) (k : Z) : Zfloor (x - IZR k) = (Zfloor x - k)%Z.
Proof.
  pose proof (Zfloor_bound x) as [Hlo Hhi].
  apply Zfloor_eq. rewrite minus_IZR. lra.
Qed.

(** Whole hours of a minute count: flooring first changes nothing. *)
Lemma floor_minutes (x : R) :
  (60 * Zfloor (x / 60) <= Zfloor x < 60 * Zfloor (x / 60) + 60)%Z.
Proof.
  pose proof (Zfloor_bound (x / 60)) as [Hlo Hhi].
  pose proof (Zfloor_bound x) as [Hxlo Hxhi].
  split.
  - apply Zfloor_lub. rewrite mult_IZR. lra.
  - apply lt_IZR. rewrite plus_IZR, mult_IZR. lra.
Qed.

Variables (self : t) (lon tz eot : R).
Hypothesis Hlon : longitude self = Fin lon.
Hypothesis Htz : timezone_offset self = Fin tz.

Let noon_minutes : R := IZR (12 * 60) + (eot + (lon + - (tz * 15)) * 4).

(** X13. For a finite longitude, time zone and equation of time,
    [get_solar_noon_time] returns normally an hour in [[0, 24)] and a
    minute in [[0, 60)], and together they are the whole minutes of
    [noon_minutes] counted modulo one day. *)
Theorem solar_noon_on_the_clock :
  exists hour minute,
    get_solar_noon_time self (Fin eot) = Ok (hour, minute)
    /\ (0 <= hour < 24)%Z /\ (0 <= minute < 60)%Z
    /\ (hour * 60 + minute = Zfloor noon_minutes mod 1440)%Z.
Proof.
  set (q := Zfloor (noon_minutes / 60)).
  pose proof (floor_minutes noon_minutes) as Hq. fold q in Hq.
  pose proof (NPFacts.mod_range noon_minutes 60 ltac:(lra)) as Hrem.
  fold q in Hrem.
  exists (q mod 24)%Z, (Zfloor noon_minutes - 60 * q)%Z.
  split; [| split; [| split]].
  - unfold get_solar_noon_time. rewrite Hlon, Htz.
    cbn [mul sub neg add of_int floordiv mod_]. fold noon_minutes q.
    change (Fin (IZR q)) with (of_int q).
    rewrite NPFacts.to_int_of_int. cbn [bind].
    unfold to_int.
    destruct (Rle_dec 0 (noon_minutes - 60 * IZR q)) as [_ | Hneg]; [| lra].
    cbn [bind]. do 2 f_equal.
    rewrite <- mult_IZR. apply Zfloor_shift.
  - apply Z.mod_pos_bound. lia.
  - lia.
  - pose proof (Z.div_mod q 24 ltac:(lia)) as Hdiv.
    pose proof (Z.mod_pos_bound q 24 ltac:(lia)) as Hmod.
    apply (Z.mod_unique _ _ (q / 24)); lia.
Qed.

End SolarNoon.

Lemma solar_noon_on_the_clock_witness :
  exists hour minute,
    SkyMapper.get_solar_noon_time equator (NP.Fin 0) = Ok (hour, minute)
    /\ (0 <= hour < 24)%Z /\ (0 <= minute < 60)%Z
    /\ (hour * 60 + minute
        = Zfloor (IZR (12 * 60) + (0 + (0 + - (0 * 15)) * 4)) mod 1440)%Z.
Proof.
  apply (solar_noon_on_the_clock equator 0 0 0); reflexivity.
Defined.

(** ** Calibration of the pixel scales *)

Section Calibration.

Import NP ImageAnchorer.

(** The field of view, in degrees, of a sensor side [s] behind a lens of
    focal length [f]. *)
Let fov (s f : R) : R := 2 * (atan (s / (2 * f)) * (180 / PI)).

Lemma fov_range (s f : R) : 0 < f -> 0 < s -> 0 < fov s f < 180.
Proof.
  intros Hf Hs. pose proof PI_RGT_0 as HPI. unfold fov.
  assert (Hq : 0 < s / (2 * f)) by (apply Rdiv_lt_0_compat; lra).
  pose proof (atan_increasing _ _ Hq) as Hpos. rewrite atan_0 in Hpos.
  pose proof (atan_bound (s / (2 * f))) as [_ Hhi].
  assert (Hk : 0 < 180 / PI) by (apply Rdiv_lt_0_compat; lra).
  split.
  - apply Rmult_lt_0_compat; [lra |]. apply Rmult_lt_0_compat; assumption.
  - replace 180 with (2 * (PI / 2 * (180 / PI))) at 2 by (field; lra).
    apply Rmult_lt_compat_l; [lra |].
    apply Rmult_lt_compat_r; assumption.
Qed.

Lemma fov_half_angle (s f : R) :
  Rtrigo1.tan (fov s f / 2 * (PI / 180)) = s / (2 * f).
Proof.
  pose proof PI_RGT_0 as HPI. unfold fov.
  replace (2 * (atan (s / (2 * f)) * (180 / PI)) / 2 * (PI / 180))
    with (atan (s / (2 * f))) by (field; lra).
  apply tan_atan.
Qed.

(** A longer lens sees a narrower field. *)
Lemma fov_decreasing (s f1 f2 : R) :
  0 < s -> 0 < f1 < f2 -> fov s f2 < fov s f1.
Proof.
  intros Hs [Hf1 Hf]. pose proof PI_RGT_0 as HPI. unfold fov.
  assert (Hk : 0 < 180 / PI) by (apply Rdiv_lt_0_compat; lra).
  apply Rmult_lt_compat_l; [lra |].
  apply Rmult_lt_compat_r; [assumption |].
  apply atan_increasing. unfold Rdiv.
  apply Rmult_lt_compat_l; [assumption |].
  apply Rinv_lt_contravar; [| lra].
  apply Rmult_lt_0_compat; lra.
Qed.

(** With a non-zero focal length and non-zero fields of view the
    focal-length calibration sets the two scales from the fields of view. *)
Lemma focal_length_closed_form (self : t) (f sw sh : R) :
  f <> 0 -> fov sw f <> 0 -> fov sh f <> 0 ->
  calibrate_from_focal_length self (Fin f) (Fin sw) (Fin sh) =
    (Ok tt,
     set_pixels_per_degree_alt
       (set_pixels_per_degree_az self
          (Fin (IZR (image_width self) / fov sw f)))
       (Fin (IZR (image_height self) / fov sh f))).
Proof.
  intros Hf Hw Hh.
  unfold calibrate_from_focal_length, py_truediv.
  cbn [mul]. destruct (Req_dec_T (2 * f) 0) as [E | _]; [lra |].
  rewrite !NPFacts.div_fin by lra.
  cbn [arctan degrees mul]. fold (fov sw f) (fov sh f).
  unfold calibrate_from_field_of_view, int_truediv.
  cbn [set_pixels_per_degree_az image_height]. unfold of_int.
  rewrite !NPFacts.div_fin by assumption. reflexivity.
Qed.

(** X14. A calibration from two non-zero fields of view given as built-in
    floats returns normally; each scale times its field of view is the image
    size along that axis, and the anchor, the sun pixel and the image size
    are left as they were. *)
Theorem fov_calibration_scales (self : t) (h v : R) :
  h <> 0 -> v <> 0 ->
  exists self' paz palt,
    calibrate_from_field_of_view self (PyFloat (Fin h)) (PyFloat (Fin v))
      = (Ok tt, self')
    /\ pixels_per_degree_az self' = Some (Fin paz)
    /\ pixels_per_degree_alt self' = Some (Fin palt)
    /\ paz * h = IZR (image_width self)
    /\ palt * v = IZR (image_height self)
    /\ anchor_data self' = anchor_data self
    /\ sun_pixel self' = sun_pixel self
    /\ image_width self' = image_width self
    /\ image_height self' = image_height self.
Proof.
  intros Nh Nv.
  unfold calibrate_from_field_of_view, int_truediv, py_truediv, of_int.
  destruct (Req_dec_T h 0) as [Eh | _]; [contradiction |].
  cbn [set_pixels_per_degree_az image_height].
  destruct (Req_dec_T v 0) as [Ev | _]; [contradiction |].
  rewrite !NPFacts.div_fin by assumption.
  do 3 eexists. split; [reflexivity |].
  cbn. repeat split; try reflexivity; field; assumption.
Qed.

(** X15. When the vertical field of view is a built-in zero, the
    calibration raises [ZeroDivisionError] after the horizontal scale has
    been stored.  The conversion's guard reads only the horizontal scale, so
    on the anchorer left behind it no longer reports the missing
    calibration: every request raises [TypeError] instead. *)
Theorem half_calibration_defeats_guard
    (self : t) (h : R) (altitude azimuth : float64) :
  h <> 0 ->
  pixels_per_degree_alt self = None ->
  exists self',
    calibrate_from_field_of_view self (PyFloat (Fin h)) (PyFloat (Fin 0))
      = (Raise (ZeroDivisionError "float division by zero"), self')
    /\ pixels_per_degree_az self' = Some (Fin (IZR (image_width self) / h))
    /\ pixels_per_degree_alt self' = None
    /\ sky_to_pixel self' altitude azimuth
       = Raise (TypeError
           "unsupported operand type(s) for *: 'float' and 'NoneType'").
Proof.
  intros Nh Hnone.
  unfold calibrate_from_field_of_view, int_truediv, py_truediv, of_int.
  destruct (Req_dec_T h 0) as [Eh | _]; [contradiction |].
  cbn [set_pixels_per_degree_az image_height].
  destruct (Req_dec_T 0 0) as [_ | N]; [| contradiction].
  rewrite NPFacts.div_fin by assumption.
  eexists. split; [reflexivity |].
  unfold sky_to_pixel. cbn. rewrite Hnone. repeat split.
Qed.

(** X16. A focal-length calibration with a positive focal length and
    positive sensor sizes returns normally.  The two scales are the image
    sizes divided by the fields of view of a pinhole camera: angles strictly
    between 0 and 180 degrees whose half-angle tangent is the sensor
    half-size over the focal length. *)
Theorem focal_length_calibration (self : t) (f sw sh : R) :
  0 < f -> 0 < sw -> 0 < sh ->
  exists self' hfov vfov,
    calibrate_from_focal_length self (Fin f) (Fin sw) (Fin sh) = (Ok tt, self')
    /\ 0 < hfov < 180 /\ 0 < vfov < 180
    /\ Rtrigo1.tan (hfov / 2 * (PI / 180)) = sw / (2 * f)
    /\ Rtrigo1.tan (vfov / 2 * (PI / 180)) = sh / (2 * f)
    /\ pixels_per_degree_az self' = Some (Fin (IZR (image_width self) / hfov))
    /\ pixels_per_degree_alt self'
       = Some (Fin (IZR (image_height self) / vfov))
    /\ anchor_data self' = anchor_data self
    /\ sun_pixel self' = sun_pixel self.
Proof.
  intros Hf Hw Hh.
  pose proof (fov_range sw f Hf Hw) as Hhfov.
  pose proof (fov_range sh f Hf Hh) as Hvfov.
  exists (set_pixels_per_degree_alt
            (set_pixels_per_degree_az self
               (Fin (IZR (image_width self) / fov sw f)))
            (Fin (IZR (image_height self) / fov sh f))),
         (fov sw f), (fov sh f).
  split; [apply focal_length_closed_form; lra |].
  repeat split; try apply fov_half_angle; try reflexivity; lra.
Qed.

(** X17. A zero focal length given as a built-in float raises
    [ZeroDivisionError] whatever the sensor sizes are, and stores
    nothing. *)
Theorem zero_focal_length_raises (self : t) (sw sh : float64) :
  calibrate_from_focal_length self (Fin 0) sw sh
  = (Raise (ZeroDivisionError "float division by zero"), self).
Proof.
  unfold calibrate_from_focal_length, py_truediv. cbn [mul].
  destruct (Req_dec_T (2 * 0) 0) as [_ | N]; [reflexivity | lra].
Qed.

(** X18. On an image of positive width, a longer focal length gives a
    strictly larger horizontal scale. *)
Theorem longer_focal_length_larger_scale (self : t) (f1 f2 sw sh : R) :
  0 < f1 < f2 -> 0 < sw -> 0 < sh ->
  (0 < image_width self)%Z ->
  exists self1 self2 p1 p2,
    calibrate_from_focal_length self (Fin f1) (Fin sw) (Fin sh) = (Ok tt, self1)
    /\ calibrate_from_focal_length self (Fin f2) (Fin sw) (Fin sh)
       = (Ok tt, self2)
    /\ pixels_per_degree_az self1 = Some (Fin p1)
    /\ pixels_per_degree_az self2 = Some (Fin p2)
    /\ 0 < p1 < p2.
Proof.
  intros [Hf1 Hf] Hw Hh Hwidth.
  assert (Hf2 : 0 < f2) by lra.
  pose proof (fov_range sw f1 Hf1 Hw) as Hw1.
  pose proof (fov_range sw f2 Hf2 Hw) as Hw2.
  pose proof (fov_range sh f1 Hf1 Hh) as Hh1.
  pose proof (fov_range sh f2 Hf2 Hh) as Hh2.
  pose proof (fov_decreasing sw f1 f2 Hw (conj Hf1 Hf)) as Hdec.
  do 4 eexists.
  split; [apply focal_length_closed_form; lra |].
  split; [apply focal_length_closed_form; lra |].
  split; [reflexivity |]. split; [reflexivity |].
  apply IZR_lt in Hwidth. unfold Rdiv. split.
  - apply Rmult_lt_0_compat; [assumption |]. apply Rinv_0_lt_compat. lra.
  - apply Rmult_lt_compat_l; [assumption |].
    apply Rinv_lt_contravar; [| assumption].
    apply Rmult_lt_0_compat; lra.
Qed.

End Calibration.

Lemma fov_calibration_scales_witness :
  exists self' paz palt,
    ImageAnchorer.calibrate_from_field_of_view polar_anchorer
      (ImageAnchorer.PyFloat (NP.Fin 60)) (ImageAnchorer.PyFloat (NP.Fin 40))
      = (Ok tt, self')
    /\ ImageAnchorer.pixels_per_degree_az self' = Some (NP.Fin paz)
    /\ ImageAnchorer.pixels_per_degree_alt self' = Some (NP.Fin palt)
    /\ paz * 60 = IZR (ImageAnchorer.image_width polar_anchorer)
    /\ palt * 40 = IZR (ImageAnchorer.image_height polar_anchorer)
    /\ ImageAnchorer.anchor_data self'
       = ImageAnchorer.anchor_data polar_anchorer
    /\ ImageAnchorer.sun_pixel self' = ImageAnchorer.sun_pixel polar_anchorer
    /\ ImageAnchorer.image_width self'
       = ImageAnchorer.image_width polar_anchorer
    /\ ImageAnchorer.image_height self'
       = ImageAnchorer.image_height polar_anchorer.
Proof.
  apply (fov_calibration_scales polar_anchorer 60 40); lra.
Defined.

Lemma half_calibration_defeats_guard_witness :
  exists self',
    ImageAnchorer.calibrate_from_field_of_view polar_anchorer
      (ImageAnchorer.PyFloat (NP.Fin 60)) (ImageAnchorer.PyFloat (NP.Fin 0))
      = (Raise (ZeroDivisionError "float division by zero"), self')
    /\ ImageAnchorer.pixels_per_degree_az self'
       = Some (NP.Fin (IZR (ImageAnchorer.image_width polar_anchorer) / 60))
    /\ ImageAnchorer.pixels_per_degree_alt self' = None
    /\ ImageAnchorer.sky_to_pixel self' (NP.Fin 10) (NP.Fin 180)
       = Raise (TypeError
           "unsupported operand type(s) for *: 'float' and 'NoneType'").
Proof.
  apply (half_calibration_defeats_guard polar_anchorer 60
           (NP.Fin 10) (NP.Fin 180)); [lra | reflexivity].
Defined.

Lemma focal_length_calibration_witness :
  exists self' hfov vfov,
    ImageAnchorer.calibrate_from_focal_length polar_anchorer
      (NP.Fin 50) (NP.Fin 36) (NP.Fin 24) = (Ok tt, self')
    /\ 0 < hfov < 180 /\ 0 < vfov < 180
    /\ Rtrigo1.tan (hfov / 2 * (PI / 180)) = 36 / (2 * 50)
    /\ Rtrigo1.tan (vfov / 2 * (PI / 180)) = 24 / (2 * 50)
    /\ ImageAnchorer.pixels_per_degree_az self'
       = Some (NP.Fin (IZR (ImageAnchorer.image_width polar_anchorer) / hfov))
    /\ ImageAnchorer.pixels_per_degree_alt self'
       = Some (NP.Fin (IZR (ImageAnchorer.image_height polar_anchorer) / vfov))
    /\ ImageAnchorer.anchor_data self'
       = ImageAnchorer.anchor_data polar_anchorer
    /\ ImageAnchorer.sun_pixel self' = ImageAnchorer.sun_pixel polar_anchorer.
Proof.
  apply (focal_length_calibration polar_anchorer 50 36 24); lra.
Defined.

Lemma longer_focal_length_larger_scale_witness :
  exists self1 self2 p1 p2,
    ImageAnchorer.calibrate_from_focal_length polar_anchorer
      (NP.Fin 24) (NP.Fin 36) (NP.Fin 24) = (Ok tt, self1)
    /\ ImageAnchorer.calibrate_from_focal_length polar_anchorer
         (NP.Fin 50) (NP.Fin 36) (NP.Fin 24) = (Ok tt, self2)
    /\ ImageAnchorer.pixels_per_degree_az self1 = Some (NP.Fin p1)
    /\ ImageAnchorer.pixels_per_degree_az self2 = Some (NP.Fin p2)
    /\ 0 < p1 < p2.
Proof.
  apply (longer_focal_length_larger_scale polar_anchorer 24 50 36 24);
    solve [lra | reflexivity].
Defined.

(** ** From sky offsets to pixels *)

Section Conversion.

Import NP ImageAnchorer.

(** [int()] of a finite float truncates toward zero: the integer is within
    one of the float and on its side of zero. *)
Lemma to_int_truncates (r : R) (z : Z) :
  to_int (Fin r) = Ok z ->
  (0 <= r -> IZR z <= r < IZR z + 1) /\ (r < 0 -> IZR z - 1 < r <= IZR z).
Proof.
  unfold to_int. intros E. injection E as <-.
  destruct (Rle_dec 0 r) as [Hr | Hr].
  - pose proof (Zfloor_bound r). split; intros; lra.
  - pose proof (Zfloor_bound (- r)). rewrite opp_IZR. split; intros; lra.
Qed.

Lemma to_int_monotone (r1 r2 : R) (z1 z2 : Z) :
  r1 <= r2 -> to_int (Fin r1) = Ok z1 -> to_int (Fin r2) = Ok z2 ->
  (z1 <= z2)%Z.
Proof.
  unfold to_int. intros Hle E1 E2. injection E1 as <-. injection E2 as <-.
  destruct (Rle_dec 0 r1) as [H1 | H1], (Rle_dec 0 r2) as [H2 | H2].
  - apply Zfloor_le. exact Hle.
  - lra.
  - assert (0 <= Zfloor (- r1))%Z by (apply Zfloor_lub; lra).
    assert (0 <= Zfloor r2)%Z by (apply Zfloor_lub; lra). lia.
  - assert (Zfloor (- r2) <= Zfloor (- r1))%Z by (apply Zfloor_le; lra). lia.
Qed.

Variables (self : t) (alt0 az0 paz palt : R).
Hypothesis Halt0 : SkyMapper.altitude (anchor_data self) = Fin alt0.
Hypothesis Haz0 : SkyMapper.azimuth (anchor_data self) = Fin az0.
Hypothesis Hpaz : pixels_per_degree_az self = Some (Fin paz).
Hypothesis Hpalt : pixels_per_degree_alt self = Some (Fin palt).

Lemma sky_to_pixel_returns (alt az : R) :
  exists x y,
    sky_to_pixel self (Fin alt) (Fin az) = Ok (x, y)
    /\ to_int (Fin (IZR (fst (sun_pixel self)) + (az + - az0) * paz)) = Ok x
    /\ to_int (Fin (IZR (snd (sun_pixel self)) + - (alt + - alt0) * palt))
       = Ok y.
Proof.
  unfold sky_to_pixel. rewrite Halt0, Haz0, Hpaz, Hpalt.
  cbn [sub neg add mul of_int to_int bind]. do 2 eexists.
  repeat split.
Qed.

(** X19. Once calibrated with finite scales, the conversion returns for
    every finite request a pixel less than one pixel away, on each axis,
    from the sun pixel displaced by the angular offset times the scale:
    to the right for a larger azimuth, upward (smaller [y]) for a larger
    altitude. *)
Theorem sky_to_pixel_within_one_pixel (alt az : R) :
  exists x y,
    sky_to_pixel self (Fin alt) (Fin az) = Ok (x, y)
    /\ Rabs (IZR x - (IZR (fst (sun_pixel self)) + (az - az0) * paz)) < 1
    /\ Rabs (IZR y - (IZR (snd (sun_pixel self)) - (alt - alt0) * palt)) < 1.
Proof.
  destruct (sky_to_pixel_returns alt az) as (x & y & Hxy & Hx & Hy).
  exists x, y. split; [exact Hxy |].
  apply to_int_truncates in Hx, Hy.
  destruct Hx as [Hx1 Hx2], Hy as [Hy1 Hy2].
  set (u := IZR (fst (sun_pixel self)) + (az + - az0) * paz) in *.
  set (v := IZR (snd (sun_pixel self)) + - (alt + - alt0) * palt) in *.
  replace (IZR (fst (sun_pixel self)) + (az - az0) * paz) with u
    by (unfold u; ring).
  replace (IZR (snd (sun_pixel self)) - (alt - alt0) * palt) with v
    by (unfold v; ring).
  split; apply Rabs_def1.
  - destruct (Rle_dec 0 u); [specialize (Hx1 ltac:(lra)) |
                             specialize (Hx2 ltac:(lra))]; lra.
  - destruct (Rle_dec 0 u); [specialize (Hx1 ltac:(lra)) |
                             specialize (Hx2 ltac:(lra))]; lra.
  - destruct (Rle_dec 0 v); [specialize (Hy1 ltac:(lra)) |
                             specialize (Hy2 ltac:(lra))]; lra.
  - destruct (Rle_dec 0 v); [specialize (Hy1 ltac:(lra)) |
                             specialize (Hy2 ltac:(lra))]; lra.
Qed.

(** X20. With non-negative finite scales the conversion is monotone: a
    request with a larger azimuth never lands further left, and one with a
    larger altitude never lands lower in the image. *)
Theorem sky_to_pixel_monotone (alt1 az1 alt2 az2 : R) :
  0 <= paz -> 0 <= palt -> az1 <= az2 -> alt1 <= alt2 ->
  exists x1 y1 x2 y2,
    sky_to_pixel self (Fin alt1) (Fin az1) = Ok (x1, y1)
    /\ sky_to_pixel self (Fin alt2) (Fin az2) = Ok (x2, y2)
    /\ (x1 <= x2)%Z /\ (y2 <= y1)%Z.
Proof.
  intros Hsaz Hsalt Haz Halt.
  destruct (sky_to_pixel_returns alt1 az1) as (x1 & y1 & H1 & Hx1 & Hy1).
  destruct (sky_to_pixel_returns alt2 az2) as (x2 & y2 & H2 & Hx2 & Hy2).
  exists x1, y1, x2, y2. split; [exact H1 |]. split; [exact H2 |]. split.
  - refine (to_int_monotone _ _ _ _ _ Hx1 Hx2).
    apply Rplus_le_compat_l. apply Rmult_le_compat_r; lra.
  - refine (to_int_monotone _ _ _ _ _ Hy2 Hy1).
    apply Rplus_le_compat_l.
    replace (- (alt2 + - alt0) * palt) with (- ((alt2 + - alt0) * palt)) by ring.
    replace (- (alt1 + - alt0) * palt) with (- ((alt1 + - alt0) * palt)) by ring.
    apply Ropp_le_contravar. apply Rmult_le_compat_r; lra.
Qed.

End Conversion.

Lemma sky_to_pixel_within_one_pixel_witness :
  exists self' alt0 az0 x y,
    ImageAnchorer.calibrate_from_field_of_view polar_anchorer
      (ImageAnchorer.PyFloat (NP.Fin 60)) (ImageAnchorer.PyFloat (NP.Fin 40))
      = (Ok tt, self')
    /\ SkyMapper.altitude (ImageAnchorer.anchor_data self') = NP.Fin alt0
    /\ SkyMapper.azimuth (ImageAnchorer.anchor_data self') = NP.Fin az0
    /\ ImageAnchorer.sky_to_pixel self' (NP.Fin 10) (NP.Fin 180) = Ok (x, y)
    /\ Rabs (IZR x - (IZR (fst (ImageAnchorer.sun_pixel self'))
                      + (180 - az0) * (IZR 3 / 60))) < 1
    /\ Rabs (IZR y - (IZR (snd (ImageAnchorer.sun_pixel self'))
                      - (10 - alt0) * (IZR 2 / 40))) < 1.
Proof.
  destruct polar_anchorer_anchor as (alt0 & az0 & Ha & Hz).
  destruct (fov_calibration_succeeds polar_anchorer 60 40) as [self' Hcal];
    [lra | lra |].
  destruct (fov_calibration_finite _ _ _ _ Hcal)
    as (_ & _ & Hpaz & Hpalt & Hanchor & Hpixel).
  rewrite <- Hanchor in Ha, Hz.
  destruct (sky_to_pixel_within_one_pixel self' alt0 az0 _ _ Ha Hz Hpaz Hpalt
              10 180) as (x & y & Hxy & Hx & Hy).
  exists self', alt0, az0, x, y. repeat split; assumption.
Defined.

Lemma sky_to_pixel_monotone_witness :
  exists self' x1 y1 x2 y2,
    ImageAnchorer.calibrate_from_field_of_view polar_anchorer
      (ImageAnchorer.PyFloat (NP.Fin 60)) (ImageAnchorer.PyFloat (NP.Fin 40))
      = (Ok tt, self')
    /\ ImageAnchorer.sky_to_pixel self' (NP.Fin 10) (NP.Fin 170) = Ok (x1, y1)
    /\ ImageAnchorer.sky_to_pixel self' (NP.Fin 20) (NP.Fin 180) = Ok (x2, y2)
    /\ (x1 <= x2)%Z /\ (y2 <= y1)%Z.
Proof.
  destruct polar_anchorer_anchor as (alt0 & az0 & Ha & Hz).
  destruct (fov_calibration_succeeds polar_anchorer 60 40) as [self' Hcal];
    [lra | lra |].
  destruct (fov_calibration_finite _ _ _ _ Hcal)
    as (_ & _ & Hpaz & Hpalt & Hanchor & Hpixel).
  rewrite <- Hanchor in Ha, Hz.
  destruct (sky_to_pixel_monotone self' alt0 az0 _ _ Ha Hz Hpaz Hpalt
              10 170 20 180) as (x1 & y1 & x2 & y2 & H1 & H2 & Hx & Hy).
  - apply Rlt_le. apply Rdiv_lt_0_compat; [apply IZR_lt; reflexivity | lra].
  - apply Rlt_le. apply Rdiv_lt_0_compat; [apply IZR_lt; reflexivity | lra].
  - lra.
  - lra.
  - exists self', x1, y1, x2, y2. repeat split; assumption.
Defined.

(** ** The analemma over the photograph *)

Section OffTropics.

Import NP.

Lemma cos_below_one (x : R) : 0 < Rabs x <= PI -> Rtrigo_def.cos x < 1.
Proof.
  intros [Hpos Hle]. pose proof PI_RGT_0 as HPI.
  assert (Hcos : Rtrigo_def.cos x = Rtrigo_def.cos (Rabs x)).
  { unfold Rabs. destruct (Rcase_abs x); [| reflexivity].
    rewrite cos_neg. reflexivity. }
  rewrite Hcos, <- cos_0.
  apply cos_decreasing_1; lra.
Qed.

(** Between the two extremes [cos(phi - delta)] and [- cos(phi + delta)]
    the sine of the altitude stays strictly inside [(-1, 1)] when the
    latitude is neither the declination nor its opposite. *)
Lemma sin_alt_strict (phi delta H : R) :
  - (PI / 2) <= phi <= PI / 2 -> - (PI / 2) <= delta <= PI / 2 ->
  phi <> delta -> phi <> - delta ->
  -1 < sin_alt phi delta H < 1.
Proof.
  intros [Hp1 Hp2] [Hd1 Hd2] Hne Hne'.
  pose proof (Rmult_le_pos _ _ (cos_ge_0 phi Hp1 Hp2) (cos_ge_0 delta Hd1 Hd2))
    as Hpos.
  pose proof (COS_bound H) as [Hlo Hhi].
  set (p := Rtrigo_def.cos phi * Rtrigo_def.cos delta) in *.
  assert (Hup : p * Rtrigo_def.cos H <= p * 1)
    by (apply Rmult_le_compat_l; assumption).
  assert (Hdown : p * -1 <= p * Rtrigo_def.cos H)
    by (apply Rmult_le_compat_l; assumption).
  assert (Hminus : Rtrigo_def.cos (phi - delta) < 1).
  { apply cos_below_one. split.
    - apply Rabs_pos_lt. lra.
    - apply Rabs_le. lra. }
  assert (Hplus : Rtrigo_def.cos (phi + delta) < 1).
  { apply cos_below_one. split.
    - apply Rabs_pos_lt. lra.
    - apply Rabs_le. lra. }
  rewrite cos_minus in Hminus. rewrite cos_plus in Hplus. fold p in Hminus, Hplus.
  unfold sin_alt. fold p. lra.
Qed.

(** Outside the tropics the sun of the approximate model is never at the
    zenith or the nadir: every projected point is finite, whatever the date
    and the longitude. *)
Lemma off_tropics_finite (lat lon : R) (dt : datetime) :
  23.45 < Rabs lat <= 90 ->
  let p := SkyMapper.map_single_point (mapper_at lat lon)
             (approximate_result dt) in
  exists alt0 az0,
    SkyMapper.altitude p = Fin alt0 /\ SkyMapper.azimuth p = Fin az0
    /\ -90 <= alt0 <= 90 /\ 0 <= az0 < 360.
Proof.
  intros [Hlo Hhi] p. pose proof PI_RGT_0 as HPI.
  apply anchor_finite_off_zenith.
  destruct (anchor_position lat lon dt) as [Ha _]. rewrite Ha. intros E.
  apply (cos_altitude_zero_iff _ (lat * (PI / 180))) in E; [| reflexivity].
  assert (Hdec : -23.45 <= declination_value (tm_yday dt) <= 23.45).
  { unfold declination_value.
    pose proof (SIN_bound (360 / 365 * IZR (284 + tm_yday dt) * (PI / 180))).
    lra. }
  assert (Hk : 0 < PI / 180) by lra.
  assert (Hlat : -90 <= lat <= 90 /\ (lat < -23.45 \/ 23.45 < lat)).
  { unfold Rabs in Hlo, Hhi. destruct (Rcase_abs lat); lra. }
  destruct Hlat as [[Hl1 Hl2] Hout].
  pose proof (sin_alt_strict (lat * (PI / 180))
                (declination_value (tm_yday dt) * (PI / 180))
                (hour_angle_value lon dt * (PI / 180))) as Hs.
  destruct Hs as [Hs1 Hs2].
  - replace (PI / 2) with (90 * (PI / 180)) by field.
    replace (- (90 * (PI / 180))) with (-90 * (PI / 180)) by ring.
    split; apply Rmult_le_compat_r; lra.
  - replace (PI / 2) with (90 * (PI / 180)) by field.
    replace (- (90 * (PI / 180))) with (-90 * (PI / 180)) by ring.
    split; apply Rmult_le_compat_r; lra.
  - intros Heq. apply Rmult_eq_reg_r in Heq; lra.
  - intros Heq.
    replace (- (declination_value (tm_yday dt) * (PI / 180)))
      with (- declination_value (tm_yday dt) * (PI / 180)) in Heq by ring.
    apply Rmult_eq_reg_r in Heq; lra.
  - set (s := sin_alt _ _ _) in *.
    assert (0 < (1 - s) * (1 + s)) by (apply Rmult_lt_0_compat; lra).
    lra.
Qed.

End OffTropics.

Section Generation.

Import NP ImageAnchorer.

Variable available : bool.
Variable get_sun : datetime -> result sun_coord.

(** The horizon test of the loop. *)
Let below (p : SkyMapper.sky_result) : bool := ltb (SkyMapper.altitude p) (Fin 0).

(** In approximate mode and within the calendar, [calculate_year] returns
    the closed forms of the days counted from 1 January. *)
Lemma calculate_year_approximate
    (c : AnalemmaCalculator.t) (hour minute days : Z) :
  AnalemmaCalculator.mode c = "approximate" ->
  (1 <= AnalemmaCalculator.year c <= 9999)%Z ->
  (0 <= hour <= 23)%Z -> (0 <= minute <= 59)%Z ->
  (days <= 365)%Z ->
  AnalemmaCalculator.calculate_year available get_sun c hour minute days =
    Ok (map (fun day : nat =>
               approximate_result
                 (date_after
                    (mk_datetime (AnalemmaCalculator.year c) 1 1 hour minute)
                    day))
            (seq 0 (Z.to_nat days))).
Proof.
  intros Hmode Hyear Hhour Hminute Hdays.
  unfold AnalemmaCalculator.calculate_year, datetime_new, days_in_month.
  replace ((1 <=? AnalemmaCalculator.year c)
           && (AnalemmaCalculator.year c <=? 9999))%Z with true
    by (symmetry; apply andb_true_iff; split; apply Z.leb_le; lia).
  replace ((0 <=? hour) && (hour <=? 23))%Z with true
    by (symmetry; apply andb_true_iff; split; apply Z.leb_le; lia).
  replace ((0 <=? minute) && (minute <=? 59))%Z with true
    by (symmetry; apply andb_true_iff; split; apply Z.leb_le; lia).
  cbn [negb andb Z.leb Z.compare Pos.compare Pos.compare_cont nth Z.eqb
       Pos.eqb Z.to_nat Pos.to_nat Pos.iter_op Nat.add bind].
  apply for_each_ok. intros day Hin. apply in_seq in Hin.
  destruct (add_days_from_new_year (AnalemmaCalculator.year c) hour minute day)
    as (d & Hadd & _); [lia |].
  unfold date_after. rewrite Hadd. cbn [bind].
  destruct c as [m y]. cbn [AnalemmaCalculator.mode] in Hmode. subst m.
  apply calculate_approximate.
Qed.

(** Without a horizontal scale the loop stops at the first point that is
    not below the horizon. *)
Lemma visible_points_uncalibrated
    (self : t) (sky_data : list SkyMapper.sky_result) :
  pixels_per_degree_az self = None ->
  visible_points self sky_data =
    if forallb below sky_data then Ok []
    else Raise (ValueError must_calibrate).
Proof.
  intros Hnone. induction sky_data as [| point rest IH]; [reflexivity |].
  cbn [visible_points forallb]. unfold below at 1.
  destruct (ltb (SkyMapper.altitude point) (Fin 0)); cbn [andb].
  - exact IH.
  - unfold sky_to_pixel. rewrite Hnone. reflexivity.
Qed.

(** What the loop returns when it returns: the points not below the
    horizon, in order, each with the pixel [sky_to_pixel] gives it. *)
Lemma visible_points_spec
    (self : t) (sky_data : list SkyMapper.sky_result)
    (points : list visible_point) :
  visible_points self sky_data = Ok points ->
  map sky points = filter (fun p => negb (below p)) sky_data
  /\ Forall (fun q =>
       sky_to_pixel self (SkyMapper.altitude (sky q))
         (SkyMapper.azimuth (sky q)) = Ok (pixel_x q, pixel_y q)) points.
Proof.
  revert points. induction sky_data as [| point rest IH]; intros points.
  - cbn [visible_points]. intros E. injection E as <-. split; constructor.
  - cbn [visible_points filter]. unfold below at 1.
    destruct (ltb (SkyMapper.altitude point) (Fin 0)); cbn [negb].
    + apply IH.
    + destruct (sky_to_pixel self (SkyMapper.altitude point)
                  (SkyMapper.azimuth point)) as [[x y] | e] eqn:Hpix;
        cbn [bind]; [| discriminate].
      destruct (visible_points self rest) as [pts | e];
        cbn [bind]; [| discriminate].
      intros E. injection E as <-.
      destruct (IH pts eq_refl) as [Hmap Hall].
      split.
      * cbn [map sky]. rewrite Hmap. reflexivity.
      * constructor; [exact Hpix | exact Hall].
Qed.

(** With finite scales and a finite anchor the loop returns on every list
    of finite points. *)
Lemma visible_points_returns
    (self : t) (alt0 az0 paz palt : R)
    (sky_data : list SkyMapper.sky_result) :
  SkyMapper.altitude (anchor_data self) = Fin alt0 ->
  SkyMapper.azimuth (anchor_data self) = Fin az0 ->
  pixels_per_degree_az self = Some (Fin paz) ->
  pixels_per_degree_alt self = Some (Fin palt) ->
  Forall (fun p => exists alt az,
            SkyMapper.altitude p = Fin alt /\ SkyMapper.azimuth p = Fin az)
         sky_data ->
  exists points, visible_points self sky_data = Ok points.
Proof.
  intros Ha Hz Hpaz Hpalt Hall.
  induction Hall as [| point rest (alt & az & Halt & Haz) _ IH].
  - exists []. reflexivity.
  - destruct IH as [pts Hpts]. cbn [visible_points].
    destruct (ltb (SkyMapper.altitude point) (Fin 0)).
    + exists pts. exact Hpts.
    + rewrite Halt, Haz.
      destruct (sky_to_pixel_returns self alt0 az0 paz palt Ha Hz Hpaz Hpalt
                  alt az) as (x & y & Hxy & _).
      rewrite Hxy, Hpts. cbn [bind]. eexists. reflexivity.
Qed.

(** A calibration from fields of view touches the two scales only. *)
Lemma fov_calibration_fields (self0 self : t) (h v : R) :
  calibrate_from_field_of_view self0 (PyFloat (Fin h)) (PyFloat (Fin v))
    = (Ok tt, self) ->
  (exists paz palt,
     pixels_per_degree_az self = Some (Fin paz)
     /\ pixels_per_degree_alt self = Some (Fin palt))
  /\ anchor_data self = anchor_data self0
  /\ calculator self = calculator self0
  /\ sky_mapper self = sky_mapper self0
  /\ anchor_datetime self = anchor_datetime self0.
Proof.
  unfold calibrate_from_field_of_view, int_truediv, py_truediv, of_int.
  destruct (Req_dec_T h 0) as [Eh | Nh]; [discriminate |].
  cbn [set_pixels_per_degree_az image_height].
  destruct (Req_dec_T v 0) as [Ev | Nv]; [discriminate |].
  rewrite !NPFacts.div_fin by assumption.
  intros E. injection E as <-. split; [| repeat split].
  do 2 eexists. split; reflexivity.
Qed.

(** X21. On an anchorer that was never calibrated, whenever the year of
    solar coordinates is computed, [generate_analemma_points] does not
    always raise: it returns the empty list when every mapped day is below
    the horizon, and raises the must-calibrate [ValueError] as soon as one
    day is not. *)
Theorem generation_before_calibration
    (self : t) (days : Z) (year_data : list AnalemmaCalculator.calc_result) :
  pixels_per_degree_az self = None ->
  AnalemmaCalculator.calculate_year available get_sun (calculator self)
    (dt_hour (anchor_datetime self)) (dt_minute (anchor_datetime self)) days
    = Ok year_data ->
  generate_analemma_points available get_sun self days =
    if forallb (fun p => ltb (SkyMapper.altitude p) (Fin 0))
         (SkyMapper.map_to_horizon (sky_mapper self) year_data)
    then Ok []
    else Raise (ValueError must_calibrate).
Proof.
  intros Hnone Hyear. unfold generate_analemma_points.
  rewrite Hyear. cbn [bind].
  apply visible_points_uncalibrated. exact Hnone.
Qed.

Variable has_scipy : bool.
Variable ndimage_label : list (list bool) -> list (list nat) * nat.
Variable current_year : Z.

(** The pipeline outside the tropics: the year is computed, every mapped
    day is finite, and the loop over them returns. *)
Lemma off_tropics_pipeline
    (img : pil_image) (dt : datetime) (lat lon : R)
    (pixel : option (Z * Z)) (auto : bool) (self0 self : t)
    (h v : R) (days : Z) :
  __init__ has_scipy ndimage_label available current_year get_sun
    img dt (Fin lat) (Fin lon) pixel auto = Ok self0 ->
  calibrate_from_field_of_view self0 (PyFloat (Fin h)) (PyFloat (Fin v))
    = (Ok tt, self) ->
  23.45 < Rabs lat <= 90 ->
  (1 <= dt_year dt <= 9999)%Z ->
  (0 <= dt_hour dt <= 23)%Z -> (0 <= dt_minute dt <= 59)%Z ->
  (days <= 365)%Z ->
  let year_data :=
    map (fun day : nat =>
           approximate_result
             (date_after (mk_datetime (dt_year dt) 1 1 (dt_hour dt)
                            (dt_minute dt)) day))
        (seq 0 (Z.to_nat days)) in
  let sky_data := SkyMapper.map_to_horizon (mapper_at lat lon) year_data in
  sky_mapper self = mapper_at lat lon
  /\ AnalemmaCalculator.calculate_year available get_sun (calculator self)
       (dt_hour dt) (dt_minute dt) days = Ok year_data
  /\ (forall point, In point sky_data ->
        exists alt az,
          SkyMapper.altitude point = Fin alt
          /\ SkyMapper.azimuth point = Fin az
          /\ -90 <= alt <= 90 /\ 0 <= az < 360)
  /\ exists points,
       visible_points self sky_data = Ok points
       /\ generate_analemma_points available get_sun self days = Ok points.
Proof.
  intros Hinit Hcal Hlat Hyear Hhour Hminute Hdays year_data sky_data.
  rewrite anchorer_init in Hinit.
  destruct (match pixel with
            | Some p => Ok p
            | None =>
                if auto then _detect_sun_position has_scipy ndimage_label img
                else Ok ((fst (image_size img) / 2)%Z,
                         (snd (image_size img) / 2)%Z)
            end) as [p | e]; cbn [bind] in Hinit; [| discriminate].
  injection Hinit as <-.
  destruct (fov_calibration_fields _ _ _ _ Hcal)
    as ((paz & palt & Hpaz & Hpalt) & Hanchor & Hcalc & Hmapper & Hdt).
  cbn [anchorer_at anchor_data calculator sky_mapper anchor_datetime]
    in Hanchor, Hcalc, Hmapper, Hdt.
  replace (dt_year dt =? 0)%Z with false in Hcalc
    by (symmetry; apply Z.eqb_neq; lia).
  assert (Hy : AnalemmaCalculator.calculate_year available get_sun
                 (calculator self) (dt_hour dt) (dt_minute dt) days
               = Ok year_data).
  { rewrite Hcalc. apply calculate_year_approximate; try assumption.
    reflexivity. }
  assert (Hfin : forall point, In point sky_data ->
            exists alt az,
              SkyMapper.altitude point = Fin alt
              /\ SkyMapper.azimuth point = Fin az
              /\ -90 <= alt <= 90 /\ 0 <= az < 360).
  { intros point Hin. unfold sky_data, SkyMapper.map_to_horizon, year_data in Hin.
    apply in_map_iff in Hin. destruct Hin as (c & <- & Hin).
    apply in_map_iff in Hin. destruct Hin as (day & <- & _).
    apply off_tropics_finite. exact Hlat. }
  destruct (off_tropics_finite lat lon dt Hlat) as (alt0 & az0 & Ha & Hz & _).
  rewrite <- Hanchor in Ha, Hz.
  destruct (visible_points_returns self alt0 az0 paz palt sky_data
              Ha Hz Hpaz Hpalt) as [points Hpoints].
  { apply Forall_forall. intros point Hin.
    destruct (Hfin point Hin) as (alt & az & Halt & Haz & _).
    exists alt, az. split; assumption. }
  split; [exact Hmapper |]. split; [exact Hy |]. split; [exact Hfin |].
  exists points. split; [exact Hpoints |].
  unfold generate_analemma_points. rewrite Hdt, Hy. cbn [bind].
  rewrite Hmapper. exact Hpoints.
Qed.

(** X22. Outside the tropics the whole pipeline returns.  For an anchorer
    constructed at a latitude beyond 23.45 degrees for a valid date and
    calibrated from two fields of view given as built-in floats,
    [generate_analemma_points] returns, for up to 365 days, the mapped days
    that are not below the horizon, in order; each has a finite altitude in
    [[0, 90]], a finite azimuth in [[0, 360)] and the pixel that
    [sky_to_pixel] gives for them. *)
Theorem generation_off_tropics
    (img : pil_image) (dt : datetime) (lat lon : R)
    (pixel : option (Z * Z)) (auto : bool) (self0 self : t)
    (h v : R) (days : Z) :
  __init__ has_scipy ndimage_label available current_year get_sun
    img dt (Fin lat) (Fin lon) pixel auto = Ok self0 ->
  calibrate_from_field_of_view self0 (PyFloat (Fin h)) (PyFloat (Fin v))
    = (Ok tt, self) ->
  23.45 < Rabs lat <= 90 ->
  (1 <= dt_year dt <= 9999)%Z ->
  (0 <= dt_hour dt <= 23)%Z -> (0 <= dt_minute dt <= 59)%Z ->
  (days <= 365)%Z ->
  exists year_data points,
    AnalemmaCalculator.calculate_year available get_sun (calculator self)
      (dt_hour dt) (dt_minute dt) days = Ok year_data
    /\ generate_analemma_points available get_sun self days = Ok points
    /\ map sky points =
         filter (fun p => negb (ltb (SkyMapper.altitude p) (Fin 0)))
           (SkyMapper.map_to_horizon (sky_mapper self) year_data)
    /\ Forall (fun q => exists alt az,
         SkyMapper.altitude (sky q) = Fin alt
         /\ SkyMapper.azimuth (sky q) = Fin az
         /\ 0 <= alt <= 90 /\ 0 <= az < 360
         /\ sky_to_pixel self (Fin alt) (Fin az) = Ok (pixel_x q, pixel_y q))
       points.
Proof.
  intros Hinit Hcal Hlat Hyear Hhour Hminute Hdays.
  destruct (off_tropics_pipeline img dt lat lon pixel auto self0 self h v days
              Hinit Hcal Hlat Hyear Hhour Hminute Hdays)
    as (Hmapper & Hy & Hfin & points & Hpoints & Hgen).
  rewrite Hmapper.
  set (sky_data := SkyMapper.map_to_horizon (mapper_at lat lon) _) in *.
  destruct (visible_points_spec self sky_data points Hpoints) as [Hmap Hpix].
  do 2 eexists.
  split; [exact Hy |]. split; [exact Hgen |]. split; [exact Hmap |].
  apply Forall_forall. intros q Hq.
  assert (Hin : In (sky q) (filter (fun p => negb (below p)) sky_data)).
  { rewrite <- Hmap. apply in_map. exact Hq. }
  apply filter_In in Hin. destruct Hin as [Hin Hup].
  destruct (Hfin (sky q) Hin) as (alt & az & Halt & Haz & Halt_range & Haz_range).
  exists alt, az. split; [exact Halt |]. split; [exact Haz |].
  split; [| split; [exact Haz_range |]].
  - unfold below in Hup. rewrite Halt in Hup. unfold ltb, gtb in Hup.
    destruct (Rgt_dec 0 alt); [discriminate | lra].
  - rewrite <- Halt, <- Haz.
    exact (proj1 (Forall_forall _ _) Hpix q Hq).
Qed.

End Generation.

Lemma generation_before_calibration_witness :
  let get_sun := fun _ : datetime => Raise (RuntimeError "unavailable") in
  exists year_data,
    AnalemmaCalculator.calculate_year false get_sun
      (ImageAnchorer.calculator polar_anchorer) 12 0 2 = Ok year_data
    /\ ImageAnchorer.generate_analemma_points false get_sun polar_anchorer 2 =
         if forallb (fun p => NP.ltb (SkyMapper.altitude p) (NP.Fin 0))
              (SkyMapper.map_to_horizon
                 (ImageAnchorer.sky_mapper polar_anchorer) year_data)
         then Ok []
         else Raise (ValueError ImageAnchorer.must_calibrate).
Proof.
  intros get_sun.
  assert (Hyear : AnalemmaCalculator.calculate_year false get_sun
                    (ImageAnchorer.calculator polar_anchorer) 12 0 2
                  = Ok (map (fun day : nat =>
                               approximate_result
                                 (date_after (mk_datetime 2026 1 1 12 0) day))
                          (seq 0 2))).
  { apply (calculate_year_approximate false get_sun
             (ImageAnchorer.calculator polar_anchorer) 12 0 2);
      cbn; solve [reflexivity | lia]. }
  eexists. split; [exact Hyear |].
  apply (generation_before_calibration false get_sun polar_anchorer 2 _
           eq_refl Hyear).
Defined.

Lemma generation_off_tropics_witness :
  let get_sun := fun _ : datetime => Raise (RuntimeError "unavailable") in
  exists self year_data points,
    ImageAnchorer.calibrate_from_field_of_view polar_anchorer
      (ImageAnchorer.PyFloat (NP.Fin 60)) (ImageAnchorer.PyFloat (NP.Fin 40))
      = (Ok tt, self)
    /\ AnalemmaCalculator.calculate_year false get_sun
         (ImageAnchorer.calculator self) 12 0 365 = Ok year_data
    /\ ImageAnchorer.generate_analemma_points false get_sun self 365
       = Ok points
    /\ map ImageAnchorer.sky points =
         filter (fun p => negb (NP.ltb (SkyMapper.altitude p) (NP.Fin 0)))
           (SkyMapper.map_to_horizon (ImageAnchorer.sky_mapper self) year_data)
    /\ Forall (fun q => exists alt az,
         SkyMapper.altitude (ImageAnchorer.sky q) = NP.Fin alt
         /\ SkyMapper.azimuth (ImageAnchorer.sky q) = NP.Fin az
         /\ 0 <= alt <= 90 /\ 0 <= az < 360
         /\ ImageAnchorer.sky_to_pixel self (NP.Fin alt) (NP.Fin az)
            = Ok (ImageAnchorer.pixel_x q, ImageAnchorer.pixel_y q))
       points.
Proof.
  intros get_sun.
  destruct (fov_calibration_succeeds polar_anchorer 60 40) as [self Hcal];
    [lra | lra |].
  exists self.
  destruct (generation_off_tropics false get_sun false (fun _ => ([], 0%nat))
              2026 sample_image equinox_noon 90 0 (Some (1, 0)%Z) true
              polar_anchorer self 60 40 365 polar_anchorer_init Hcal)
    as (year_data & points & H).
  - rewrite Rabs_pos_eq; lra.
  - cbn. lia.
  - cbn. lia.
  - cbn. lia.
  - lia.
  - exists year_data, points. split; [exact Hcal | exact H].
Defined.

(** ** Statistics of the visible year *)

Section Statistics.

Import NP ImageAnchorer.

Variable available : bool.
Variable get_sun : datetime -> result sun_coord.

Lemma fold_min_finite {A : Type} (f : A -> float64) (l : list A) (m : R) :
  Forall (fun a => is_finite (f a)) l ->
  exists lo,
    fold_left (fun m y => if ltb y m then y else m) (map f l) (Fin m) = Fin lo
    /\ lo <= m
    /\ (forall a, In a l -> exists x, f a = Fin x /\ lo <= x)
    /\ (lo = m \/ exists a, In a l /\ f a = Fin lo).
Proof.
  intros Hall. revert m.
  induction Hall as [| a l Ha _ IH]; intros m.
  - exists m. cbn. repeat split; [lra | intros a [] | left; reflexivity].
  - cbn [map fold_left].
    destruct (f a) as [x | | |] eqn:Hfa; try contradiction.
    unfold ltb at 2, gtb.
    destruct (Rgt_dec m x) as [Hgt | Hle].
    + destruct (IH x) as (lo & Hfold & Hlo & Hbelow & Hattained).
      exists lo. split; [exact Hfold |]. split; [lra |]. split.
      * intros b [<- | Hb]; [exists x; split; [exact Hfa | exact Hlo] |].
        apply Hbelow. exact Hb.
      * right. destruct Hattained as [-> | (b & Hb & Hfb)].
        -- exists a. split; [left; reflexivity | exact Hfa].
        -- exists b. split; [right; exact Hb | exact Hfb].
    + destruct (IH m) as (lo & Hfold & Hlo & Hbelow & Hattained).
      exists lo. split; [exact Hfold |]. split; [exact Hlo |]. split.
      * intros b [<- | Hb]; [exists x; split; [exact Hfa | lra] |].
        apply Hbelow. exact Hb.
      * destruct Hattained as [-> | (b & Hb & Hfb)]; [left; reflexivity |].
        right. exists b. split; [right; exact Hb | exact Hfb].
Qed.

Lemma fold_max_finite {A : Type} (f : A -> float64) (l : list A) (m : R) :
  Forall (fun a => is_finite (f a)) l ->
  exists hi,
    fold_left (fun m y => if gtb y m then y else m) (map f l) (Fin m) = Fin hi
    /\ m <= hi
    /\ (forall a, In a l -> exists x, f a = Fin x /\ x <= hi)
    /\ (hi = m \/ exists a, In a l /\ f a = Fin hi).
Proof.
  intros Hall. revert m.
  induction Hall as [| a l Ha _ IH]; intros m.
  - exists m. cbn. repeat split; [lra | intros a [] | left; reflexivity].
  - cbn [map fold_left].
    destruct (f a) as [x | | |] eqn:Hfa; try contradiction.
    unfold gtb at 2.
    destruct (Rgt_dec x m) as [Hgt | Hle].
    + destruct (IH x) as (hi & Hfold & Hhi & Habove & Hattained).
      exists hi. split; [exact Hfold |]. split; [lra |]. split.
      * intros b [<- | Hb]; [exists x; split; [exact Hfa | exact Hhi] |].
        apply Habove. exact Hb.
      * right. destruct Hattained as [-> | (b & Hb & Hfb)].
        -- exists a. split; [left; reflexivity | exact Hfa].
        -- exists b. split; [right; exact Hb | exact Hfb].
    + destruct (IH m) as (hi & Hfold & Hhi & Habove & Hattained).
      exists hi. split; [exact Hfold |]. split; [exact Hhi |]. split.
      * intros b [<- | Hb]; [exists x; split; [exact Hfa | lra] |].
        apply Habove. exact Hb.
      * destruct Hattained as [-> | (b & Hb & Hfb)]; [left; reflexivity |].
        right. exists b. split; [right; exact Hb | exact Hfb].
Qed.

(** [min] of a non-empty list of finite floats is its least item. *)
Lemma py_min_finite {A : Type} (f : A -> float64) (l : list A) :
  l <> [] -> Forall (fun a => is_finite (f a)) l ->
  exists lo,
    py_min (map f l) = Ok (Fin lo)
    /\ (forall a, In a l -> exists x, f a = Fin x /\ lo <= x)
    /\ exists a, In a l /\ f a = Fin lo.
Proof.
  intros Hne Hall. destruct l as [| a l]; [contradiction |].
  inversion Hall as [| ? ? Ha Hrest]; subst.
  destruct (f a) as [m | | |] eqn:Hfa; try contradiction.
  destruct (fold_min_finite f l m Hrest) as (lo & Hfold & Hlo & Hbelow & Hatt).
  exists lo. cbn [map py_min]. rewrite Hfa, Hfold.
  split; [reflexivity |]. split.
  - intros b [<- | Hb]; [exists m; split; [exact Hfa | exact Hlo] |].
    apply Hbelow. exact Hb.
  - destruct Hatt as [-> | (b & Hb & Hfb)].
    + exists a. split; [left; reflexivity | exact Hfa].
    + exists b. split; [right; exact Hb | exact Hfb].
Qed.

(** [max] of a non-empty list of finite floats is its greatest item. *)
Lemma py_max_finite {A : Type} (f : A -> float64) (l : list A) :
  l <> [] -> Forall (fun a => is_finite (f a)) l ->
  exists hi,
    py_max (map f l) = Ok (Fin hi)
    /\ (forall a, In a l -> exists x, f a = Fin x /\ x <= hi)
    /\ exists a, In a l /\ f a = Fin hi.
Proof.
  intros Hne Hall. destruct l as [| a l]; [contradiction |].
  inversion Hall as [| ? ? Ha Hrest]; subst.
  destruct (f a) as [m | | |] eqn:Hfa; try contradiction.
  destruct (fold_max_finite f l m Hrest) as (hi & Hfold & Hhi & Habove & Hatt).
  exists hi. cbn [map py_max]. rewrite Hfa, Hfold.
  split; [reflexivity |]. split.
  - intros b [<- | Hb]; [exists m; split; [exact Hfa | exact Hhi] |].
    apply Habove. exact Hb.
  - destruct Hatt as [-> | (b & Hb & Hfb)].
    + exists a. split; [left; reflexivity | exact Hfa].
    + exists b. split; [right; exact Hb | exact Hfb].
Qed.

(** X23. The statistics are astronomical quantities, yet they cannot be
    had before the pixel scales are set: on an anchorer that was never
    calibrated [get_statistics] never returns.  When the year is computed
    it raises [ValueError]: the must-calibrate error as soon as one day is
    not below the horizon, and otherwise the error of [min()] on an empty
    sequence. *)
Theorem statistics_need_calibration (self : t) :
  pixels_per_degree_az self = None ->
  (exists e, get_statistics available get_sun self = Raise e)
  /\ forall year_data,
       AnalemmaCalculator.calculate_year available get_sun (calculator self)
         (dt_hour (anchor_datetime self)) (dt_minute (anchor_datetime self))
         365 = Ok year_data ->
       let all_below :=
         forallb (fun p => ltb (SkyMapper.altitude p) (Fin 0))
           (SkyMapper.map_to_horizon (sky_mapper self) year_data) in
       (all_below = false ->
        get_statistics available get_sun self
        = Raise (ValueError must_calibrate))
       /\ (all_below = true ->
           exists e, py_min [] = Raise e
                     /\ get_statistics available get_sun self = Raise e).
Proof.
  intros Hnone.
  assert (Hgen : forall year_data,
            AnalemmaCalculator.calculate_year available get_sun
              (calculator self) (dt_hour (anchor_datetime self))
              (dt_minute (anchor_datetime self)) 365 = Ok year_data ->
            get_statistics available get_sun self =
              if forallb (fun p => ltb (SkyMapper.altitude p) (Fin 0))
                   (SkyMapper.map_to_horizon (sky_mapper self) year_data)
              then match py_min [] with
                   | Ok _ => Raise (ValueError must_calibrate)
                   | Raise e => Raise e
                   end
              else Raise (ValueError must_calibrate)).
  { intros year_data Hyear.
    unfold get_statistics, generate_analemma_points.
    rewrite Hyear. cbn [bind].
    rewrite (visible_points_uncalibrated self _ Hnone).
    destruct (forallb _ _); reflexivity. }
  split.
  - destruct (AnalemmaCalculator.calculate_year available get_sun
                (calculator self) (dt_hour (anchor_datetime self))
                (dt_minute (anchor_datetime self)) 365)
      as [year_data | e] eqn:Hyear.
    + rewrite (Hgen year_data eq_refl).
      destruct (forallb _ _); eexists; reflexivity.
    + exists e. unfold get_statistics, generate_analemma_points.
      rewrite Hyear. reflexivity.
  - intros year_data Hyear all_below. rewrite (Hgen year_data Hyear).
    fold all_below. split; intros ->; [reflexivity |].
    eexists. split; reflexivity.
Qed.

(** X24. When the year has visible days and their positions are finite,
    [get_statistics] returns.  The altitude range is the least and the
    greatest altitude among the visible days, both attained, and every
    visible day lies within the altitude and azimuth ranges; the spans are
    the non-negative widths of the ranges; the anchor entries and the
    location are those of the anchorer. *)
Theorem statistics_of_visible_year (self : t) (points : list visible_point) :
  generate_analemma_points available get_sun self 365 = Ok points ->
  points <> [] ->
  Forall (fun q => is_finite (SkyMapper.altitude (sky q))) points ->
  Forall (fun q => is_finite (SkyMapper.azimuth (sky q))) points ->
  exists stats lo hi west east,
    get_statistics available get_sun self = Ok stats
    /\ altitude_range stats = (Fin lo, Fin hi)
    /\ azimuth_range stats = (Fin west, Fin east)
    /\ altitude_span stats = Fin (hi - lo) /\ 0 <= hi - lo
    /\ azimuth_span stats = Fin (east - west) /\ 0 <= east - west
    /\ (forall q, In q points ->
          exists alt az,
            SkyMapper.altitude (sky q) = Fin alt
            /\ SkyMapper.azimuth (sky q) = Fin az
            /\ lo <= alt <= hi /\ west <= az <= east)
    /\ (exists q, In q points /\ SkyMapper.altitude (sky q) = Fin lo)
    /\ (exists q, In q points /\ SkyMapper.altitude (sky q) = Fin hi)
    /\ anchor_altitude stats = SkyMapper.altitude (anchor_data self)
    /\ anchor_azimuth stats = SkyMapper.azimuth (anchor_data self)
    /\ anchor_date stats = anchor_datetime self
    /\ location stats = (latitude self, longitude self).
Proof.
  intros Hgen Hne Halt Haz.
  destruct (py_min_finite (fun q => SkyMapper.altitude (sky q)) points Hne Halt)
    as (lo & Hmin & Hlo & Hlo_att).
  destruct (py_max_finite (fun q => SkyMapper.altitude (sky q)) points Hne Halt)
    as (hi & Hmax & Hhi & Hhi_att).
  destruct (py_min_finite (fun q => SkyMapper.azimuth (sky q)) points Hne Haz)
    as (west & Hwest & Hw & _).
  destruct (py_max_finite (fun q => SkyMapper.azimuth (sky q)) points Hne Haz)
    as (east & Heast & He & _).
  assert (Hwitness : exists q, In q points).
  { destruct points as [| q rest]; [contradiction |].
    exists q. left. reflexivity. }
  destruct Hwitness as [q0 Hq0].
  eexists. exists lo, hi, west, east.
  split.
  { unfold get_statistics. rewrite Hgen. cbn [bind].
    rewrite Hmin, Hmax, Hwest, Heast. cbn [bind]. reflexivity. }
  cbn [altitude_range azimuth_range altitude_span azimuth_span anchor_altitude
       anchor_azimuth anchor_date location sub neg add].
  split; [reflexivity |]. split; [reflexivity |].
  split; [reflexivity |]. split.
  { destruct (Hlo q0 Hq0) as (x & Hx & Hle).
    destruct (Hhi q0 Hq0) as (x' & Hx' & Hle').
    rewrite Hx in Hx'. injection Hx' as <-. lra. }
  split; [reflexivity |]. split.
  { destruct (Hw q0 Hq0) as (x & Hx & Hle).
    destruct (He q0 Hq0) as (x' & Hx' & Hle').
    rewrite Hx in Hx'. injection Hx' as <-. lra. }
  split.
  { intros q Hq.
    destruct (Hlo q Hq) as (alt & Ha & Hle1).
    destruct (Hhi q Hq) as (alt' & Ha' & Hle2).
    destruct (Hw q Hq) as (az & Hz & Hle3).
    destruct (He q Hq) as (az' & Hz' & Hle4).
    rewrite Ha in Ha'. injection Ha' as <-.
    rewrite Hz in Hz'. injection Hz' as <-.
    exists alt, az. repeat split; assumption. }
  split; [exact Hlo_att |]. split; [exact Hhi_att |].
  repeat split.
Qed.

End Statistics.

(** At the north pole the sun of the equinox day is on the horizon, which
    the loop counts as visible. *)
Lemma polar_equinox_visible (lon : R) (dt : datetime) :
  tm_yday dt = 81%Z ->
  NP.ltb (SkyMapper.altitude
            (SkyMapper.map_single_point (mapper_at 90 lon)
               (approximate_result dt))) (NP.Fin 0) = false.
Proof.
  intros Hday. pose proof PI_RGT_0 as HPI.
  destruct (anchor_position 90 lon dt) as [Ha _]. rewrite Ha.
  rewrite (altitude_closed_form (mapper_at 90 lon) (90 * (PI / 180)) eq_refl).
  rewrite Hday, declination_value_equinox. unfold sin_alt.
  rewrite quarter_turn, Rmult_0_l, sin_0, cos_PI2, sin_PI2.
  replace (1 * 0 + 0 * Rtrigo_def.cos 0
           * Rtrigo_def.cos (hour_angle_value lon dt * (PI / 180)))
    with 0 by ring.
  rewrite asin_0. unfold NP.ltb, NP.gtb.
  destruct (Rgt_dec 0 (0 * (180 / PI))) as [Hgt | _]; [lra | reflexivity].
Qed.

Lemma statistics_need_calibration_witness :
  let get_sun := fun _ : datetime => Raise (RuntimeError "unavailable") in
  (exists e,
     ImageAnchorer.get_statistics false get_sun polar_anchorer = Raise e)
  /\ forall year_data,
       AnalemmaCalculator.calculate_year false get_sun
         (ImageAnchorer.calculator polar_anchorer)
         (dt_hour (ImageAnchorer.anchor_datetime polar_anchorer))
         (dt_minute (ImageAnchorer.anchor_datetime polar_anchorer))
         365 = Ok year_data ->
       let all_below :=
         forallb (fun p => NP.ltb (SkyMapper.altitude p) (NP.Fin 0))
           (SkyMapper.map_to_horizon
              (ImageAnchorer.sky_mapper polar_anchorer) year_data) in
       (all_below = false ->
        ImageAnchorer.get_statistics false get_sun polar_anchorer
        = Raise (ValueError ImageAnchorer.must_calibrate))
       /\ (all_below = true ->
           exists e, py_min [] = Raise e
                     /\ ImageAnchorer.get_statistics false get_sun
                          polar_anchorer = Raise e).
Proof.
  intros get_sun.
  apply (statistics_need_calibration false get_sun polar_anchorer).
  reflexivity.
Defined.

Lemma statistics_of_visible_year_witness :
  let get_sun := fun _ : datetime => Raise (RuntimeError "unavailable") in
  exists self points stats lo hi west east,
    ImageAnchorer.calibrate_from_field_of_view polar_anchorer
      (ImageAnchorer.PyFloat (NP.Fin 60)) (ImageAnchorer.PyFloat (NP.Fin 40))
      = (Ok tt, self)
    /\ ImageAnchorer.generate_analemma_points false get_sun self 365
       = Ok points
    /\ points <> []
    /\ ImageAnchorer.get_statistics false get_sun self = Ok stats
    /\ ImageAnchorer.altitude_range stats = (NP.Fin lo, NP.Fin hi)
    /\ ImageAnchorer.azimuth_range stats = (NP.Fin west, NP.Fin east)
    /\ ImageAnchorer.altitude_span stats = NP.Fin (hi - lo) /\ 0 <= hi - lo
    /\ ImageAnchorer.azimuth_span stats = NP.Fin (east - west)
    /\ 0 <= east - west.
Proof.
  intros get_sun.
  destruct (fov_calibration_succeeds polar_anchorer 60 40) as [self Hcal];
    [lra | lra |].
  assert (Hlat : 23.45 < Rabs 90 <= 90) by (rewrite Rabs_pos_eq; lra).
  destruct (off_tropics_pipeline false get_sun false (fun _ => ([], 0%nat))
              2026 sample_image equinox_noon 90 0 (Some (1, 0)%Z) true
              polar_anchorer self 60 40 365 polar_anchorer_init Hcal Hlat)
    as (Hmapper & Hy & Hfin & points & Hpoints & Hgen);
    try (cbn; lia).
  destruct (visible_points_spec self _ points Hpoints) as [Hmap _].
  assert (Hin : forall q, In q points ->
            exists alt az,
              SkyMapper.altitude (ImageAnchorer.sky q) = NP.Fin alt
              /\ SkyMapper.azimuth (ImageAnchorer.sky q) = NP.Fin az).
  { intros q Hq.
    assert (Hsky : In (ImageAnchorer.sky q) (map ImageAnchorer.sky points))
      by (apply in_map; exact Hq).
    rewrite Hmap in Hsky. apply filter_In in Hsky. destruct Hsky as [Hsky _].
    destruct (Hfin _ Hsky) as (alt & az & Ha & Hz & _).
    exists alt, az. split; assumption. }
  assert (Hne : points <> []).
  { intros ->. cbn [map] in Hmap.
    destruct (add_days_from_new_year 2026 12 0 80) as (d & Hadd & _ & _ & Hday & _);
      [lia |].
    assert (Hvis : In (SkyMapper.map_single_point (mapper_at 90 0)
                         (approximate_result d))
                     (@nil SkyMapper.sky_result)).
    { rewrite Hmap. apply filter_In. split.
      - unfold SkyMapper.map_to_horizon. apply in_map.
        apply in_map_iff. exists 80%nat. split.
        + unfold date_after. cbn [dt_year dt_hour dt_minute equinox_noon].
          rewrite Hadd. reflexivity.
        + apply in_seq. lia.
      - rewrite polar_equinox_visible; [reflexivity | exact Hday]. }
    destruct Hvis. }
  destruct (statistics_of_visible_year false get_sun self points Hgen Hne)
    as (stats & lo & hi & west & east & Hstats & Hr1 & Hr2 & Hs1 & Hp1 & Hs2
        & Hp2 & _).
  - apply Forall_forall. intros q Hq.
    destruct (Hin q Hq) as (alt & az & -> & _). exact I.
  - apply Forall_forall. intros q Hq.
    destruct (Hin q Hq) as (alt & az & _ & ->). exact I.
  - exists self, points, stats, lo, hi, west, east.
    repeat split; assumption.
Defined.

(** ** Construction and detection *)

Lemma detection_in_bounds_witness :
  exists x y,
    ImageAnchorer._detect_sun_position true label_whole_mask sample_image
      = Ok (x, y)
    /\ (0 <= x < 3)%Z
    /\ (0 <= y < Z.of_nat (List.length (gray_of sample_image)))%Z.
Proof.
  apply (detection_in_bounds true label_whole_mask sample_image 3).
  - intros row [<- | [<- | []]]; reflexivity.
  - exists 200%Z. split; [cbn; tauto | reflexivity].
  - intros _ max_val Hmax.
    change (array_max (gray_of sample_image)) with (@Ok Z 200%Z) in Hmax.
    injection Hmax as <-.
    intros i Hi. cbn [label_whole_mask snd fst] in *.
    assert (i = 1%nat) as -> by lia.
    split; [discriminate |].
    intros y x w [E | []]. injection E as <- <- <-. reflexivity.
Defined.

Section Construction.

Import NP ImageAnchorer.

Variable has_scipy : bool.
Variable ndimage_label : list (list bool) -> list (list nat) * nat.
Variable available : bool.
Variable current_year : Z.
Variable get_sun : datetime -> result sun_coord.

(** X26. Where the constructor takes the sun pixel from, for a finite
    location.  A pixel that is given is kept and detection does not run, so
    construction cannot fail, even with [auto_detect_sun] on; with no pixel
    and detection off the pixel is the centre [(width // 2, height // 2)];
    with no pixel and detection on, the constructor returns the detected
    pixel and raises whatever detection raises.  Every anchorer it returns
    is uncalibrated and computes in approximate mode. *)
Theorem constructor_sun_pixel
    (img : pil_image) (dt : datetime) (lat lon : R) :
  let init := __init__ has_scipy ndimage_label available current_year get_sun
                img dt (Fin lat) (Fin lon) in
  (forall p auto, exists self, init (Some p) auto = Ok self /\ sun_pixel self = p)
  /\ (exists self,
        init None false = Ok self
        /\ sun_pixel self
           = ((fst (image_size img) / 2)%Z, (snd (image_size img) / 2)%Z))
  /\ (forall p, _detect_sun_position has_scipy ndimage_label img = Ok p ->
        exists self, init None true = Ok self /\ sun_pixel self = p)
  /\ (forall e, _detect_sun_position has_scipy ndimage_label img = Raise e ->
        init None true = Raise e)
  /\ (forall pixel auto self, init pixel auto = Ok self ->
        pixels_per_degree_az self = None
        /\ pixels_per_degree_alt self = None
        /\ AnalemmaCalculator.mode (calculator self) = "approximate"
        /\ anchor_datetime self = dt
        /\ (image_width self, image_height self) = image_size img
        /\ anchor_data self
           = SkyMapper.map_single_point (sky_mapper self) (approximate_result dt)).
Proof.
  intros init. subst init. split; [| split; [| split; [| split]]].
  - intros p auto. rewrite anchorer_init. cbn [bind].
    eexists. split; reflexivity.
  - rewrite anchorer_init. cbn [bind]. eexists. split; reflexivity.
  - intros p Hdetect. rewrite anchorer_init, Hdetect. cbn [bind].
    eexists. split; reflexivity.
  - intros e Hdetect. rewrite anchorer_init, Hdetect. reflexivity.
  - intros pixel auto self Hinit. rewrite anchorer_init in Hinit.
    match type of Hinit with
    | bind ?m _ = _ => destruct m as [p | e]; cbn [bind] in Hinit;
                       [| discriminate]
    end.
    injection Hinit as <-.
    cbn [anchorer_at pixels_per_degree_az pixels_per_degree_alt calculator
         AnalemmaCalculator.mode anchor_datetime image_width image_height
         anchor_data sky_mapper].
    repeat split. destruct (image_size img). reflexivity.
Qed.

End Construction.

(** ** Metadata files *)

Section ParserProperties.

Import MetadataParser.

Variable py_float : string -> result NP.float64.
Variable strptime : string -> string -> result datetime.

Let parse_lines := parse_lines py_float strptime.
Let parse_metadata := parse_metadata py_float strptime.
Let effect_of := effect_of py_float strptime.

(** One turn of the loop. *)
Lemma parse_lines_cons (line : string) (rest : list string) (metadata : dict) :
  parse_lines (line :: rest) metadata =
    match effect_of line with
    | Stop => Ok metadata
    | Skip => parse_lines rest metadata
    | Assign key v => parse_lines rest (dict_set metadata key v)
    | Fail e => Raise e
    end.
Proof.
  unfold parse_lines, effect_of, Closed.effect_of.
  cbn [MetadataParser.parse_lines].
  destruct (is_separator (strip line)); [reflexivity |].
  destruct ((strip line =? "")%string || startswith "#" (strip line));
    [reflexivity |].
  destruct (split_once (strip line)) as [[key value] |]; [| reflexivity].
  destruct (existsb (String.eqb (lower (strip key))) float_keys).
  - destruct (py_float (strip value)); reflexivity.
  - destruct (lower (strip key) =? "datetime")%string; [| reflexivity].
    destruct (strptime (strip value) "%Y-%m-%d %H:%M:%S"); reflexivity.
Qed.

Lemma parse_lines_stop (before after : list string) (sep : string)
    (metadata : dict) :
  effect_of sep = Stop ->
  parse_lines (before ++ sep :: after) metadata = parse_lines before metadata.
Proof.
  intros Hsep. revert metadata.
  induction before as [| line before IH]; intros metadata.
  - cbn [app]. rewrite parse_lines_cons, Hsep. reflexivity.
  - cbn [app]. rewrite !parse_lines_cons.
    destruct (effect_of line); try reflexivity; apply IH.
Qed.

Lemma parse_lines_skip (before after : list string) (line : string)
    (metadata : dict) :
  effect_of line = Skip ->
  parse_lines (before ++ line :: after) metadata
  = parse_lines (before ++ after) metadata.
Proof.
  intros Hskip. revert metadata.
  induction before as [| first before IH]; intros metadata.
  - cbn [app]. rewrite parse_lines_cons, Hskip. reflexivity.
  - cbn [app]. rewrite !parse_lines_cons.
    destruct (effect_of first); try reflexivity; apply IH.
Qed.

(** X27. Nothing after the separator is read: when a line, stripped,
    contains [--- REFERENCE DATA] or [--- ADDITIONAL METADATA], the result
    of [parse_metadata], returned or raised, is that of the lines before
    it, whatever follows. *)
Theorem parse_stops_at_separator (before after : list string) (sep : string) :
  is_separator (strip sep) = true ->
  parse_metadata (before ++ sep :: after) = parse_metadata before.
Proof.
  intros Hsep. apply parse_lines_stop.
  unfold effect_of, Closed.effect_of. rewrite Hsep. reflexivity.
Qed.

(** X28. A line that is not a separator and, once stripped, is empty,
    starts with [#] or has no [=], can be deleted from the file without
    changing what [parse_metadata] returns or raises. *)
Theorem parse_ignores_comments (before after : list string) (line : string) :
  is_separator (strip line) = false ->
  strip line = ""%string
  \/ startswith "#" (strip line) = true
  \/ split_once (strip line) = None ->
  parse_metadata (before ++ line :: after) = parse_metadata (before ++ after).
Proof.
  intros Hsep Hcases. apply parse_lines_skip.
  unfold effect_of, Closed.effect_of. rewrite Hsep.
  destruct Hcases as [-> | [Hcomment | Hsplit]].
  - reflexivity.
  - rewrite Hcomment, orb_true_r. reflexivity.
  - rewrite Hsplit. destruct (_ || _)%bool; reflexivity.
Qed.

Lemma lower_char_idem (c : Ascii.ascii) : lower_char (lower_char c) = lower_char c.
Proof. destruct c as [[] [] [] [] [] [] [] []]; reflexivity. Qed.

Lemma lower_idem (s : string) : lower (lower s) = lower s.
Proof.
  induction s as [| c s IH]; [reflexivity |].
  cbn [lower]. rewrite lower_char_idem, IH. reflexivity.
Qed.

Lemma float_key_spec (k : string) :
  existsb (String.eqb k) float_keys = true <-> In k float_keys.
Proof.
  rewrite existsb_exists. split.
  - intros (k' & Hin & Heq). apply String.eqb_eq in Heq. subst k'. exact Hin.
  - intros Hin. exists k. split; [exact Hin | apply String.eqb_refl].
Qed.

(** An assignment made by a line is well typed. *)
Lemma assignment_typed (line key : string) (v : value) :
  effect_of line = Assign key v -> well_typed (key, v).
Proof.
  unfold effect_of, Closed.effect_of.
  destruct (is_separator (strip line)); [discriminate |].
  destruct ((strip line =? "")%string || startswith "#" (strip line));
    [discriminate |].
  destruct (split_once (strip line)) as [[k value] |]; [| discriminate].
  destruct (existsb (String.eqb (lower (strip k))) float_keys) eqn:Hfloat.
  - destruct (py_float (strip value)); [| discriminate].
    intros E. injection E as <- <-. split; [apply lower_idem |].
    apply float_key_spec. exact Hfloat.
  - destruct (lower (strip k) =? "datetime")%string eqn:Hdate.
    + destruct (strptime (strip value) "%Y-%m-%d %H:%M:%S"); [| discriminate].
      intros E. injection E as <- <-. split; [apply lower_idem |].
      apply String.eqb_eq. exact Hdate.
    + intros E. injection E as <- <-. split; [apply lower_idem |]. split.
      * intros Hin. apply float_key_spec in Hin. congruence.
      * apply String.eqb_neq. exact Hdate.
Qed.

Lemma dict_set_In (d : dict) (k : string) (v : value) (entry : string * value) :
  In entry (dict_set d k v) -> entry = (k, v) \/ In entry d.
Proof.
  induction d as [| [k' v'] d IH]; cbn [dict_set].
  - intros [<- | []]. left. reflexivity.
  - destruct (k' =? k)%string eqn:Hk.
    + apply String.eqb_eq in Hk. subst k'.
      intros [<- | Hin]; [left; reflexivity | right; right; exact Hin].
    + intros [<- | Hin]; [right; left; reflexivity |].
      destruct (IH Hin) as [-> | Hold]; [left; reflexivity |].
      right. right. exact Hold.
Qed.

Lemma dict_set_keys (d : dict) (k : string) (v : value) :
  forall k', In k' (map fst (dict_set d k v)) -> k' = k \/ In k' (map fst d).
Proof.
  intros k' Hin. apply in_map_iff in Hin. destruct Hin as ([k0 v0] & <- & Hin).
  destruct (dict_set_In d k v _ Hin) as [E | Hold].
  - injection E as -> _. left. reflexivity.
  - right. apply in_map_iff. exists (k0, v0). split; [reflexivity | exact Hold].
Qed.

Lemma dict_set_NoDup (d : dict) (k : string) (v : value) :
  NoDup (map fst d) -> NoDup (map fst (dict_set d k v)).
Proof.
  induction d as [| [k' v'] d IH]; cbn [dict_set map fst]; intros Hnd.
  - constructor; [intros [] | constructor].
  - inversion Hnd as [| ? ? Hnotin Hrest]; subst.
    destruct (k' =? k)%string eqn:Hk; cbn [map fst].
    + constructor; assumption.
    + constructor; [| apply IH; exact Hrest].
      intros Hin. destruct (dict_set_keys d k v k' Hin) as [-> | Hold].
      * rewrite String.eqb_refl in Hk. discriminate.
      * contradiction.
Qed.

(** The loop keeps the keys distinct and the entries well typed. *)
Lemma parse_lines_invariant (lines : list string) (start metadata : dict) :
  parse_lines lines start = Ok metadata ->
  NoDup (map fst start) /\ Forall well_typed start ->
  NoDup (map fst metadata) /\ Forall well_typed metadata.
Proof.
  revert start. induction lines as [| line rest IH]; intros start.
  - intros E. injection E as <-. tauto.
  - rewrite parse_lines_cons.
    destruct (effect_of line) as [| | key v | e] eqn:Heffect.
    + intros E. injection E as <-. tauto.
    + apply IH.
    + intros Hparse [Hnd Htyped]. apply (IH _ Hparse). split.
      * apply dict_set_NoDup. exact Hnd.
      * apply Forall_forall. intros entry Hin.
        destruct (dict_set_In _ _ _ _ Hin) as [-> | Hold].
        -- exact (assignment_typed line key v Heffect).
        -- exact (proj1 (Forall_forall _ _) Htyped entry Hold).
    + discriminate.
Qed.

(** X29. Whenever [parse_metadata] returns, the dictionary has distinct,
    lower-case keys, and every value has the type its key calls for: a
    [float] exactly under the six numeric keys, a [datetime] exactly under
    [datetime], and a [str] under every other key. *)
Theorem parsed_metadata_typed (lines : list string) (metadata : dict) :
  parse_metadata lines = Ok metadata ->
  NoDup (map fst metadata) /\ Forall well_typed metadata.
Proof.
  intros Hparse. apply (parse_lines_invariant lines [] metadata Hparse).
  split; constructor.
Qed.

End ParserProperties.

Lemma sample_metadata_parsed :
  MetadataParser.parse_metadata sample_float sample_strptime sample_metadata
  = Ok [("latitude"%string, MetadataParser.VFloat (NP.Fin 22.3));
        ("location_name"%string, MetadataParser.VStr "Hong Kong");
        ("longitude"%string, MetadataParser.VFloat (NP.Fin 114.2))].
Proof. reflexivity. Qed.

Lemma parse_stops_at_separator_witness :
  MetadataParser.parse_metadata sample_float sample_strptime sample_metadata
  = MetadataParser.parse_metadata sample_float sample_strptime
      (firstn 5 sample_metadata).
Proof.
  apply (parse_stops_at_separator sample_float sample_strptime
           (firstn 5 sample_metadata) (skipn 6 sample_metadata)
           (nth 5 sample_metadata EmptyString)).
  reflexivity.
Defined.

Lemma parse_ignores_comments_witness :
  MetadataParser.parse_metadata sample_float sample_strptime sample_metadata
  = MetadataParser.parse_metadata sample_float sample_strptime
      (firstn 3 sample_metadata ++ skipn 4 sample_metadata).
Proof.
  apply (parse_ignores_comments sample_float sample_strptime
           (firstn 3 sample_metadata) (skipn 4 sample_metadata)
           (nth 3 sample_metadata EmptyString)).
  - reflexivity.
  - left. reflexivity.
Defined.

Lemma parsed_metadata_typed_witness :
  let metadata :=
    [("latitude"%string, MetadataParser.VFloat (NP.Fin 22.3));
     ("location_name"%string, MetadataParser.VStr "Hong Kong");
     ("longitude"%string, MetadataParser.VFloat (NP.Fin 114.2))] in
  NoDup (map fst metadata) /\ Forall well_typed metadata.
Proof.
  intros metadata.
  apply (parsed_metadata_typed sample_float sample_strptime sample_metadata).
  exact sample_metadata_parsed.
Defined.

(** ** The brightest-pixel tier of detection *)

Section BrightestPixel.

Lemma enumerate_from_values {A : Type} (l : list A) (k : Z) :
  map snd (enumerate_from k l) = l.
Proof.
  revert k. induction l as [| a l IH]; intros k; [reflexivity |].
  cbn [enumerate_from map snd]. rewrite IH. reflexivity.
Qed.

(** The values of the indexed grid, in order, are the flattened grid. *)
Lemma indexed_values (rows : list (list Z)) :
  map (fun '(_, _, g) => g) (indexed rows) = List.concat rows.
Proof.
  unfold indexed. generalize 0%Z at 2.
  induction rows as [| row rows IH]; intros k; [reflexivity |].
  cbn [enumerate_from flat_map List.concat]. rewrite map_app, IH. f_equal.
  rewrite map_map. rewrite <- (enumerate_from_values row 0) at 2.
  apply map_ext. intros [x g]. reflexivity.
Qed.

(** [argmax_from] finds the first entry that carries the maximum. *)
Lemma argmax_from_first {I : Type} (l : list (I * Z)) (i : I) (v : Z) :
  exists l1 l2,
    (i, v) :: l = (l1 ++ (argmax_from i v l, list_max v (map snd l)) :: l2)%list
    /\ forall p, In p l1 -> (snd p < list_max v (map snd l))%Z.
Proof.
  revert i v. induction l as [| [j w] l IH]; intros i v.
  - exists [], []. split; [reflexivity | intros p []].
  - cbn [argmax_from map snd]. unfold list_max. cbn [fold_left].
    fold (list_max (Z.max v w) (map snd l)).
    destruct (Z.ltb_spec v w) as [Hlt | Hge].
    + rewrite Z.max_r by lia.
      destruct (IH j w) as (l1 & l2 & Heq & Hbefore).
      exists ((i, v) :: l1), l2. split.
      * cbn [app]. f_equal. exact Heq.
      * intros p [<- | Hp]; [| apply Hbefore; exact Hp]. cbn [snd].
        destruct (list_max_spec (map snd l) w) as [Hle _].
        specialize (Hle w (or_introl eq_refl)). lia.
    + rewrite Z.max_l by lia.
      destruct (IH i v) as (l1 & l2 & Heq & Hbefore).
      destruct l1 as [| first l1].
      * cbn [app] in Heq. injection Heq as Hi Hv Hl.
        exists [], ((j, w) :: l). split; [| intros p []].
        cbn [app]. rewrite <- Hi, <- Hv. reflexivity.
      * cbn [app] in Heq. injection Heq as Hfirst Hl. subst first.
        exists ((i, v) :: (j, w) :: l1), l2. split.
        -- cbn [app]. do 2 f_equal. exact Hl.
        -- pose proof (Hbefore (i, v) (or_introl eq_refl)) as Hv.
           cbn [snd] in Hv.
           intros p [<- | [<- | Hp]]; cbn [snd]; try lia.
           apply Hbefore. right. exact Hp.
Qed.

(** The brightest pixel is the first pixel, in row-major order, that
    carries the maximum of the grid. *)
Lemma brightest_pixel_first (gray : list (list Z)) (max_val : Z) :
  array_max gray = Ok max_val ->
  exists before after,
    indexed gray
    = (before ++ (fst (brightest_pixel gray), snd (brightest_pixel gray),
                  max_val) :: after)%list
    /\ forall y x g, In (y, x, g) before -> (g < max_val)%Z.
Proof.
  unfold array_max, brightest_pixel. rewrite <- indexed_values.
  destruct (indexed gray) as [| [[y0 x0] g0] ps]; [discriminate |].
  cbn [map]. intros E. injection E as <-.
  set (f := fun '(y, x, g) => ((y, x), g) : (Z * Z) * Z).
  destruct (argmax_from_first (map f ps) (y0, x0) g0)
    as (l1 & l2 & Heq & Hbefore).
  assert (Hvalues : map snd (map f ps) = map (fun '(_, _, g) => g) ps).
  { rewrite map_map. apply map_ext. intros [[y x] g]. reflexivity. }
  rewrite Hvalues in Heq, Hbefore.
  set (M := list_max g0 (map (fun '(_, _, g) => g) ps)) in *.
  set (r := argmax_from (y0, x0) g0 (map f ps)) in *.
  change ((y0, x0, g0) :: map f ps) with (map f ((y0, x0, g0) :: ps)) in Heq.
  apply map_eq_app in Heq. destruct Heq as (before & rest & Hsplit & Hl1 & Hrest).
  apply map_eq_cons in Hrest. destruct Hrest as (hit & after & -> & Hhit & _).
  destruct hit as [[y x] g]. cbn in Hhit. injection Hhit as Hr HM.
  exists before, after. split.
  - rewrite Hsplit, <- Hr. cbn [fst snd]. rewrite HM. reflexivity.
  - intros y' x' g' Hin.
    apply (Hbefore ((y', x'), g')). rewrite <- Hl1.
    apply (in_map f) in Hin. exact Hin.
Qed.

Variable has_scipy : bool.
Variable ndimage_label : list (list bool) -> list (list nat) * nat.

(** X30. The last tier of detection.  When the labelling finds no
    component (with SciPy), or at most ten pixels pass the threshold
    (without SciPy), detection returns the first pixel, in row-major
    order, whose brightness is the maximum of the image. *)
Theorem detection_falls_back_to_brightest (img : pil_image) (max_val : Z) :
  let gray := gray_of img in
  let mask := map (map (is_bright max_val)) gray in
  array_max gray = Ok max_val ->
  (if has_scipy then snd (ndimage_label mask) = 0%nat
   else (Z.of_nat (List.length (select (fun b : bool => b) mask gray)) <= 10)%Z) ->
  exists x y before after,
    ImageAnchorer._detect_sun_position has_scipy ndimage_label img = Ok (x, y)
    /\ indexed gray = (before ++ (y, x, max_val) :: after)%list
    /\ forall y' x' g, In (y', x', g) before -> (g < max_val)%Z.
Proof.
  intros gray mask Hmax Htier.
  destruct (brightest_pixel_first gray max_val Hmax)
    as (before & after & Hsplit & Hbefore).
  exists (snd (brightest_pixel gray)), (fst (brightest_pixel gray)),
         before, after.
  split; [| split; [exact Hsplit | exact Hbefore]].
  rewrite detect_gray_of. fold gray.
  unfold ImageAnchorer._detect_sun_position. rewrite Hmax. cbn [bind].
  fold mask. destruct has_scipy.
  - destruct (ndimage_label mask) as [labeled n]. cbn [snd] in Htier.
    subst n. cbn [Nat.ltb Nat.leb].
    destruct (brightest_pixel gray). reflexivity.
  - destruct (Z.ltb_spec 10
                (Z.of_nat (List.length (select (fun b : bool => b) mask gray))))
      as [Hmany | _]; [lia |].
    destruct (brightest_pixel gray). reflexivity.
Qed.

End BrightestPixel.

Lemma detection_falls_back_to_brightest_witness :
  exists x y before after,
    ImageAnchorer._detect_sun_position false label_whole_mask sample_image
      = Ok (x, y)
    /\ indexed (gray_of sample_image)
       = (before ++ (y, x, 200%Z) :: after)%list
    /\ forall y' x' g, In (y', x', g) before -> (g < 200)%Z.
Proof.
  apply (detection_falls_back_to_brightest false label_whole_mask
           sample_image 200).
  - reflexivity.
  - vm_compute. discriminate.
Defined.
